(** * gcn_monitor: the polling and extraction pipeline

    A shallow embedding of the Python sources
      data_manager.py   (ledger store, result store)
      gcn_utils.py      (text retriever)
      llm_utils.py      (extraction engine)
      main.py           (polling loop, start of the service)
      debug_circular_parser.py (debug tool)
    followed by the properties of the pipeline.

    Conventions.
    - A Python [str] is a [string]; a character stands for one code point
      (code points 0..255), so [len] is [String.length].
    - A Python [dict] with string keys is a [gmap string _]; equality of maps
      is equality of dicts (insertion order is not observable by [==]).
    - [None] is [JNull] for a value stored in a record and [None : option _]
      for a local that is either a text or [None].
    - A function that can raise returns a [res]; a function that also touches
      the disk or the network runs in the monad [M] over the state it touches.
    - Calls to [logger] have no effect on any value below and are left out. *)

From Stdlib Require Import ZArith String Ascii List Bool Lia DecimalString.
From stdpp Require Import base option list gmap sets strings.

Set Warnings "-register-all".

(* ================================================================== *)
(** ** Python strings *)
(* ================================================================== *)

Module PyStr.

(** [str.isspace] on one character, for the code points 0..255. *)
Definition isspace (c : ascii) : bool :=
  let n := nat_of_ascii c in
  ((9 <=? n) && (n <=? 13)) || ((28 <=? n) && (n <=? 32))
  || (n =? 133) || (n =? 160).

Fixpoint lstrip (s : string) : string :=
  match s with
  | EmptyString => EmptyString
  | String c s' => if isspace c then lstrip s' else s
  end.

Definition rstrip (s : string) : string := String.rev (lstrip (String.rev s)).

(** [s.strip()] *)
Definition strip (s : string) : string := rstrip (lstrip s).

(** [bool(s)]: a string is true when it is not empty. *)
Definition truthy (s : string) : bool :=
  match s with EmptyString => false | String _ _ => true end.

(** [s.startswith(p)] *)
Definition startswith (s p : string) : bool := String.prefix p s.

(** [s.endswith(p)] *)
Definition endswith (s p : string) : bool :=
  String.prefix (String.rev p) (String.rev s).

(** [s[n:]] *)
Definition slice_from (n : nat) (s : string) : string :=
  String.substring n (String.length s - n) s.

(** [s[:n]] *)
Definition slice_to (n : nat) (s : string) : string := String.substring 0 n s.

(** [s[:-n]] for [n > 0] *)
Definition drop_last (n : nat) (s : string) : string :=
  String.substring 0 (String.length s - n) s.

(** [p in s] for two strings: [p] occurs in [s]. *)
Fixpoint contains (p s : string) : bool :=
  String.prefix p s ||
  match s with
  | EmptyString => false
  | String _ s' => contains p s'
  end.

Definition lower_char (c : ascii) : ascii :=
  let n := nat_of_ascii c in
  if ((65 <=? n) && (n <=? 90))
     || ((192 <=? n) && (n <=? 222) && negb (n =? 215))
  then ascii_of_nat (n + 32) else c.

(** [s.lower()] *)
Fixpoint lower (s : string) : string :=
  match s with
  | EmptyString => EmptyString
  | String c s' => String (lower_char c) (lower s')
  end.

(** [str(n)] for a natural number. *)
Definition of_nat (n : nat) : string := NilEmpty.string_of_uint (Nat.to_uint n).

Definition is_digit (c : ascii) : bool :=
  let n := nat_of_ascii c in (48 <=? n) && (n <=? 57).

Definition digit_val (c : ascii) : Z := Z.of_nat (nat_of_ascii c) - 48.

(** The digits of an integer literal as [int()] reads them: decimal digits,
    with single underscores allowed between two digits. [pending] tells
    that the previous character was an underscore. *)
Fixpoint int_digits (acc : Z) (pending : bool) (s : string) : option Z :=
  match s with
  | EmptyString => if pending then None else Some acc
  | String c s' =>
      if is_digit c then int_digits (10 * acc + digit_val c) false s'
      else if Ascii.eqb c "_"%char then
        (if pending then None else int_digits acc true s')
      else None
  end.

Definition int_unsigned (s : string) : option Z :=
  match s with
  | String c _ => if is_digit c then int_digits 0 false s else None
  | EmptyString => None
  end.

(** [int(s)] for a string [s]: [None] stands for [ValueError]. *)
Definition int (s : string) : option Z :=
  match strip s with
  | String "+"%char s' => int_unsigned s'
  | String "-"%char s' => Z.opp <$> int_unsigned s'
  | t => int_unsigned t
  end.

(** [s.splitlines()] as the iteration over a text file sees it: the text is
    cut at every line feed and carriage return. *)
Fixpoint lines_go (cur : string) (s : string) : list string :=
  match s with
  | EmptyString => [String.rev cur]
  | String c s' =>
      if Ascii.eqb c "010"%char || Ascii.eqb c "013"%char
      then String.rev cur :: lines_go EmptyString s'
      else lines_go (String c cur) s'
  end.

Definition lines (s : string) : list string := lines_go EmptyString s.

End PyStr.

(** Further functions on strings, for the ledger file and for
    debug_circular_parser.py. *)
Module PyText.

(** The text holds a line feed or a carriage return. *)
Fixpoint has_line_break (s : string) : bool :=
  match s with
  | EmptyString => false
  | String c s' =>
      Ascii.eqb c "010"%char || Ascii.eqb c "013"%char || has_line_break s'
  end.

(** [c in s] for a character [c] *)
Fixpoint has_char (c : ascii) (s : string) : bool :=
  match s with
  | EmptyString => false
  | String x s' => Ascii.eqb x c || has_char c s'
  end.

(** [c.isdigit()] for the code points 0..255: the decimal digits and the
    superscripts one, two and three. *)
Definition isdigit_char (c : ascii) : bool :=
  let n := nat_of_ascii c in
  ((48 <=? n) && (n <=? 57)) || (n =? 178) || (n =? 179) || (n =? 185).

Fixpoint all_digits (s : string) : bool :=
  match s with
  | EmptyString => true
  | String c s' => isdigit_char c && all_digits s'
  end.

(** [s.isdigit()] *)
Definition isdigit (s : string) : bool := PyStr.truthy s && all_digits s.

(** [s.split(sep)] for a separator of one character *)
Fixpoint split (sep : ascii) (s : string) : list string :=
  match s with
  | EmptyString => [EmptyString]
  | String c s' =>
      if Ascii.eqb c sep then EmptyString :: split sep s'
      else match split sep s' with
           | [] => [String c EmptyString]
           | part :: parts => String c part :: parts
           end
  end.

(** [l[-k]] for [k > 0]; [None] stands for [IndexError]. *)
Definition from_end {A} (l : list A) (k : nat) : option A :=
  rev l !! (k - 1)%nat.

End PyText.

(* ================================================================== *)
(** ** Python values, exceptions, results *)
(* ================================================================== *)

(** The values that [json.loads] produces and that the records hold.
    A float is kept as its 64-bit pattern: the pipeline never computes
    with it. *)
Inductive json : Type :=
| JNull
| JBool (b : bool)
| JInt (z : Z)
| JFloat (bits : Z)
| JStr (s : string)
| JArr (l : list json)
| JObj (m : gmap string json).

(** A text or [None], stored in a record. *)
Definition json_of_text (o : option string) : json :=
  match o with Some s => JStr s | None => JNull end.

(** The exception classes the sources name or can meet. Every one of them
    derives from [Exception]. *)
Inductive exn_class :=
| ETimeout            (* requests.exceptions.Timeout *)
| ERequestException   (* any other requests.exceptions.RequestException *)
| EJSONDecodeError    (* json.JSONDecodeError *)
| EValueError
| ETypeError
| EKeyError
| ENameError          (* NameError and UnboundLocalError *)
| EOSError
| EOther.             (* any other subclass of Exception *)

Record pyexn := PyExn { exn_cls : exn_class; exn_msg : string }.

(** [isinstance(e, C)] for the classes that appear in an [except] clause. *)
Definition is_Timeout (e : pyexn) : bool :=
  match exn_cls e with ETimeout => true | _ => false end.

Definition is_RequestException (e : pyexn) : bool :=
  match exn_cls e with ETimeout | ERequestException => true | _ => false end.

Definition is_JSONDecodeError (e : pyexn) : bool :=
  match exn_cls e with EJSONDecodeError => true | _ => false end.

(** [RequestException] derives from [IOError], which is [OSError]. *)
Definition is_OSError (e : pyexn) : bool :=
  match exn_cls e with
  | EOSError | ETimeout | ERequestException => true
  | _ => false
  end.

Definition is_Exception (e : pyexn) : bool := true.

Inductive res (A : Type) : Type :=
| Ok (a : A)
| Raise (e : pyexn).
Arguments Ok {A} a.
Arguments Raise {A} e.

Definition res_bind {A B} (r : res A) (k : A -> res B) : res B :=
  match r with Ok a => k a | Raise e => Raise e end.

(** Computations over a state [S] that may raise; the state reached when the
    exception is raised is kept, as the effects done so far are not undone. *)
Definition M (S A : Type) : Type := S -> res A * S.

Definition ret {S A} (a : A) : M S A := fun s => (Ok a, s).

Definition raise {S A} (e : pyexn) : M S A := fun s => (Raise e, s).

Definition bind {S A B} (m : M S A) (k : A -> M S B) : M S B :=
  fun s => match m s with
           | (Ok a, s') => k a s'
           | (Raise e, s') => (Raise e, s')
           end.

Definition lift_res {S A} (r : res A) : M S A := fun s => (r, s).

Definition get {S} : M S S := fun s => (Ok s, s).

Definition when {S} (b : bool) (m : M S unit) : M S unit :=
  if b then m else ret tt.

(** [try: m except C1: h1 except C2: h2 ...]: the first clause whose class
    matches handles the exception; what a handler raises is not handled by
    the clauses after it. *)
Fixpoint dispatch {S A} (clauses : list ((pyexn -> bool) * (pyexn -> M S A)))
    (e : pyexn) : M S A :=
  match clauses with
  | [] => raise e
  | (matches, h) :: rest => if matches e then h e else dispatch rest e
  end.

Definition try_except {S A} (m : M S A)
    (clauses : list ((pyexn -> bool) * (pyexn -> M S A))) : M S A :=
  fun s => match m s with
           | (Ok a, s') => (Ok a, s')
           | (Raise e, s') => dispatch clauses e s'
           end.

Declare Scope py_scope.
Delimit Scope py_scope with py.
Notation "'let*' x := m 'in' k" := (bind m (fun x => k))
  (at level 10, x name, m at level 100, k at level 200, only parsing)
  : py_scope.

(* ================================================================== *)
(** ** The file system *)
(* ================================================================== *)

(** A flat file system: the regular files with their contents and the set of
    directories. The current directory is the empty path. *)
Record fs := Fs { files : gmap string string; dirs : gset string }.

Module Os.

Definition os_error {A} (what path : string) : res A :=
  Raise (PyExn EOSError (what +:+ ": '" +:+ path +:+ "'")).

Fixpoint has_slash (s : string) : bool :=
  match s with
  | EmptyString => false
  | String c s' => Ascii.eqb c "/"%char || has_slash s'
  end.

(** [p[:p.rfind('/') + 1]]: the path up to its last slash, included. *)
Fixpoint upto_last_slash (p : string) : string :=
  match p with
  | EmptyString => EmptyString
  | String c p' =>
      if has_slash p then String c (upto_last_slash p') else EmptyString
  end.

Fixpoint all_slashes (s : string) : bool :=
  match s with
  | EmptyString => true
  | String c s' => Ascii.eqb c "/"%char && all_slashes s'
  end.

(** [s.rstrip('/')] *)
Fixpoint rstrip_slash (s : string) : string :=
  match s with
  | EmptyString => EmptyString
  | String c s' =>
      if all_slashes s then EmptyString else String c (rstrip_slash s')
  end.

(** [os.path.dirname(p)] (posixpath) *)
Definition dirname (p : string) : string :=
  let head := upto_last_slash p in
  if PyStr.truthy head && negb (all_slashes head)
  then rstrip_slash head
  else head.

(** [os.path.exists(p)] *)
Definition exists_ (w : fs) (p : string) : bool :=
  bool_decide (is_Some (files w !! p)) || bool_decide (p ∈ dirs w).

Definition is_dir (w : fs) (d : string) : bool :=
  match d with EmptyString => true | _ => bool_decide (d ∈ dirs w) end.

(** A file can be created or replaced at [p] when [p] is a path that is
    not a directory and whose parent is one. *)
Definition can_write (w : fs) (p : string) : bool :=
  PyStr.truthy p && negb (bool_decide (p ∈ dirs w)) && is_dir w (dirname p).

(** [os.makedirs(d, exist_ok=True)] *)
Definition makedirs (d : string) : M fs unit := fun w =>
  if bool_decide (is_Some (files w !! d))
  then (os_error "File exists" d, w)
  else (Ok tt, Fs (files w) ({[ d ]} ∪ dirs w)).

(** [open(p, 'r').read()] *)
Definition read_text (p : string) : M fs string := fun w =>
  match files w !! p with
  | Some c => (Ok c, w)
  | None => (os_error "No such file or directory" p, w)
  end.

(** [open(p, 'w')]: the file is created, or emptied when it exists. *)
Definition open_w (p : string) : M fs unit := fun w =>
  if can_write w p
  then (Ok tt, Fs (<[p := EmptyString]> (files w)) (dirs w))
  else (os_error "Cannot open for writing" p, w).

(** [open(p, 'a')]: the file is created when it does not exist. *)
Definition open_a (p : string) : M fs unit := fun w =>
  if can_write w p
  then (Ok tt, Fs (<[p := default EmptyString (files w !! p)]> (files w))
                  (dirs w))
  else (os_error "Cannot open for appending" p, w).

(** [f.write(s)] on a file opened at [p] *)
Definition write (p s : string) : M fs unit := fun w =>
  (Ok tt, Fs (<[p := default EmptyString (files w !! p) +:+ s]> (files w))
             (dirs w)).

(** [os.replace(src, dst)] *)
Definition replace (src dst : string) : M fs unit := fun w =>
  match files w !! src with
  | Some c =>
      if can_write w dst
      then (Ok tt, Fs (<[dst := c]> (delete src (files w))) (dirs w))
      else (os_error "Cannot rename to" dst, w)
  | None => (os_error "No such file or directory" src, w)
  end.

(** [os.rename(src, dst)]: between regular files it acts as [os.replace] *)
Definition rename (src dst : string) : M fs unit := replace src dst.

(** [os.remove(p)] *)
Definition remove (p : string) : M fs unit := fun w =>
  match files w !! p with
  | Some _ => (Ok tt, Fs (delete p (files w)) (dirs w))
  | None => (os_error "No such file or directory" p, w)
  end.

End Os.

(* ================================================================== *)
(** ** Configuration, libraries and the outside world *)
(* ================================================================== *)

(** The constants imported from [config] (config.py is not among the
    sources): they are parameters of the development. *)
Class Config := {
  PROCESSED_CIRCULARS_FILE : string;
  OUTPUT_JSON_FILE : string;
  BASE_GCN_URL : string;
  GCN_CIRCULARS_INDEX_URL : string;
  MAX_RETRIES_LLM : Z;
  CHECK_INTERVAL_SECONDS : Z;
  SKIP_CIRCULARS_BEFORE_ID : option string;
  SLACK_WEBHOOK_URL : string
}.

(** Functions of the Python libraries that the sources call and that are
    taken as given. *)
Class PyLib := {
  (** [json.loads(s)]: the value, or the message of the [JSONDecodeError] *)
  json_loads : string -> string + json;
  (** the text [json.dump(v, f, indent=4, ensure_ascii=False)] writes *)
  json_dumps : json -> res string;
  (** [urllib.parse.urljoin] *)
  urljoin : string -> string -> string;
  (** [str(v)], as an f-string formats a value *)
  py_str : json -> string;
  (** [time.strftime("%Y%m%d%H%M%S")] at the time of the call *)
  strftime : string
}.

(** What one call to the inference service does, as the [try] block of
    [extract_info_with_llm] sees it. *)
Inductive http_outcome :=
| PostRaises (e : pyexn)
    (* requests.post raised: the local [response] is not rebound *)
| BadStatus (text : string) (e : pyexn)
    (* response.raise_for_status() raised; bool(response) is False *)
| Responded (text : string) (body : pyexn + json).
    (* response.text, and what response.json() raised or returned *)

(** A bulletin reference, as the list parser yields it. *)
Record circ_info := CircInfo {
  ci_id : string;
  ci_url : string;
  ci_subject : option string
}.

(** The behaviour of the collaborators: the bulletin site, the inference
    service and the notification sink. *)
Class Outside := {
  (** gcn_utils.get_page_content *)
  get_page_content : string -> option string;
  (** gcn_utils.parse_gcn_circular_list (HTML scraping) *)
  parse_gcn_circular_list : string -> list circ_info;
  (** gcn_utils.get_circular_raw_text_from_page (HTML scraping) *)
  get_circular_raw_text_from_page : string -> option string;
  (** [requests.get(url).text] of a raw file, [None] on a request error *)
  get_text : string -> option string;
  (** the inference service: what the request made for a bulletin's text
      meets at the n-th attempt (from 0) *)
  llm_service : string -> string -> nat -> http_outcome;
  (** slack_notifier.send_slack_notification: its result or what it raises *)
  send_slack_notification : gmap string json -> res bool
}.

(** What the pipeline does to the outside, in order. *)
Inductive event :=
| EvFetchPage (url : string)
| EvFetchGcn3 (url : string)
| EvPost (circular_id : string) (attempt : nat)
| EvSleep (seconds : Z)
| EvNotify (record : gmap string json).

(** A name used in a module resolves when the module binds it. *)
Definition resolve (bound : list string) (name : string) : res unit :=
  if bool_decide (name ∈ bound) then Ok tt
  else Raise (PyExn ENameError ("name '" +:+ name +:+ "' is not defined")).

Definition nl : string := String "010"%char EmptyString.

(* ================================================================== *)
(** ** data_manager.py *)
(* ================================================================== *)

Section data_manager.
Context `{Config, PyLib}.

(** The names bound at the top of data_manager.py: its imports, its logger
    and its four functions. *)
Definition data_manager_names : list string :=
  [ "os"; "json"; "logging"; "PROCESSED_CIRCULARS_FILE"; "OUTPUT_JSON_FILE";
    "logger"; "load_processed_ids"; "save_processed_id"; "load_output_data";
    "save_output_data" ].

Definition load_processed_ids : M fs (gset string) := fun w =>
  if negb (Os.exists_ w PROCESSED_CIRCULARS_FILE) then (Ok ∅, w)
  else
    try_except
      (let* content := Os.read_text PROCESSED_CIRCULARS_FILE in
       ret (list_to_set
              (filter (fun l => PyStr.truthy l)
                      (PyStr.strip <$> PyStr.lines content))))%py
      [ (is_Exception, fun _ => ret ∅) ] w.

Definition save_processed_id (circular_id : string) : M fs unit :=
  try_except
    (let* w := get in
     let processed_ids_dir := Os.dirname PROCESSED_CIRCULARS_FILE in
     let* _ := when (PyStr.truthy processed_ids_dir
                     && negb (Os.exists_ w processed_ids_dir))
                    (Os.makedirs processed_ids_dir) in
     let* _ := Os.open_a PROCESSED_CIRCULARS_FILE in
     Os.write PROCESSED_CIRCULARS_FILE (circular_id +:+ nl))%py
    [ (is_Exception, fun _ => ret tt) ].

(** The body of [except json.JSONDecodeError:] in [load_output_data]. *)
Definition load_output_data_decode_error : M fs json :=
  (let* _ := lift_res (resolve data_manager_names "time") in
   let backup_file := OUTPUT_JSON_FILE +:+ ".bak." +:+ strftime in
   let* _ := try_except (Os.rename OUTPUT_JSON_FILE backup_file)
                        [ (is_OSError, fun _ => ret tt) ] in
   ret (JArr []))%py.

Definition load_output_data : M fs json := fun w =>
  if Os.exists_ w OUTPUT_JSON_FILE then
    try_except
      (let* content := Os.read_text OUTPUT_JSON_FILE in
       if negb (PyStr.truthy (PyStr.strip content)) then ret (JArr [])
       else match json_loads content with
            | inr v => ret v
            | inl msg => raise (PyExn EJSONDecodeError msg)
            end)%py
      [ (is_JSONDecodeError, fun _ => load_output_data_decode_error);
        (is_Exception, fun _ => ret (JArr [])) ] w
  else (Ok (JArr []), w).

(** The [try] block of [save_output_data] up to the assignment of
    [temp_file]. *)
Definition save_output_data_mkdir : M fs unit :=
  (let* w := get in
   let output_dir := Os.dirname OUTPUT_JSON_FILE in
   when (PyStr.truthy output_dir && negb (Os.exists_ w output_dir))
        (Os.makedirs output_dir))%py.

(** The rest of the [try] block. *)
Definition save_output_data_write (temp_file : string) (data_list : json)
    : M fs unit :=
  (let* _ := Os.open_w temp_file in
   let* text := lift_res (json_dumps data_list) in
   let* _ := Os.write temp_file text in
   Os.replace temp_file OUTPUT_JSON_FILE)%py.

(** The handler [except Exception] reads the local [temp_file]: when the
    exception comes from before its assignment the read itself raises;
    afterwards the handler removes the temporary file when it is there. *)
Definition save_output_data (data_list : json) : M fs unit :=
  (let* _ :=
     try_except save_output_data_mkdir
       [ (is_Exception, fun _ =>
            raise (PyExn ENameError
                     "cannot access local variable 'temp_file'")) ] in
   let temp_file := OUTPUT_JSON_FILE +:+ ".tmp" in
   try_except (save_output_data_write temp_file data_list)
     [ (is_Exception, fun _ =>
          let* w := get in
          when (Os.exists_ w temp_file)
               (try_except (Os.remove temp_file)
                           [ (is_OSError, fun _ => ret tt) ])) ])%py.

End data_manager.

(* ================================================================== *)
(** ** gcn_utils.py *)
(* ================================================================== *)

Section gcn_utils.
Context `{Config, PyLib, Outside}.

(** [bool(t)] for a local that holds a text or [None]. *)
Definition text_truthy (t : option string) : bool :=
  match t with Some s => PyStr.truthy s | None => false end.

(** [len(t or '')] *)
Definition len_or_empty (t : option string) : nat :=
  match t with Some s => String.length s | None => 0 end.

Definition get_circular_raw_text_from_gcn3_file (gcn3_url : string)
    : option string :=
  PyStr.strip <$> get_text gcn3_url.

(** The test for the two placeholder pages. *)
Definition is_placeholder (raw_text : string) : bool :=
  PyStr.startswith (PyStr.strip raw_text)
    "The GCN Circular system is evolving."
  || PyStr.startswith (PyStr.strip raw_text)
       "This GCN Circular is currently unavailable.".

(** [raw_text] after the first [if] of [get_circular_text_robust]. *)
Definition discard_placeholder (raw_text : option string) : option string :=
  match raw_text with
  | Some t =>
      if PyStr.truthy t && (50 <? String.length t)%nat
      then (if is_placeholder t then None else Some t)
      else Some t
  | None => None
  end.

(** The condition of the second [if]: the .gcn3 file is requested. *)
Definition needs_fallback (raw_text : option string) : bool :=
  negb (text_truthy raw_text) || (len_or_empty raw_text <? 50)%nat.

Definition gcn3_file_url (circular_id : string) : string :=
  urljoin BASE_GCN_URL ("/gcn3/" +:+ circular_id +:+ ".gcn3").

(** The text returned, and the requests made on the way. *)
Definition get_circular_text_robust (circular_id circular_page_url : string)
    : option string * list event :=
  let raw_text :=
    discard_placeholder (get_circular_raw_text_from_page circular_page_url) in
  if needs_fallback raw_text then
    let raw_text_gcn3 :=
      get_circular_raw_text_from_gcn3_file (gcn3_file_url circular_id) in
    let requests :=
      [EvFetchPage circular_page_url;
       EvFetchGcn3 (gcn3_file_url circular_id)] in
    if text_truthy raw_text_gcn3
       && (len_or_empty raw_text <? len_or_empty raw_text_gcn3)%nat
    then (raw_text_gcn3, requests)
    else if text_truthy raw_text then (raw_text, requests)
    else (None, requests)
  else (raw_text, [EvFetchPage circular_page_url]).

End gcn_utils.

(* ================================================================== *)
(** ** llm_utils.py *)
(* ================================================================== *)

(** The ["type"] entry of a schema property: one type name or a list. *)
Inductive type_spec :=
| OneType (t : string)
| AnyOf (ts : list string).

(** [JSON_SCHEMA_DICT["properties"]], in the order of the source. *)
Definition JSON_SCHEMA_PROPERTIES : list (string * type_spec) :=
  [ ("circular_id", AnyOf ["string"; "null"]);
    ("circular_url", AnyOf ["string"; "null"]);
    ("subject", AnyOf ["string"; "null"]);
    ("is_trigger_event", OneType "boolean");
    ("event_time_utc", AnyOf ["string"; "null"]);
    ("time_since_trigger", AnyOf ["string"; "null"]);
    ("ra", AnyOf ["string"; "null"]);
    ("dec", AnyOf ["string"; "null"]);
    ("magnitude", AnyOf ["string"; "number"; "null"]);
    ("magnitude_error", AnyOf ["string"; "number"; "null"]);
    ("is_upper_limit", OneType "boolean");
    ("wavelength_band", AnyOf ["string"; "null"]);
    ("multiple_bands_reported", OneType "boolean");
    ("telescope", AnyOf ["string"; "null"]);
    ("observatory", AnyOf ["string"; "null"]);
    ("raw_text", OneType "string");
    ("extraction_successful", OneType "boolean");
    ("llm_error_message", AnyOf ["string"; "null"]) ].

(** [JSON_SCHEMA_DICT["properties"].keys()] *)
Definition schema_keys : list string := fst <$> JSON_SCHEMA_PROPERTIES.

(** [details.get("type") == "boolean"] *)
Definition type_is_boolean (details : type_spec) : bool :=
  match details with
  | OneType t => String.eqb t "boolean"
  | AnyOf _ => false
  end.

Definition boolean_keys : list string :=
  [ "is_trigger_event"; "is_upper_limit"; "multiple_bands_reported" ].

(** The keys that the merge of the parsed answer leaves alone. *)
Definition protected_keys : list string :=
  [ "circular_id"; "circular_url"; "subject"; "raw_text";
    "extraction_successful"; "llm_error_message" ].

(** The keys of the service's envelope, dropped from a bare answer. *)
Definition envelope_keys : list string :=
  [ "model"; "created_at"; "done"; "total_duration"; "load_duration";
    "prompt_eval_count"; "prompt_eval_duration"; "eval_count";
    "eval_duration"; "context" ].

(** One step of the loop over the schema in
    [get_default_extracted_data]. *)
Definition default_step (data : gmap string json)
    (item : string * type_spec) : gmap string json :=
  let '(prop, details) := item in
  match data !! prop with
  | Some _ => data
  | None =>
      if type_is_boolean details && bool_decide (prop ∈ boolean_keys)
      then data
      else <[prop := JNull]> data
  end.

Definition get_default_extracted_data
    (circular_id circular_url subject raw_text : json) : gmap string json :=
  let data : gmap string json :=
    <["multiple_bands_reported" := JBool false]>
    (<["is_upper_limit" := JBool false]>
    (<["is_trigger_event" := JBool false]>
    (<["llm_error_message" := JNull]>
    (<["extraction_successful" := JBool false]>
    (<["raw_text" := raw_text]>
    (<["subject" := subject]>
    (<["circular_url" := circular_url]>
    (<["circular_id" := circular_id]> ∅)))))))) in
  fold_left default_step JSON_SCHEMA_PROPERTIES data.

(** [key in v] for a string [key] *)
Definition py_in (key : string) (v : json) : res bool :=
  match v with
  | JObj m => Ok (bool_decide (is_Some (m !! key)))
  | JArr l =>
      Ok (existsb (fun x => match x with
                            | JStr s => String.eqb s key
                            | _ => false
                            end) l)
  | JStr s => Ok (PyStr.contains key s)
  | _ => Raise (PyExn ETypeError "argument is not iterable")
  end.

(** [v[key]] for a string [key] *)
Definition py_getitem (v : json) (key : string) : res json :=
  match v with
  | JObj m =>
      match m !! key with
      | Some x => Ok x
      | None => Raise (PyExn EKeyError key)
      end
  | JArr _ =>
      Raise (PyExn ETypeError
               "list indices must be integers or slices, not str")
  | JStr _ =>
      Raise (PyExn ETypeError "string indices must be integers, not 'str'")
  | _ => Raise (PyExn ETypeError "object is not subscriptable")
  end.

(** [key in v and isinstance(v[key], str)], and so on for the other
    classes *)
Definition has_item_where (test : json -> bool) (v : json) (key : string)
    : res bool :=
  res_bind (py_in key v) (fun present =>
    if present then res_bind (py_getitem v key) (fun x => Ok (test x))
    else Ok false).

Definition is_str (v : json) : bool :=
  match v with JStr _ => true | _ => false end.

Definition is_dict_or_list (v : json) : bool :=
  match v with JObj _ | JArr _ => true | _ => false end.

Definition is_dict (v : json) : bool :=
  match v with JObj _ => true | _ => false end.

(** The locals of [extract_info_with_llm] that outlive one attempt, and the
    requests and pauses made so far. [response] holds the text of the last
    response object and its truth value ([response.ok]). *)
Record xstate := XState {
  extracted_data : gmap string json;
  response : option (string * bool);
  x_trace : list event
}.

Definition set_extracted_data (f : gmap string json -> gmap string json)
    : M xstate unit :=
  fun s => (Ok tt, XState (f (extracted_data s)) (response s) (x_trace s)).

Definition set_response (text : string) (ok : bool) : M xstate unit :=
  fun s => (Ok tt, XState (extracted_data s) (Some (text, ok)) (x_trace s)).

Definition x_emit (ev : event) : M xstate unit :=
  fun s => (Ok tt, XState (extracted_data s) (response s) (x_trace s ++ [ev])).

Section llm_utils.
Context `{Config, PyLib, Outside}.

(** [json.loads(s)] as a computation that may raise. *)
Definition loads (s : string) : res json :=
  match json_loads s with
  | inr v => Ok v
  | inl msg => Raise (PyExn EJSONDecodeError msg)
  end.

(** The text handed to the second [json.loads] when the first one failed:
    a markdown fence around the answer is cut off. *)
Definition strip_fence (llm_output_str : string) : string :=
  let clean_json_str := PyStr.strip llm_output_str in
  let clean_json_str :=
    if PyStr.startswith clean_json_str "```json"
    then PyStr.slice_from 7 clean_json_str else clean_json_str in
  let clean_json_str :=
    if PyStr.endswith clean_json_str "```"
    then PyStr.drop_last 3 clean_json_str else clean_json_str in
  PyStr.strip clean_json_str.

Definition parse_wrapped (llm_output_str : string) : res json :=
  match json_loads (PyStr.strip llm_output_str) with
  | inr v => Ok v
  | inl _ => loads (strip_fence llm_output_str)
  end.

(** The envelope without its bookkeeping keys. *)
Definition bare_answer (m : gmap string json) : gmap string json :=
  filter (fun kv => kv.1 ∉ envelope_keys) m.

(** From [api_response_json] to [parsed_llm_json]: the chain of [if],
    [elif], [else] at the head of the [try] block. *)
Definition parse_api_response (circular_id : string)
    (api_response_json : json) : res json :=
  res_bind (has_item_where is_str api_response_json "response") (fun wrapped =>
  if wrapped then
    res_bind (py_getitem api_response_json "response") (fun r =>
    match r with
    | JStr llm_output_str => parse_wrapped llm_output_str
    | _ => Raise (PyExn EOther "'response' is not a str")
    end)
  else
    res_bind (if is_dict api_response_json
              then py_in "model" api_response_json else Ok false)
    (fun enveloped =>
    if enveloped then
      res_bind (has_item_where is_dict_or_list api_response_json "response")
      (fun structured =>
      if structured then py_getitem api_response_json "response"
      else
        res_bind (has_item_where is_str api_response_json "response")
        (fun text =>
        if text then
          res_bind (py_getitem api_response_json "response") (fun r =>
          match r with
          | JStr s => loads s
          | _ => Raise (PyExn EOther "'response' is not a str")
          end)
        else
          match api_response_json with
          | JObj m =>
              let temp_json := bare_answer m in
              if bool_decide (size temp_json = 0)
              then
                Raise (PyExn EValueError
                  ("Unexpected LLM API response (format=json, no clear "
                   +:+ "data) for " +:+ circular_id +:+ ": "
                   +:+ py_str api_response_json))
              else Ok (JObj temp_json)
          | _ => Raise (PyExn EOther "not a dict")
          end))
    else
      Raise (PyExn EValueError
               ("Unexpected LLM API response structure for "
                +:+ circular_id +:+ ": " +:+ py_str api_response_json)))).

(** One turn of the loop that copies the schema's keys from the parsed
    answer into [extracted_data]. *)
Definition merge_key (parsed_llm_json : json) (key : string)
    : M xstate unit :=
  (let* present := lift_res (py_in key parsed_llm_json) in
   if present && negb (bool_decide (key ∈ protected_keys))
   then let* v := lift_res (py_getitem parsed_llm_json key) in
        set_extracted_data (insert key v)
   else ret tt)%py.

Fixpoint merge_keys (parsed_llm_json : json) (keys : list string)
    : M xstate unit :=
  match keys with
  | [] => ret tt
  | key :: rest =>
      (let* _ := merge_key parsed_llm_json key in
       merge_keys parsed_llm_json rest)%py
  end.

(** "Ensure booleans are booleans", for one key. *)
Definition coerce_bool (data : gmap string json) (bool_key : string)
    : gmap string json :=
  match data !! bool_key with
  | Some (JStr s) =>
      <[bool_key := JBool (String.eqb (PyStr.lower s) "true")]> data
  | Some (JBool _) => data
  | _ => <[bool_key := JBool false]> data
  end.

Definition coerce_bools (data : gmap string json) : gmap string json :=
  fold_left coerce_bool boolean_keys data.

(** The [try] block of one attempt, given what the service does. *)
Definition attempt_body (circular_id : string) (outcome : http_outcome)
    : M xstate unit :=
  match outcome with
  | PostRaises e => raise e
  | BadStatus text e =>
      (let* _ := set_response text false in raise e)%py
  | Responded text body =>
      (let* _ := set_response text true in
       match body with
       | inl e => raise e
       | inr api_response_json =>
           let* parsed_llm_json :=
             lift_res (parse_api_response circular_id api_response_json) in
           let* _ := merge_keys parsed_llm_json schema_keys in
           let* _ := set_extracted_data coerce_bools in
           set_extracted_data (insert "extraction_successful" (JBool true))
       end)%py
  end.

Definition set_error (message : string) : M xstate unit :=
  set_extracted_data (insert "llm_error_message" (JStr message)).

(** [response.text if 'response' in locals() and response else ...] *)
Definition resp_text (s : xstate) : string :=
  match response s with
  | Some (text, true) => text
  | _ => "No response text available"
  end.

(** The four [except] clauses of the [try] block, for the attempt numbered
    [attempt]. Each records a message; none raises. *)
Definition llm_except_clauses (attempt : nat)
    : list ((pyexn -> bool) * (pyexn -> M xstate bool)) :=
  [ (is_Timeout, fun e =>
       let* _ := set_error ("API Request Timeout (attempt "
                            +:+ PyStr.of_nat (attempt + 1) +:+ ")") in
       ret false);
    (is_RequestException, fun e =>
       let* _ := set_error ("API Request Error: " +:+ exn_msg e) in
       ret false);
    (is_JSONDecodeError, fun e =>
       let* s := get in
       let* _ := set_error ("JSON Decode Error: " +:+ exn_msg e
                            +:+ ". Raw LLM output: "
                            +:+ PyStr.slice_to 200 (resp_text s)) in
       ret false);
    (is_Exception, fun e =>
       let* _ := set_error ("Unexpected Error: " +:+ exn_msg e) in
       ret false) ]%py.

(** One attempt. The result tells whether the function returned from
    inside the [try]. *)
Definition llm_attempt (circular_text circular_id : string) (attempt : nat)
    : M xstate bool :=
  try_except
    (let* _ := x_emit (EvPost circular_id attempt) in
     let* _ := attempt_body circular_id
                 (llm_service circular_text circular_id attempt) in
     ret true)%py
    (llm_except_clauses attempt).

(** The [for attempt in range(MAX_RETRIES_LLM)] loop over the attempts
    still to make. *)
Fixpoint llm_loop (circular_text circular_id : string) (todo : list nat)
    : M xstate unit :=
  match todo with
  | [] => ret tt
  | attempt :: rest =>
      (let* returned := llm_attempt circular_text circular_id attempt in
       if returned : bool then ret tt
       else
         let* _ := when (Z.of_nat attempt <? MAX_RETRIES_LLM - 1)%Z
                        (x_emit (EvSleep (5 * (Z.of_nat attempt + 1)))) in
         llm_loop circular_text circular_id rest)%py
  end.

(** [range(n)] *)
Definition range (n : Z) : list nat := seq 0 (Z.to_nat n).

(** The record returned, or the exception that escapes, and the requests
    and pauses made. The prompt is a function of [circular_text] alone and
    is part of what [llm_service] stands for. *)
Definition extract_info_with_llm
    (circular_text circular_id circular_url : string)
    (subject : option string) : res (gmap string json) * list event :=
  let start :=
    XState (get_default_extracted_data (JStr circular_id) (JStr circular_url)
              (json_of_text subject) (JStr circular_text))
           None [] in
  match llm_loop circular_text circular_id (range MAX_RETRIES_LLM) start with
  | (Ok _, s) => (Ok (extracted_data s), x_trace s)
  | (Raise e, s) => (Raise e, x_trace s)
  end.

End llm_utils.

(** [ordered_keys_for_prompt]: the keys that the prompt built by
    [extract_info_with_llm] asks the service for. *)
Definition ordered_keys_for_prompt : list string :=
  [ "is_trigger_event"; "event_time_utc"; "time_since_trigger";
    "ra"; "dec";
    "magnitude"; "magnitude_error"; "is_upper_limit"; "wavelength_band";
    "multiple_bands_reported";
    "telescope"; "observatory" ].

(* ================================================================== *)
(** ** main.py *)
(* ================================================================== *)

(** The state of the polling loop: the disk, what was done to the outside,
    and the locals of [main_loop]. *)
Record st := St {
  st_fs : fs;
  st_trace : list event;
  processed_ids : gset string;
  all_extracted_data : list json;
  new_circulars_processed_this_cycle : nat;
  skipped_due_to_id_count : nat
}.

Definition on_fs {A} (m : M fs A) : M st A := fun s =>
  let '(r, w) := m (st_fs s) in
  (r, St w (st_trace s) (processed_ids s) (all_extracted_data s)
         (new_circulars_processed_this_cycle s) (skipped_due_to_id_count s)).

Definition emit (evs : list event) : M st unit := fun s =>
  (Ok tt, St (st_fs s) (st_trace s ++ evs) (processed_ids s)
             (all_extracted_data s) (new_circulars_processed_this_cycle s)
             (skipped_due_to_id_count s)).

(** [processed_ids.add(i)] *)
Definition add_processed (i : string) : M st unit := fun s =>
  (Ok tt, St (st_fs s) (st_trace s) ({[ i ]} ∪ processed_ids s)
             (all_extracted_data s) (new_circulars_processed_this_cycle s)
             (skipped_due_to_id_count s)).

(** [all_extracted_data.append(r)] *)
Definition append_record (r : gmap string json) : M st unit := fun s =>
  (Ok tt, St (st_fs s) (st_trace s) (processed_ids s)
             (all_extracted_data s ++ [JObj r])
             (new_circulars_processed_this_cycle s)
             (skipped_due_to_id_count s)).

Definition count_new : M st unit := fun s =>
  (Ok tt, St (st_fs s) (st_trace s) (processed_ids s) (all_extracted_data s)
             (S (new_circulars_processed_this_cycle s))
             (skipped_due_to_id_count s)).

Definition count_skipped : M st unit := fun s =>
  (Ok tt, St (st_fs s) (st_trace s) (processed_ids s) (all_extracted_data s)
             (new_circulars_processed_this_cycle s)
             (S (skipped_due_to_id_count s))).

Definition reset_counts : M st unit := fun s =>
  (Ok tt, St (st_fs s) (st_trace s) (processed_ids s) (all_extracted_data s)
             0 0).

Section main.
Context `{Config, PyLib, Outside}.

(** [send_slack_notification(r)], called for its effect. *)
Definition notify (r : gmap string json) : M st unit :=
  (let* _ := emit [EvNotify r] in
   let* _ := lift_res (send_slack_notification r) in
   ret tt)%py.

(** The record stored when no text could be retrieved. *)
Definition error_entry (circular_id circular_url : string)
    (subject : option string) : gmap string json :=
  <["llm_error_message" :=
      JStr "Failed to retrieve raw text from circular page or .gcn3 file."]>
  (<["extraction_successful" := JBool false]>
   (get_default_extracted_data (JStr circular_id) (JStr circular_url)
      (json_of_text subject) (JStr "COULD NOT RETRIEVE TEXT"))).

Definition process_single_circular (circ_info : circ_info) : M st unit :=
  let circular_id := ci_id circ_info in
  let circular_url := ci_url circ_info in
  let subject := ci_subject circ_info in
  let '(raw_text, requests) :=
    get_circular_text_robust circular_id circular_url in
  (let* _ := emit requests in
   match raw_text with
   | Some text =>
       if PyStr.truthy text then
         let '(extracted_json, calls) :=
           extract_info_with_llm text circular_id circular_url subject in
         let* _ := emit calls in
         let* extracted_json := lift_res extracted_json in
         let* _ := append_record extracted_json in
         notify extracted_json
       else
         let entry := error_entry circular_id circular_url subject in
         let* _ := append_record entry in
         notify entry
   | None =>
       let entry := error_entry circular_id circular_url subject in
       let* _ := append_record entry in
       notify entry
   end)%py.

(** [skip_before_id_val], computed once when [main_loop] starts. *)
Definition skip_before_id_val : option Z :=
  match SKIP_CIRCULARS_BEFORE_ID with
  | Some v => PyStr.int v
  | None => None
  end.

(** [processed_ids.add] after [save_processed_id]: the identifier enters
    the ledger on disk and in memory. *)
Definition mark_processed (circular_id_str : string) : M st unit :=
  (let* _ := on_fs (save_processed_id circular_id_str) in
   add_processed circular_id_str)%py.

(** [circular_id_int < skip_before_id_val], when a floor is set *)
Definition below_floor (current_circular_id_int : Z) : bool :=
  match skip_before_id_val with
  | Some floor => (current_circular_id_int <? floor)%Z
  | None => false
  end.

(** The body of [for circ_info in reversed(circulars_on_page)]. *)
Definition loop_body (circ_info : circ_info) : M st unit :=
  let circular_id_str := ci_id circ_info in
  (let* s := get in
   match PyStr.int circular_id_str with
   | None =>
       when (negb (bool_decide (circular_id_str ∈ processed_ids s)))
            (mark_processed circular_id_str)
   | Some current_circular_id_int =>
       if below_floor current_circular_id_int then
         when (negb (bool_decide (circular_id_str ∈ processed_ids s)))
              (let* _ := mark_processed circular_id_str in count_skipped)
       else if bool_decide (circular_id_str ∈ processed_ids s) then ret tt
       else
         let* _ := count_new in
         let* _ := process_single_circular circ_info in
         let* _ := mark_processed circular_id_str in
         let* s' := get in
         when (0 <? new_circulars_processed_this_cycle s')%nat
              (emit [EvSleep (Z.max 1 (CHECK_INTERVAL_SECONDS / 1800))])
   end)%py.

Fixpoint for_each (items : list circ_info) : M st unit :=
  match items with
  | [] => ret tt
  | circ_info :: rest =>
      (let* _ := loop_body circ_info in for_each rest)%py
  end.

(** One pass over the bulletin list, oldest first. *)
Definition run_pass (circulars_on_page : list circ_info) : M st unit :=
  (let* _ := reset_counts in
   for_each (rev circulars_on_page))%py.

(** One turn of [while True]. *)
Definition poll_cycle : M st unit :=
  match get_page_content GCN_CIRCULARS_INDEX_URL with
  | None => emit [EvSleep CHECK_INTERVAL_SECONDS]
  | Some index_html =>
      if negb (PyStr.truthy index_html)
      then emit [EvSleep CHECK_INTERVAL_SECONDS]
      else
        match parse_gcn_circular_list index_html with
        | [] => emit [EvSleep CHECK_INTERVAL_SECONDS]
        | circulars_on_page =>
            (let* _ := run_pass circulars_on_page in
             let* s := get in
             let* _ := when (0 <? new_circulars_processed_this_cycle s)%nat
                            (on_fs (save_output_data
                                      (JArr (all_extracted_data s)))) in
             emit [EvSleep CHECK_INTERVAL_SECONDS])%py
        end
  end.

End main.

(* ================================================================== *)
(** ** main.py: the start of [main_loop] *)
(* ================================================================== *)

Section main_loop_startup.
Context `{Config, PyLib}.

(** [str(v)]: a text is itself. *)
Definition str_of (v : json) : string :=
  match v with JStr s => s | _ => py_str v end.

(** The items that [for item in v] visits. A dict yields its keys; the
    loop below adds to a set or raises the same exception whatever their
    order. *)
Definition py_iter (v : json) : res (list json) :=
  match v with
  | JArr l => Ok l
  | JObj m => Ok (JStr <$> (map_to_list m).*1)
  | JStr s =>
      Ok ((fun c => JStr (String c EmptyString)) <$> list_ascii_of_string s)
  | _ => Raise (PyExn ETypeError "object is not iterable")
  end.

(** The body of [for item in all_extracted_data]. *)
Definition startup_item (processed_ids : gset string) (item : json)
    : res (gset string) :=
  res_bind (py_in "circular_id" item) (fun present =>
  if present then
    res_bind (py_getitem item "circular_id") (fun v =>
    match v with
    | JNull => Ok processed_ids
    | _ => Ok ({[ str_of v ]} ∪ processed_ids)
    end)
  else Ok processed_ids).

Fixpoint startup_scan (items : list json) (processed_ids : gset string)
    : res (gset string) :=
  match items with
  | [] => Ok processed_ids
  | item :: rest =>
      res_bind (startup_item processed_ids item) (startup_scan rest)
  end.

(** [main_loop] from the two loads up to [while True]: the ledger and the
    records with which the polling starts. *)
Definition main_loop_startup : M fs (gset string * json) :=
  (let* processed_ids := load_processed_ids in
   let* all_extracted_data := load_output_data in
   let* items := lift_res (py_iter all_extracted_data) in
   let* processed_ids := lift_res (startup_scan items processed_ids) in
   ret (processed_ids, all_extracted_data))%py.

End main_loop_startup.

(** The state in which the polling starts, when the records loaded are a
    list. *)
Definition polling_start (w : fs) (ids : gset string) (data : list json)
    : st :=
  St w [] ids data 0 0.

(* ================================================================== *)
(** ** debug_circular_parser.py *)
(* ================================================================== *)

Section debug_circular_parser.
Context `{Config, PyLib, Outside}.

(** The [try] block of [debug_parse_url] with its handler: the identifier
    read in a URL. An index out of range is caught by the handler. *)
Definition circular_id_from_url (circular_url_str : string) : string :=
  let path_parts := PyText.split "/" circular_url_str in
  match PyText.from_end path_parts 1 with
  | None => "unknown_from_url"
  | Some potential_id =>
      if PyText.isdigit potential_id then potential_id
      else
        match PyText.from_end path_parts 2 with
        | None => "unknown_from_url"
        | Some before =>
            if PyText.isdigit before
               && (String.eqb potential_id EmptyString
                   || PyStr.startswith potential_id "#")
            then before
            else
              let id_from_url :=
                hd EmptyString (PyText.split "." potential_id) in
              if PyText.isdigit id_from_url then id_from_url
              else "unknown_from_url"
        end
  end.

(** The identifier and the URL that [debug_parse_url] works on; [None]
    when it returns before any request. *)
Definition debug_target (circular_url_or_id : string)
    : option (string * string) :=
  let found :=
    if PyText.isdigit circular_url_or_id then
      Some (circular_url_or_id,
            urljoin BASE_GCN_URL ("/circulars/" +:+ circular_url_or_id))
    else if PyStr.startswith circular_url_or_id "http" then
      Some (circular_id_from_url circular_url_or_id, circular_url_or_id)
    else None in
  match found with
  | Some (circular_id_str, circular_url_str) =>
      if negb (PyStr.truthy circular_id_str)
         || String.eqb circular_id_str "unknown_from_url"
      then None
      else Some (circular_id_str, circular_url_str)
  | None => None
  end.



End debug_circular_parser.

(* ================================================================== *)
(** ** Notions used to state the properties *)
(* ================================================================== *)

Section notions.
Context `{Config, PyLib, Outside}.

(** The store at [p] can be written: [p] names a file (it is not empty,
    not a directory and not its own parent), and its parent is no regular
    file: it is the current directory, an existing directory, or a
    directory still to be created. *)
Definition store_usable (w : fs) (p : string) : bool :=
  PyStr.truthy p
  && negb (bool_decide (p ∈ dirs w))
  && negb (bool_decide (is_Some (files w !! Os.dirname p)))
  && negb (String.eqb (Os.dirname p) p).

(** The merge loop run on a dict, as a function of the record. *)
Definition merge_dict (p : gmap string json) (keys : list string)
    (data : gmap string json) : gmap string json :=
  fold_left
    (fun d key =>
       match p !! key with
       | Some v => if bool_decide (key ∈ protected_keys) then d
                   else <[key := v]> d
       | None => d
       end)
    keys data.

Definition merged (parsed_llm_json : json) (data : gmap string json)
    : gmap string json :=
  match parsed_llm_json with
  | JObj p => merge_dict p schema_keys data
  | _ => data
  end.

(** The merge loop runs to its end on this answer. *)
Definition mergeable (parsed_llm_json : json) : bool :=
  match fst (merge_keys parsed_llm_json schema_keys (XState ∅ None [])) with
  | Ok _ => true
  | Raise _ => false
  end.

(** The answer that an attempt parses, when it parses one that the merge
    loop accepts; [None] when the attempt fails. *)
Definition parsed_answer (circular_id : string) (outcome : http_outcome)
    : option json :=
  match outcome with
  | Responded _ (inr api_response_json) =>
      match parse_api_response circular_id api_response_json with
      | Ok parsed => if mergeable parsed then Some parsed else None
      | Raise _ => None
      end
  | _ => None
  end.

(** The attempt reaches [return extracted_data] inside the [try]. *)
Definition succeeds (circular_id : string) (outcome : http_outcome) : bool :=
  bool_decide (is_Some (parsed_answer circular_id outcome)).

(** The first attempt that succeeds, if any. *)
Definition first_success (circular_text circular_id : string) : option nat :=
  find (fun attempt =>
          succeeds circular_id (llm_service circular_text circular_id attempt))
       (range MAX_RETRIES_LLM).

(** Attempts a..j with a pause of 5 * (k + 1) seconds after attempt k,
    for each k from a to j - 1. *)
Definition retry_trace_from (circular_id : string) (a j : nat) : list event :=
  flat_map (fun k => [EvPost circular_id k; EvSleep (5 * (Z.of_nat k + 1))])
           (seq a (j - a))
  ++ [EvPost circular_id j].

Definition retry_trace (circular_id : string) (j : nat) : list event :=
  retry_trace_from circular_id 0 j.

(** The record before the successful attempt, or the one returned when no
    attempt succeeds: [d], with or without an error message. *)
Definition with_errors (d d' : gmap string json) : Prop :=
  d' = d \/ exists message, d' = <["llm_error_message" := JStr message]> d.

(** The text that [get_circular_text_robust] returns, from the text kept
    of the page and the text of the raw file. *)
Definition final_choice (kept fallback : option string) : option string :=
  if needs_fallback kept then
    if text_truthy fallback
       && (len_or_empty kept <? len_or_empty fallback)%nat
    then fallback
    else if text_truthy kept then kept else None
  else kept.

(** How a value found under a boolean key is read. *)
Definition as_bool (v : option json) : bool :=
  match v with
  | Some (JBool b) => b
  | Some (JStr s) => String.eqb (PyStr.lower s) "true"
  | _ => false
  end.

(** The value under [key] in the parsed answer, when it is a dict that has
    the key. *)
Definition answer_field (parsed_llm_json : json) (key : string)
    : option json :=
  match parsed_llm_json with
  | JObj p => p !! key
  | _ => None
  end.

(** The record for a bulletin: the one that the extraction engine returns
    for the text retrieved, or the failure record when no text was
    retrieved. *)
Definition processed_as (c : circ_info) (rec : gmap string json) : Prop :=
  match fst (get_circular_text_robust (ci_id c) (ci_url c)) with
  | Some text =>
      if PyStr.truthy text
      then fst (extract_info_with_llm text (ci_id c) (ci_url c)
                  (ci_subject c)) = Ok rec
      else rec = error_entry (ci_id c) (ci_url c) (ci_subject c)
  | None => rec = error_entry (ci_id c) (ci_url c) (ci_subject c)
  end.

End notions.

(** *** The ledger file, the traces and the passes *)

(** The identifiers that the lines of a text give. *)
Definition ids_of_lines (ls : list string) : gset string :=
  list_to_set (filter (fun l => PyStr.truthy l) (PyStr.strip <$> ls)).

(** The identifiers that [load_processed_ids] reads in a text. *)
Definition ledger_ids (content : string) : gset string :=
  list_to_set (filter (fun l => PyStr.truthy l)
                      (PyStr.strip <$> PyStr.lines content)).

(** The text of the file at [p], empty when there is none. *)
Definition text_at (w : fs) (p : string) : string :=
  default EmptyString (files w !! p).

(** A text in which every line is ended: it is empty or ends with a line
    feed. *)
Definition lines_ended (content : string) : Prop :=
  content = EmptyString \/ exists c, content = c +:+ nl.

(** An identifier that a line of the ledger file holds as it is. *)
Definition clean_id (i : string) : bool :=
  negb (PyText.has_line_break i) && String.eqb (PyStr.strip i) i
  && PyStr.truthy i.

(** The number of requests to the inference service and the seconds of
    pause in a trace. *)
Fixpoint post_count (tr : list event) : nat :=
  match tr with
  | [] => 0
  | EvPost _ _ :: tr' => S (post_count tr')
  | _ :: tr' => post_count tr'
  end.

Fixpoint total_sleep (tr : list event) : Z :=
  match tr with
  | [] => 0
  | EvSleep seconds :: tr' => seconds + total_sleep tr'
  | _ :: tr' => total_sleep tr'
  end.


(** A value that is neither a text nor a container. *)
Definition is_scalar (v : json) : bool :=
  match v with
  | JNull | JBool _ | JInt _ | JFloat _ => true
  | _ => false
  end.

Section pass_notions.
Context `{Config}.

Definition ledger_text (s : st) : string :=
  text_at (st_fs s) PROCESSED_CIRCULARS_FILE.

(** From [s] to [s1] the ledger, the records, the trace and the ledger file
    have only grown, no other file has changed, and no directory but the
    ledger's has been created. *)
Definition extends (s s1 : st) : Prop :=
  processed_ids s ⊆ processed_ids s1
  /\ (exists recs, all_extracted_data s1 = all_extracted_data s ++ recs)
  /\ (exists evs, st_trace s1 = st_trace s ++ evs)
  /\ (forall p, p <> PROCESSED_CIRCULARS_FILE ->
        files (st_fs s1) !! p = files (st_fs s) !! p)
  /\ (exists added, ledger_text s1 = ledger_text s +:+ added)
  /\ (dirs (st_fs s1) = dirs (st_fs s)
      \/ dirs (st_fs s1)
         = {[ Os.dirname PROCESSED_CIRCULARS_FILE ]} ∪ dirs (st_fs s)).

(** The ledger file and its directory are neither the result file, nor its
    temporary file, nor the directory of the result file. *)
Definition stores_apart : bool :=
  negb (String.eqb PROCESSED_CIRCULARS_FILE OUTPUT_JSON_FILE)
  && negb (String.eqb PROCESSED_CIRCULARS_FILE (OUTPUT_JSON_FILE +:+ ".tmp"))
  && negb (String.eqb PROCESSED_CIRCULARS_FILE (Os.dirname OUTPUT_JSON_FILE))
  && negb (String.eqb (Os.dirname PROCESSED_CIRCULARS_FILE) OUTPUT_JSON_FILE)
  && negb (String.eqb (Os.dirname PROCESSED_CIRCULARS_FILE)
             (OUTPUT_JSON_FILE +:+ ".tmp")).

End pass_notions.

(* ================================================================== *)
(** ** A concrete installation, for the examples *)
(* ================================================================== *)

Module Demo.

Definition config (retries : Z) (floor : option string) : Config := {|
  PROCESSED_CIRCULARS_FILE := "data/processed_circulars.txt";
  OUTPUT_JSON_FILE := "data/gcn_data.json";
  BASE_GCN_URL := "https://gcn.nasa.gov";
  GCN_CIRCULARS_INDEX_URL := "https://gcn.nasa.gov/circulars";
  MAX_RETRIES_LLM := retries;
  CHECK_INTERVAL_SECONDS := 3600;
  SKIP_CIRCULARS_BEFORE_ID := floor;
  SLACK_WEBHOOK_URL := EmptyString
|}.

(** One stored record. *)
Definition record : gmap string json :=
  <["telescope" := JStr "Swift/XRT"]>
  (<["extraction_successful" := JBool true]>
   (get_default_extracted_data (JStr "150")
      (JStr "https://gcn.nasa.gov/circulars/150") (JStr "GRB 250101A")
      (JStr "Swift detection of GRB 250101A"))).

Definition record_text : string := "[{ the record of bulletin 150 }]".

(** A fragment of the json library: it knows three texts. *)
Definition lib : PyLib := {|
  json_loads s :=
    if String.eqb s "{}" then inr (JObj ∅)
    else if String.eqb s "{is_upper_limit: TRUE, circular_id: 0}"
    then inr (JObj (<["is_upper_limit" := JStr "TRUE"]>
                    (<["circular_id" := JStr "0"]> ∅)))
    else if String.eqb s record_text then inr (JArr [JObj record])
    else inl "Expecting value: line 1 column 1 (char 0)";
  json_dumps v := Ok record_text;
  urljoin base path := base +:+ path;
  py_str v := "<value>";
  strftime := "20250101000000"
|}.

(** The collaborators, from what the bulletin site serves for a page and
    for a raw file, and from what the inference service does. *)
Definition outside (page raw : string -> option string)
    (service : string -> string -> nat -> http_outcome)
    (listing : list circ_info) : Outside := {|
  get_page_content url := Some "<html>";
  parse_gcn_circular_list html := listing;
  get_circular_raw_text_from_page := page;
  get_text := raw;
  llm_service := service;
  send_slack_notification r := Ok false
|}.

Definition timeout_error : pyexn := PyExn ETimeout "Read timed out.".

(** A service that never answers in time. *)
Definition always_timeout (text id : string) (attempt : nat) : http_outcome :=
  PostRaises timeout_error.

(** A service that times out once and then answers with an empty object. *)
Definition timeout_then_answer (text id : string) (attempt : nat)
    : http_outcome :=
  match attempt with
  | 0 => PostRaises timeout_error
  | _ => Responded "{}" (inr (JObj (<["response" := JStr "{}"]> ∅)))
  end.

(** A service whose answer spells a boolean as a string and names a
    protected key. *)
Definition answers_in_strings (text id : string) (attempt : nat)
    : http_outcome :=
  Responded "..."
    (inr (JObj (<["response" :=
                   JStr "{is_upper_limit: TRUE, circular_id: 0}"]> ∅))).

Definition no_page (url : string) : option string := None.

(** A page of 60 characters for every bulletin. *)
Definition long_page (url : string) : option string :=
  Some "Swift detection of GRB 250101A: a long gamma-ray burst, XRT.".

(** A disk with a corrupt result file. *)
Definition corrupt_disk : fs :=
  Fs (<["data/gcn_data.json" := "{not json"]> ∅) {[ "data" ]}.

Definition empty_disk : fs := Fs ∅ ∅.

Definition start (w : fs) : st := St w [] ∅ [] 0 0.







Definition bulletin_42 : circ_info :=
  CircInfo "42" "https://gcn.nasa.gov/circulars/42" (Some "Old burst").

Definition bulletin_150 : circ_info :=
  CircInfo "150" "https://gcn.nasa.gov/circulars/150" (Some "GRB 250101A").

(** The bulletin list, newest first. *)
Definition listing : list circ_info := [ bulletin_150; bulletin_42 ].

End Demo.

(** Further installations, for the examples of the later sections. *)
Module DemoMore.

(** A json library that cannot write the records as a text. *)
Definition lib_no_dumps : PyLib := {|
  json_loads := @json_loads Demo.lib;
  json_dumps v :=
    Raise (PyExn ETypeError "Object of type set is not JSON serializable");
  urljoin := @urljoin Demo.lib;
  py_str := @py_str Demo.lib;
  strftime := @strftime Demo.lib
|}.

(** A json library that also reads a list that holds a number. *)
Definition lib_numbers : PyLib := {|
  json_loads s :=
    if String.eqb s "[1]" then inr (JArr [JInt 1])
    else @json_loads Demo.lib s;
  json_dumps := @json_dumps Demo.lib;
  urljoin := @urljoin Demo.lib;
  py_str := @py_str Demo.lib;
  strftime := @strftime Demo.lib
|}.



(** The envelope of the service around a null answer. *)
Definition null_envelope : gmap string json :=
  <["response" := JNull]> (<["done" := JBool true]>
                           (<["model" := JStr "llama3"]> ∅)).

Definition answers_null (text id : string) (attempt : nat) : http_outcome :=
  Responded "..." (inr (JObj null_envelope)).

(** A disk whose ledger file holds one line that is not ended. *)
Definition unended_disk : fs :=
  Fs (<["data/processed_circulars.txt" := "12"]> ∅) {[ "data" ]}.

(** A disk with a ledger of one identifier and the stored record of the
    examples. *)
Definition stored_disk : fs :=
  Fs (<["data/gcn_data.json" := Demo.record_text]>
      (<["data/processed_circulars.txt" := "42" +:+ nl]> ∅))
     {[ "data" ]}.

(** A disk whose result file holds a list with a number. *)
Definition numbers_disk : fs :=
  Fs (<["data/gcn_data.json" := "[1]"]> ∅) {[ "data" ]}.

(** The text of the ledger file after the pass of the examples. *)
Definition ledger_after : string := "42" +:+ nl +:+ "150" +:+ nl.

End DemoMore.

(* ================================================================== *)
(** ** Properties *)
(* ================================================================== *)

(** Membership in a list of literals, by computation. *)
Ltac in_list := apply (bool_decide_unpack _); vm_compute; exact I.

(** *** The monad *)

Lemma bind_ok {S A B} (m : M S A) (k : A -> M S B) s a s' :
  m s = (Ok a, s') -> bind m k s = k a s'.
Proof. intros E. unfold bind. rewrite E. reflexivity. Qed.

Lemma bind_raise {S A B} (m : M S A) (k : A -> M S B) s e s' :
  m s = (Raise e, s') -> bind m k s = (Raise e, s').
Proof. intros E. unfold bind. rewrite E. reflexivity. Qed.

Lemma try_except_ok {S A} (m : M S A) cl s a s' :
  m s = (Ok a, s') -> try_except m cl s = (Ok a, s').
Proof. intros E. unfold try_except. rewrite E. reflexivity. Qed.

Lemma try_except_raise {S A} (m : M S A) cl s e s' :
  m s = (Raise e, s') -> try_except m cl s = dispatch cl e s'.
Proof. intros E. unfold try_except. rewrite E. reflexivity. Qed.

(** *** Paths *)

Lemma string_app_length (p s : string) :
  String.length (p +:+ s) = (String.length p + String.length s)%nat.
Proof.
  induction p as [|c p IH]; [reflexivity|].
  change (String c p +:+ s) with (String c (p +:+ s)).
  cbn [String.length]. rewrite IH. reflexivity.
Qed.

Lemma string_app_ne (p s : string) :
  PyStr.truthy s = true -> p +:+ s <> p.
Proof.
  intros Hs Heq. apply (f_equal String.length) in Heq.
  rewrite string_app_length in Heq. destruct s; [discriminate|].
  cbn in Heq. lia.
Qed.

Lemma has_slash_app (p s : string) :
  Os.has_slash (p +:+ s) = Os.has_slash p || Os.has_slash s.
Proof.
  induction p as [|c p IH]; [reflexivity|].
  change (String c p +:+ s) with (String c (p +:+ s)).
  cbn [Os.has_slash]. rewrite IH. apply orb_assoc.
Qed.

Lemma upto_last_slash_app (p s : string) :
  Os.has_slash s = false ->
  Os.upto_last_slash (p +:+ s) = Os.upto_last_slash p.
Proof.
  intros Hs. induction p as [|c p IH].
  - change (EmptyString +:+ s) with s.
    destruct s as [|c s]; [reflexivity|].
    cbn [Os.upto_last_slash]. rewrite Hs. reflexivity.
  - change (String c p +:+ s) with (String c (p +:+ s)).
    cbn [Os.upto_last_slash Os.has_slash].
    rewrite has_slash_app, Hs, orb_false_r, IH. reflexivity.
Qed.

Lemma dirname_app (p s : string) :
  Os.has_slash s = false -> Os.dirname (p +:+ s) = Os.dirname p.
Proof.
  intros Hs. unfold Os.dirname. rewrite upto_last_slash_app by exact Hs.
  reflexivity.
Qed.

(** *** data_manager.py *)

Section data_manager_properties.
Context `{Config, PyLib}.

(** C1. A result file that holds text which is not JSON makes
    [load_output_data] raise: the handler of the decode error uses the
    module [time], which data_manager.py does not import. No backup is
    made and no empty list is returned. *)
Theorem load_output_data_corrupt_raises (w : fs) (content msg : string) :
  files w !! OUTPUT_JSON_FILE = Some content ->
  PyStr.truthy (PyStr.strip content) = true ->
  json_loads content = inl msg ->
  load_output_data w
  = (Raise (PyExn ENameError "name 'time' is not defined"), w).
Proof.
  intros Hfile Hblank Hjson.
  unfold load_output_data, Os.exists_.
  rewrite Hfile. rewrite bool_decide_true by eauto. cbn [orb].
  erewrite try_except_raise.
  2: { unfold bind, Os.read_text. rewrite Hfile, Hblank, Hjson.
       cbn. reflexivity. }
  cbn [dispatch is_JSONDecodeError exn_cls].
  reflexivity.
Qed.

Lemma store_usable_inv (w : fs) (p : string) :
  store_usable w p = true ->
  PyStr.truthy p = true /\ (p ∉ dirs w)
  /\ (files w !! Os.dirname p = None) /\ Os.dirname p <> p.
Proof.
  unfold store_usable. rewrite !andb_true_iff, !negb_true_iff.
  intros [[[Ht Hd] Hf] Hne].
  apply bool_decide_eq_false in Hd. apply bool_decide_eq_false in Hf.
  apply String.eqb_neq in Hne.
  repeat split; try assumption.
  destruct (files w !! Os.dirname p) eqn:E; [|reflexivity].
  exfalso. apply Hf. eauto.
Qed.

(** After the directory of [p] has been looked for and created when
    missing, a file can be written at [p]; the files are untouched. *)
Lemma ensure_dir (w : fs) (p : string) :
  store_usable w p = true ->
  exists w1,
    when (PyStr.truthy (Os.dirname p)
          && negb (Os.exists_ w (Os.dirname p)))
         (Os.makedirs (Os.dirname p)) w = (Ok tt, w1)
    /\ files w1 = files w
    /\ Os.is_dir w1 (Os.dirname p) = true
    /\ (forall q, q <> Os.dirname p -> q ∉ dirs w -> q ∉ dirs w1)
    /\ (Os.is_dir w (Os.dirname p) = true -> w1 = w).
Proof.
  intros Hu. destruct (store_usable_inv _ _ Hu) as (Ht & Hd & Hf & Hne).
  unfold when, Os.exists_. rewrite Hf.
  rewrite (bool_decide_false (is_Some None)) by (intros [? ?]; discriminate).
  cbn [orb].
  destruct (Os.dirname p) as [|c d] eqn:Hdir.
  - exists w. cbn [PyStr.truthy andb ret Os.is_dir].
    split; [reflexivity|]. split; [reflexivity|]. split; [reflexivity|].
    split; auto.
  - cbn [PyStr.truthy andb].
    destruct (bool_decide (String c d ∈ dirs w)) eqn:Hin; cbn [negb].
    + apply bool_decide_eq_true in Hin. exists w. cbn [ret].
      split; [reflexivity|]. split; [reflexivity|]. split.
      * cbn [Os.is_dir]. apply bool_decide_eq_true. exact Hin.
      * split; auto.
    + unfold Os.makedirs. rewrite Hf.
      rewrite (bool_decide_false (is_Some None))
        by (intros [? ?]; discriminate).
      eexists. split; [reflexivity|]. cbn [files dirs Os.is_dir].
      split; [reflexivity|]. split.
      * apply bool_decide_eq_true. apply elem_of_union. left.
        apply elem_of_singleton. reflexivity.
      * split.
        -- intros q Hq Hnot Hx. apply elem_of_union in Hx as [Hx|Hx];
             [apply elem_of_singleton in Hx; contradiction | contradiction].
        -- cbn [Os.is_dir]. intros Hx. apply bool_decide_eq_true in Hx.
           apply bool_decide_eq_false in Hin. contradiction.
Qed.

Lemma tmp_no_slash : Os.has_slash ".tmp" = false.
Proof. reflexivity. Qed.

(** What [save_output_data] leaves on the disk when the text can be
    produced. *)
Lemma save_output_data_run (w : fs) (data : json) (text : string) :
  store_usable w OUTPUT_JSON_FILE = true ->
  store_usable w (OUTPUT_JSON_FILE +:+ ".tmp") = true ->
  json_dumps data = Ok text ->
  exists w1,
    save_output_data data w = (Ok tt, w1)
    /\ files w1
       = <[OUTPUT_JSON_FILE := text]>
           (delete (OUTPUT_JSON_FILE +:+ ".tmp") (files w))
    /\ store_usable w1 OUTPUT_JSON_FILE = true
    /\ store_usable w1 (OUTPUT_JSON_FILE +:+ ".tmp") = true
    /\ Os.is_dir w1 (Os.dirname OUTPUT_JSON_FILE) = true
    /\ (Os.is_dir w (Os.dirname OUTPUT_JSON_FILE) = true ->
        dirs w1 = dirs w).
Proof.
  intros Hu Hut Hdump.
  destruct (store_usable_inv _ _ Hu) as (Ht & Hd & Hf & Hne).
  destruct (store_usable_inv _ _ Hut) as (Htt & Hdt & Hft & Hnet).
  rewrite (dirname_app _ _ tmp_no_slash) in Hft, Hnet.
  destruct (ensure_dir w OUTPUT_JSON_FILE Hu)
    as (w1 & Hmk & Hfiles & Hdir & Hfresh & Hsame).
  set (temp := OUTPUT_JSON_FILE +:+ ".tmp") in *.
  assert (Hd1 : OUTPUT_JSON_FILE ∉ dirs w1)
    by (apply Hfresh; [congruence | exact Hd]).
  assert (Hdt1 : temp ∉ dirs w1)
    by (apply Hfresh; [congruence | exact Hdt]).
  assert (Hcw : forall fl, Os.can_write (Fs fl (dirs w1)) OUTPUT_JSON_FILE
                           = true).
  { intros fl. unfold Os.can_write. rewrite Ht. cbn [dirs andb].
    rewrite (bool_decide_false _ Hd1). cbn [negb andb].
    destruct w1 as [f1 d1]. exact Hdir. }
  assert (Hcwt : forall fl, Os.can_write (Fs fl (dirs w1)) temp = true).
  { intros fl. unfold Os.can_write. rewrite Htt. cbn [dirs andb].
    rewrite (bool_decide_false _ Hdt1). cbn [negb andb].
    unfold temp. rewrite (dirname_app _ _ tmp_no_slash).
    destruct w1 as [f1 d1]. exact Hdir. }
  exists (Fs (<[OUTPUT_JSON_FILE := text]> (delete temp (files w))) (dirs w1)).
  split.
  { unfold save_output_data.
    erewrite bind_ok.
    2: { apply try_except_ok. unfold save_output_data_mkdir.
         unfold bind, get. exact Hmk. }
    fold temp. apply try_except_ok.
    unfold save_output_data_write.
    unfold bind at 1. unfold Os.open_w at 1.
    destruct w1 as [f1 d1]. cbn [files dirs] in *.
    rewrite (Hcwt f1).
    unfold bind at 1. unfold lift_res at 1. rewrite Hdump.
    unfold bind at 1. unfold Os.write at 1. cbn [files dirs].
    rewrite lookup_insert_eq. cbn [default].
    change (EmptyString +:+ text) with text.
    unfold Os.replace. cbn [files dirs].
    rewrite lookup_insert_eq. rewrite (Hcw _).
    rewrite insert_insert_eq, delete_insert_eq. subst f1. reflexivity. }
  cbn [files dirs Os.is_dir].
  split; [reflexivity|].
  split.
  { unfold store_usable. rewrite Ht. cbn [dirs files andb].
    rewrite (bool_decide_false _ Hd1). cbn [negb andb].
    rewrite (proj2 (String.eqb_neq _ _) Hne). cbn [negb].
    rewrite andb_true_r. apply negb_true_iff, bool_decide_eq_false.
    intros [x Hx].
    rewrite lookup_insert_ne in Hx by congruence.
    rewrite lookup_delete_ne in Hx by congruence.
    rewrite Hf in Hx. discriminate. }
  split.
  { unfold store_usable, temp. rewrite (dirname_app _ _ tmp_no_slash).
    fold temp. rewrite Htt. cbn [dirs files andb].
    rewrite (bool_decide_false _ Hdt1). cbn [negb andb].
    rewrite (proj2 (String.eqb_neq _ _) Hnet). cbn [negb].
    rewrite andb_true_r. apply negb_true_iff, bool_decide_eq_false.
    intros [x Hx].
    rewrite lookup_insert_ne in Hx by congruence.
    rewrite lookup_delete_ne in Hx by congruence.
    rewrite Hf in Hx. discriminate. }
  split.
  { destruct w1 as [f1 d1]. exact Hdir. }
  intros Hd0. rewrite (Hsame Hd0). reflexivity.
Qed.


(** What [save_processed_id] leaves on the disk. *)
Lemma save_processed_id_run (w : fs) (circular_id : string) :
  store_usable w PROCESSED_CIRCULARS_FILE = true ->
  exists w1,
    save_processed_id circular_id w = (Ok tt, w1)
    /\ files w1
       = <[PROCESSED_CIRCULARS_FILE :=
             default EmptyString (files w !! PROCESSED_CIRCULARS_FILE)
             +:+ circular_id +:+ nl]> (files w)
    /\ store_usable w1 PROCESSED_CIRCULARS_FILE = true.
Proof.
  intros Hu.
  destruct (store_usable_inv _ _ Hu) as (Ht & Hd & Hf & Hne).
  destruct (ensure_dir w PROCESSED_CIRCULARS_FILE Hu)
    as (w1 & Hmk & Hfiles & Hdir & Hfresh & Hsame).
  assert (Hd1 : PROCESSED_CIRCULARS_FILE ∉ dirs w1)
    by (apply Hfresh; [congruence | exact Hd]).
  exists (Fs (<[PROCESSED_CIRCULARS_FILE :=
                 default EmptyString (files w !! PROCESSED_CIRCULARS_FILE)
                 +:+ circular_id +:+ nl]> (files w)) (dirs w1)).
  split.
  { unfold save_processed_id. apply try_except_ok.
    unfold bind at 1. unfold get at 1.
    unfold bind at 1. rewrite Hmk.
    unfold bind at 1. unfold Os.open_a, Os.can_write.
    rewrite Ht. rewrite (bool_decide_false _ Hd1). rewrite Hdir.
    cbn [negb andb]. unfold Os.write. cbn [files dirs].
    rewrite lookup_insert_eq. rewrite insert_insert_eq.
    rewrite Hfiles. reflexivity. }
  split; [reflexivity|].
  unfold store_usable. rewrite Ht. cbn [dirs files andb].
  rewrite (bool_decide_false _ Hd1). cbn [negb andb].
  rewrite (proj2 (String.eqb_neq _ _) Hne). cbn [negb].
  rewrite andb_true_r. apply negb_true_iff, bool_decide_eq_false.
  intros [x Hx]. rewrite lookup_insert_ne in Hx by congruence.
  rewrite Hf in Hx. discriminate.
Qed.

(** [save_processed_id] never raises. *)
Lemma save_processed_id_total (w : fs) (circular_id : string) :
  exists w1, save_processed_id circular_id w = (Ok tt, w1).
Proof.
  unfold save_processed_id, try_except.
  destruct (bind _ _ w) as [[[]|e] w1]; [eauto|].
  cbn. eauto.
Qed.
End data_manager_properties.

(** *** gcn_utils.py *)

Section gcn_utils_properties.
Context `{Config, PyLib, Outside}.


Lemma truthy_false_length (s : string) :
  PyStr.truthy s = false <-> String.length s = 0%nat.
Proof. destruct s; simpl; split; intros; try discriminate; try lia; auto. Qed.

Lemma robust_result (circular_id circular_page_url : string) :
  fst (get_circular_text_robust circular_id circular_page_url)
  = final_choice (discard_placeholder
              (get_circular_raw_text_from_page circular_page_url))
           (get_circular_raw_text_from_gcn3_file (gcn3_file_url circular_id)).
Proof.
  unfold get_circular_text_robust, final_choice.
  destruct (needs_fallback _); [|reflexivity].
  destruct (_ && _); [reflexivity|].
  destruct (text_truthy _); reflexivity.
Qed.

Lemma robust_requests (circular_id circular_page_url : string) :
  snd (get_circular_text_robust circular_id circular_page_url)
  = EvFetchPage circular_page_url ::
    if needs_fallback (discard_placeholder
                         (get_circular_raw_text_from_page circular_page_url))
    then [EvFetchGcn3 (gcn3_file_url circular_id)] else [].
Proof.
  unfold get_circular_text_robust.
  destruct (needs_fallback _); [|reflexivity].
  destruct (_ && _); [reflexivity|].
  destruct (text_truthy _); reflexivity.
Qed.






End gcn_utils_properties.

(** *** llm_utils.py *)

Section llm_utils_properties.
Context `{Config, PyLib, Outside}.

Lemma merge_keys_dict (p : gmap string json) (keys : list string) (s : xstate) :
  merge_keys (JObj p) keys s
  = (Ok tt, XState (merge_dict p keys (extracted_data s)) (response s)
                   (x_trace s)).
Proof.
  revert s. induction keys as [|key keys IH]; intros [d r t].
  - reflexivity.
  - cbn [merge_keys]. unfold merge_dict. cbn [fold_left].
    fold (merge_dict p keys).
    unfold bind at 1. unfold merge_key. unfold bind at 1.
    unfold lift_res at 1. cbn [py_in].
    destruct (p !! key) as [v|] eqn:Hv.
    + rewrite bool_decide_true by eauto. cbn [andb].
      destruct (bool_decide (key ∈ protected_keys)); cbn [negb].
      * cbn [ret]. rewrite IH. reflexivity.
      * unfold bind, lift_res. cbn [py_getitem]. rewrite Hv.
        unfold set_extracted_data. rewrite IH. reflexivity.
    + rewrite bool_decide_false by (intros [? ?]; discriminate).
      cbn [andb ret]. rewrite IH. reflexivity.
Qed.

Lemma merge_key_other (parsed : json) (key : string) (s : xstate) :
  is_dict parsed = false ->
  merge_key parsed key s
  = (fst (merge_key parsed key (XState ∅ None [])), s).
Proof.
  intros Hnd. unfold merge_key, bind, lift_res.
  destruct parsed; try discriminate Hnd; cbn [py_in]; try reflexivity.
  - destruct (PyStr.contains key s0 && _); reflexivity.
  - destruct (existsb _ l && _); reflexivity.
Qed.

Lemma merge_keys_other (parsed : json) (keys : list string) (s : xstate) :
  is_dict parsed = false ->
  merge_keys parsed keys s
  = (fst (merge_keys parsed keys (XState ∅ None [])), s).
Proof.
  intros Hnd. induction keys as [|key keys IH]; [reflexivity|].
  cbn [merge_keys]. unfold bind.
  rewrite (merge_key_other parsed key s Hnd).
  rewrite (merge_key_other parsed key (XState ∅ None []) Hnd).
  cbn [fst].
  destruct (fst (merge_key parsed key (XState ∅ None []))) as [[]|e].
  - rewrite IH. reflexivity.
  - reflexivity.
Qed.

Lemma mergeable_dict (p : gmap string json) : mergeable (JObj p) = true.
Proof. unfold mergeable. rewrite merge_keys_dict. reflexivity. Qed.

(** When the merge loop runs to its end, the record is [merged]. *)
Lemma merge_keys_mergeable (parsed : json) (s : xstate) :
  mergeable parsed = true ->
  merge_keys parsed schema_keys s
  = (Ok tt, XState (merged parsed (extracted_data s)) (response s)
                   (x_trace s)).
Proof.
  intros Hm. destruct (is_dict parsed) eqn:Hd.
  - destruct parsed; try discriminate Hd. apply merge_keys_dict.
  - rewrite merge_keys_other by exact Hd.
    unfold mergeable in Hm.
    destruct (fst (merge_keys parsed schema_keys _)) as [[]|]; [|discriminate].
    destruct s. destruct parsed; try discriminate Hd; reflexivity.
Qed.

Lemma merge_keys_not_mergeable (parsed : json) (s : xstate) :
  mergeable parsed = false ->
  exists e, merge_keys parsed schema_keys s = (Raise e, s).
Proof.
  intros Hm. destruct (is_dict parsed) eqn:Hd.
  - destruct parsed; try discriminate Hd. rewrite mergeable_dict in Hm.
    discriminate.
  - rewrite merge_keys_other by exact Hd.
    unfold mergeable in Hm.
    destruct (fst (merge_keys parsed schema_keys _)) as [[]|e];
      [discriminate|]. eauto.
Qed.

(** Whatever is raised in the [try] block, one clause records a message. *)
Lemma llm_except_clauses_total (attempt : nat) (e : pyexn) (s : xstate) :
  exists message,
    dispatch (llm_except_clauses attempt) e s
    = (Ok false,
       XState (<["llm_error_message" := JStr message]> (extracted_data s))
              (response s) (x_trace s)).
Proof.
  destruct s as [d r t]. destruct e as [[] msg];
    cbn; eexists; reflexivity.
Qed.

Lemma llm_attempt_success (circular_text circular_id : string)
    (attempt : nat) (s : xstate) (parsed : json) :
  parsed_answer circular_id (llm_service circular_text circular_id attempt)
  = Some parsed ->
  exists text,
    llm_attempt circular_text circular_id attempt s
    = (Ok true,
       XState (<["extraction_successful" := JBool true]>
                 (coerce_bools (merged parsed (extracted_data s))))
              (Some (text, true))
              (x_trace s ++ [EvPost circular_id attempt])).
Proof.
  unfold parsed_answer, llm_attempt.
  destruct (llm_service circular_text circular_id attempt)
    as [e|text e|text [e|api]]; try discriminate.
  destruct (parse_api_response circular_id api) as [p|e] eqn:Hparse;
    [|discriminate].
  destruct (mergeable p) eqn:Hm; [|discriminate].
  intros [= <-]. exists text.
  apply try_except_ok.
  unfold bind at 1. unfold x_emit at 1.
  unfold bind at 1. cbn [attempt_body].
  unfold bind at 1. unfold set_response at 1.
  unfold bind at 1. unfold lift_res at 1. rewrite Hparse.
  unfold bind at 1. rewrite merge_keys_mergeable by exact Hm.
  destruct s as [d r t]. reflexivity.
Qed.

Lemma llm_attempt_failure (circular_text circular_id : string)
    (attempt : nat) (s : xstate) :
  parsed_answer circular_id (llm_service circular_text circular_id attempt)
  = None ->
  exists message resp,
    llm_attempt circular_text circular_id attempt s
    = (Ok false,
       XState (<["llm_error_message" := JStr message]> (extracted_data s))
              resp
              (x_trace s ++ [EvPost circular_id attempt])).
Proof.
  unfold parsed_answer, llm_attempt. intros Hnone.
  destruct s as [d r t].
  destruct (llm_service circular_text circular_id attempt)
    as [e|text e|text [e|api]].
  - destruct (llm_except_clauses_total attempt e
                (XState d r (t ++ [EvPost circular_id attempt])))
      as [m Hm].
    exists m, r. erewrite try_except_raise; [exact Hm|reflexivity].
  - destruct (llm_except_clauses_total attempt e
                (XState d (Some (text, false))
                        (t ++ [EvPost circular_id attempt])))
      as [m Hm].
    exists m, (Some (text, false)).
    erewrite try_except_raise; [exact Hm|reflexivity].
  - destruct (llm_except_clauses_total attempt e
                (XState d (Some (text, true))
                        (t ++ [EvPost circular_id attempt])))
      as [m Hm].
    exists m, (Some (text, true)).
    erewrite try_except_raise; [exact Hm|reflexivity].
  - destruct (parse_api_response circular_id api) as [p|e] eqn:Hparse.
    + destruct (mergeable p) eqn:Hmg; [discriminate|].
      destruct (merge_keys_not_mergeable p
                  (XState d (Some (text, true))
                          (t ++ [EvPost circular_id attempt])) Hmg)
        as [e He].
      destruct (llm_except_clauses_total attempt e
                  (XState d (Some (text, true))
                          (t ++ [EvPost circular_id attempt])))
        as [m Hm].
      exists m, (Some (text, true)).
      erewrite try_except_raise; [exact Hm|].
      unfold bind at 1. unfold x_emit at 1.
      unfold bind at 1. cbn [attempt_body].
      unfold bind at 1. unfold set_response at 1.
      unfold bind at 1. unfold lift_res at 1. rewrite Hparse.
      unfold bind at 1. cbn [extracted_data response x_trace].
      rewrite He. reflexivity.
    + destruct (llm_except_clauses_total attempt e
                  (XState d (Some (text, true))
                          (t ++ [EvPost circular_id attempt])))
        as [m Hm].
      exists m, (Some (text, true)).
      erewrite try_except_raise; [exact Hm|].
      unfold bind at 1. unfold x_emit at 1.
      unfold bind at 1. cbn [attempt_body].
      unfold bind at 1. unfold set_response at 1.
      unfold bind at 1. unfold lift_res at 1. rewrite Hparse.
      reflexivity.
Qed.

Lemma succeeds_Some (circular_id : string) (o : http_outcome) (p : json) :
  parsed_answer circular_id o = Some p -> succeeds circular_id o = true.
Proof.
  intros E. unfold succeeds. rewrite E. apply bool_decide_eq_true. eauto.
Qed.

Lemma succeeds_None (circular_id : string) (o : http_outcome) :
  parsed_answer circular_id o = None -> succeeds circular_id o = false.
Proof.
  intros E. unfold succeeds. rewrite E. apply bool_decide_eq_false.
  intros [? ?]. discriminate.
Qed.

Lemma retry_trace_from_same (circular_id : string) (a : nat) :
  retry_trace_from circular_id a a = [EvPost circular_id a].
Proof. unfold retry_trace_from. rewrite Nat.sub_diag. reflexivity. Qed.

Lemma retry_trace_from_step (circular_id : string) (a j : nat) :
  (a < j)%nat ->
  retry_trace_from circular_id a j
  = EvPost circular_id a :: EvSleep (5 * (Z.of_nat a + 1))
    :: retry_trace_from circular_id (S a) j.
Proof.
  intros Hlt. unfold retry_trace_from.
  replace (j - a)%nat with (S (j - S a)) by lia.
  reflexivity.
Qed.

Lemma with_errors_after (d d' : gmap string json) (message : string) :
  with_errors (<["llm_error_message" := JStr message]> d) d' ->
  exists message', d' = <["llm_error_message" := JStr message']> d.
Proof.
  intros [->|[m ->]]; [eauto|].
  exists m. apply insert_insert_eq.
Qed.

(** The loop over the attempts a, a+1, ..., up to the last one allowed. *)
Lemma llm_loop_spec (circular_text circular_id : string) (n a : nat)
    (s : xstate) :
  (a + n)%nat = Z.to_nat MAX_RETRIES_LLM ->
  exists s',
    llm_loop circular_text circular_id (seq a n) s = (Ok tt, s') /\
    match find (fun k => succeeds circular_id
                           (llm_service circular_text circular_id k))
               (seq a n) with
    | Some j =>
        exists parsed d0,
          parsed_answer circular_id
            (llm_service circular_text circular_id j) = Some parsed
          /\ with_errors (extracted_data s) d0
          /\ (j = a -> d0 = extracted_data s)
          /\ ((a < j)%nat ->
              exists message,
                d0 = <["llm_error_message" := JStr message]>
                       (extracted_data s))
          /\ extracted_data s'
             = <["extraction_successful" := JBool true]>
                 (coerce_bools (merged parsed d0))
          /\ x_trace s' = x_trace s ++ retry_trace_from circular_id a j
    | None =>
        (n = 0%nat -> s' = s)
        /\ ((0 < n)%nat ->
            (exists message,
               extracted_data s'
               = <["llm_error_message" := JStr message]> (extracted_data s))
            /\ x_trace s'
               = x_trace s
                 ++ retry_trace_from circular_id a (a + n - 1))
    end.
Proof.
  revert a s. induction n as [|n IH]; intros a s Hrange.
  - exists s. split; [reflexivity|]. cbn [seq find].
    split; [reflexivity | intros; lia].
  - cbn [seq find llm_loop].
    destruct (parsed_answer circular_id
                (llm_service circular_text circular_id a)) as [parsed|]
      eqn:Hpa.
    + rewrite (succeeds_Some _ _ _ Hpa).
      destruct (llm_attempt_success circular_text circular_id a s parsed Hpa)
        as [text Hrun].
      eexists. split.
      * erewrite bind_ok by exact Hrun. reflexivity.
      * exists parsed, (extracted_data s).
        split; [exact Hpa|]. split; [left; reflexivity|].
        split; [reflexivity|]. split; [intros; lia|]. split; [reflexivity|].
        cbn [x_trace]. rewrite retry_trace_from_same. reflexivity.
    + rewrite (succeeds_None _ _ Hpa).
      destruct (llm_attempt_failure circular_text circular_id a s Hpa)
        as (message & resp & Hrun).
      destruct n as [|n].
      * (* the last attempt: no pause *)
        eexists. split.
        { erewrite bind_ok by exact Hrun.
          replace (Z.of_nat a <? MAX_RETRIES_LLM - 1)%Z with false
            by (symmetry; apply Z.ltb_ge; lia).
          reflexivity. }
        cbn [seq find]. split; [intros; lia|]. intros _.
        cbn [extracted_data x_trace].
        split; [eauto|].
        replace (a + 1 - 1)%nat with a by lia.
        rewrite retry_trace_from_same. reflexivity.
      * (* a pause, then the attempts that remain *)
        set (s2 := XState
                     (<["llm_error_message" := JStr message]>
                        (extracted_data s))
                     resp
                     ((x_trace s ++ [EvPost circular_id a])
                      ++ [EvSleep (5 * (Z.of_nat a + 1))])).
        destruct (IH (S a) s2 ltac:(lia)) as (s' & Hloop & Hspec).
        exists s'. split.
        { erewrite bind_ok by exact Hrun.
          replace (Z.of_nat a <? MAX_RETRIES_LLM - 1)%Z with true
            by (symmetry; apply Z.ltb_lt; lia).
          exact Hloop. }
        destruct (find _ (seq (S a) (S n))) as [j|] eqn:Hfind.
        -- destruct Hspec as (parsed & d0 & Hp & Hwe & _ & _ & Hdata & Htrace).
           apply find_some in Hfind. destruct Hfind as [Hin _].
           apply in_seq in Hin.
           destruct (with_errors_after _ _ _ Hwe) as [m' Hd0].
           exists parsed, d0.
           split; [exact Hp|]. split; [right; eauto|].
           split; [intros; lia|]. split; [intros _; eauto|].
           split; [exact Hdata|].
           rewrite Htrace. subst s2. cbn [x_trace].
           rewrite (retry_trace_from_step circular_id a j) by lia.
           rewrite <- !app_assoc. reflexivity.
        -- destruct Hspec as [_ Hspec].
           destruct (Hspec ltac:(lia)) as [[m' Hdata] Htrace].
           split; [intros; lia|]. intros _. split.
           ++ exists m'. rewrite Hdata. subst s2. cbn [extracted_data].
              apply insert_insert_eq.
           ++ rewrite Htrace. subst s2. cbn [x_trace].
              rewrite (retry_trace_from_step circular_id a (a + S (S n) - 1))
                by lia.
              replace (S a + S n - 1)%nat with (a + S (S n) - 1)%nat by lia.
              rewrite <- !app_assoc. reflexivity.
Qed.

(** *** Lookups in the records *)

Lemma coerce_bool_same (d : gmap string json) (k : string) :
  coerce_bool d k !! k = Some (JBool (as_bool (d !! k))).
Proof.
  unfold coerce_bool, as_bool.
  destruct (d !! k) as [[]|] eqn:E; rewrite ?lookup_insert_eq; auto.
Qed.

Lemma coerce_bool_other (d : gmap string json) (k k' : string) :
  k <> k' -> coerce_bool d k !! k' = d !! k'.
Proof.
  intros Hne. unfold coerce_bool.
  destruct (d !! k) as [[]|]; rewrite ?lookup_insert_ne by exact Hne; auto.
Qed.

Lemma coerce_bools_other (d : gmap string json) (k : string) :
  k ∉ boolean_keys -> coerce_bools d !! k = d !! k.
Proof.
  intros Hk. unfold coerce_bools, boolean_keys in *. cbn [fold_left].
  rewrite !coerce_bool_other; [reflexivity|..];
    intros E; apply Hk; rewrite <- E; in_list.
Qed.

Lemma coerce_bools_bool (d : gmap string json) (k : string) :
  k ∈ boolean_keys ->
  coerce_bools d !! k = Some (JBool (as_bool (d !! k))).
Proof.
  intros Hk. unfold coerce_bools, boolean_keys in *. cbn [fold_left].
  apply elem_of_cons in Hk as [->|Hk].
  { rewrite !coerce_bool_other by discriminate. apply coerce_bool_same. }
  apply elem_of_cons in Hk as [->|Hk].
  { rewrite coerce_bool_other by discriminate.
    rewrite coerce_bool_same. rewrite coerce_bool_other by discriminate.
    reflexivity. }
  apply elem_of_cons in Hk as [->|Hk].
  { rewrite coerce_bool_same. rewrite !coerce_bool_other by discriminate.
    reflexivity. }
  apply elem_of_nil in Hk. contradiction.
Qed.

Lemma merge_dict_lookup (p : gmap string json) (keys : list string)
    (d : gmap string json) (k : string) :
  merge_dict p keys d !! k
  = match p !! k with
    | Some v =>
        if bool_decide (k ∈ keys) && negb (bool_decide (k ∈ protected_keys))
        then Some v else d !! k
    | None => d !! k
    end.
Proof.
  revert d. induction keys as [|key keys IH]; intros d.
  - cbn. destruct (p !! k); reflexivity.
  - replace (merge_dict p (key :: keys) d)
      with (merge_dict p keys
              (match p !! key with
               | Some v => if bool_decide (key ∈ protected_keys) then d
                           else <[key := v]> d
               | None => d
               end)) by reflexivity.
    rewrite IH.
    destruct (p !! k) as [v|] eqn:Hk.
    + destruct (decide (k = key)) as [->|Hne].
      * rewrite Hk.
        rewrite (bool_decide_true (key ∈ key :: keys))
          by (apply elem_of_cons; left; reflexivity).
        cbn [andb].
        destruct (bool_decide (key ∈ protected_keys)) eqn:Hprot;
          cbn [negb]; rewrite ?andb_false_r, ?andb_true_r.
        -- reflexivity.
        -- destruct (bool_decide (key ∈ keys)); [reflexivity|].
           apply lookup_insert_eq.
      * assert (Hiff : bool_decide (k ∈ key :: keys)
                       = bool_decide (k ∈ keys)).
        { apply bool_decide_ext. rewrite elem_of_cons.
          split; [intros [?|?]; [contradiction|assumption] | auto]. }
        rewrite Hiff.
        destruct (bool_decide (k ∈ keys) && _); [reflexivity|].
        destruct (p !! key); [|reflexivity].
        destruct (bool_decide (key ∈ protected_keys)); [reflexivity|].
        apply lookup_insert_ne. congruence.
    + destruct (p !! key) as [v|] eqn:Hkey; [|reflexivity].
      destruct (bool_decide (key ∈ protected_keys)); [reflexivity|].
      apply lookup_insert_ne. congruence.
Qed.

Lemma merged_protected (parsed : json) (d : gmap string json) (k : string) :
  k ∈ protected_keys -> merged parsed d !! k = d !! k.
Proof.
  intros Hk. destruct parsed; try reflexivity. cbn [merged].
  rewrite merge_dict_lookup.
  rewrite (bool_decide_true (k ∈ protected_keys)) by exact Hk.
  rewrite andb_false_r. destruct (m !! k); reflexivity.
Qed.

Lemma merged_field (parsed : json) (d : gmap string json) (k : string) :
  k ∈ schema_keys -> k ∉ protected_keys ->
  merged parsed d !! k
  = match answer_field parsed k with Some v => Some v | None => d !! k end.
Proof.
  intros Hk Hnp. destruct parsed; try reflexivity.
  cbn [merged answer_field]. rewrite merge_dict_lookup.
  rewrite (bool_decide_true (k ∈ schema_keys)) by exact Hk.
  rewrite (bool_decide_false (k ∈ protected_keys)) by exact Hnp.
  cbn. destruct (m !! k); reflexivity.
Qed.

Lemma merged_is_Some (parsed : json) (d : gmap string json) (k : string) :
  is_Some (d !! k) -> is_Some (merged parsed d !! k).
Proof.
  intros Hd. destruct parsed; try exact Hd. cbn [merged].
  rewrite merge_dict_lookup.
  destruct (m !! k); [|exact Hd]. destruct (_ && _); eauto.
Qed.

Lemma coerce_bools_is_Some (d : gmap string json) (k : string) :
  is_Some (d !! k) -> is_Some (coerce_bools d !! k).
Proof.
  intros Hd. destruct (decide (k ∈ boolean_keys)) as [Hb|Hb].
  - rewrite coerce_bools_bool by exact Hb. eauto.
  - rewrite coerce_bools_other by exact Hb. exact Hd.
Qed.

Lemma with_errors_lookup (d d' : gmap string json) (k : string) :
  with_errors d d' -> k <> "llm_error_message" -> d' !! k = d !! k.
Proof.
  intros [->|[m ->]] Hne; [reflexivity|].
  apply lookup_insert_ne. congruence.
Qed.

Lemma with_errors_is_Some (d d' : gmap string json) (k : string) :
  with_errors d d' -> is_Some (d !! k) -> is_Some (d' !! k).
Proof.
  intros [->|[m ->]] Hd; [exact Hd|].
  rewrite lookup_insert. case_decide; eauto.
Qed.


(** The default record, key by key. *)
Lemma default_lookup (circular_id circular_url subject raw_text : json) :
  let d := get_default_extracted_data circular_id circular_url subject
             raw_text in
  d !! "circular_id" = Some circular_id
  /\ d !! "circular_url" = Some circular_url
  /\ d !! "subject" = Some subject
  /\ d !! "raw_text" = Some raw_text
  /\ d !! "extraction_successful" = Some (JBool false)
  /\ d !! "llm_error_message" = Some JNull
  /\ Forall (fun k => d !! k = Some (JBool false)) boolean_keys
  /\ Forall (fun k => d !! k = Some JNull)
       [ "event_time_utc"; "time_since_trigger"; "ra"; "dec"; "magnitude";
         "magnitude_error"; "wavelength_band"; "telescope"; "observatory" ]
  /\ Forall (fun k => is_Some (d !! k)) schema_keys.
Proof.
  cbv zeta.
  do 6 (split; [vm_compute; reflexivity|]).
  split; [|split].
  - repeat (constructor; [vm_compute; reflexivity|]). constructor.
  - repeat (constructor; [vm_compute; reflexivity|]). constructor.
  - unfold schema_keys. cbn [fmap list_fmap JSON_SCHEMA_PROPERTIES fst].
    repeat (constructor; [vm_compute; eexists; reflexivity|]). constructor.
Qed.

(** A request that raises, a bad status and a body that is not JSON are
    failed attempts. *)
Lemma request_errors_fail (circular_id text : string) (e : pyexn) :
  succeeds circular_id (PostRaises e) = false
  /\ succeeds circular_id (BadStatus text e) = false
  /\ succeeds circular_id (Responded text (inl e)) = false.
Proof. repeat split. Qed.

(** *** The first attempt that succeeds *)

Lemma find_seq_first (f : nat -> bool) (n a j : nat) :
  find f (seq a n) = Some j ->
  (a <= j < a + n)%nat /\ f j = true
  /\ forall k, (a <= k < j)%nat -> f k = false.
Proof.
  revert a. induction n as [|n IH]; intros a; cbn [seq find];
    [discriminate|].
  destruct (f a) eqn:Hfa.
  - intros [= <-]. split; [lia|]. split; [exact Hfa|]. intros; lia.
  - intros Hfind. destruct (IH _ Hfind) as (Hr & Hj & Hbefore).
    split; [lia|]. split; [exact Hj|].
    intros k Hk. destruct (decide (k = a)) as [->|]; [exact Hfa|].
    apply Hbefore. lia.
Qed.

Lemma find_seq_none (f : nat -> bool) (n a : nat) :
  (forall k, (a <= k < a + n)%nat -> f k = false) ->
  find f (seq a n) = None.
Proof.
  intros Hall. destruct (find f (seq a n)) as [j|] eqn:Hfind;
    [|reflexivity].
  destruct (find_seq_first _ _ _ _ Hfind) as (Hr & Hj & _).
  rewrite Hall in Hj by exact Hr. discriminate.
Qed.

Lemma find_seq_some (f : nat -> bool) (n a j : nat) :
  (a <= j < a + n)%nat -> f j = true ->
  (forall k, (a <= k < j)%nat -> f k = false) ->
  find f (seq a n) = Some j.
Proof.
  intros Hr Hj Hbefore.
  destruct (find f (seq a n)) as [j'|] eqn:Hfind.
  - destruct (find_seq_first _ _ _ _ Hfind) as (Hr' & Hj' & Hbefore').
    destruct (lt_eq_lt_dec j j') as [[Hlt|Heq]|Hgt];
      [|rewrite Heq; reflexivity|].
    + rewrite Hbefore' in Hj by lia. discriminate.
    + rewrite Hbefore in Hj' by lia. discriminate.
  - pose proof (find_none _ _ Hfind j) as Hn.
    rewrite Hn in Hj; [discriminate|]. apply in_seq. lia.
Qed.

Lemma first_success_none (circular_text circular_id : string) :
  (forall k, (Z.of_nat k < MAX_RETRIES_LLM)%Z ->
     succeeds circular_id (llm_service circular_text circular_id k) = false) ->
  first_success circular_text circular_id = None.
Proof.
  intros Hall. unfold first_success, range. apply find_seq_none.
  intros k Hk. apply Hall. lia.
Qed.

Lemma first_success_some (circular_text circular_id : string) (j : nat) :
  (Z.of_nat j < MAX_RETRIES_LLM)%Z ->
  succeeds circular_id (llm_service circular_text circular_id j) = true ->
  (forall k, (k < j)%nat ->
     succeeds circular_id (llm_service circular_text circular_id k) = false) ->
  first_success circular_text circular_id = Some j.
Proof.
  intros Hj Hs Hbefore. unfold first_success, range.
  apply find_seq_some; [lia | exact Hs |].
  intros k Hk. apply Hbefore. lia.
Qed.

(** *** The record that [extract_info_with_llm] returns *)

Lemma extract_info_with_llm_unfold
    (circular_text circular_id circular_url : string)
    (subject : option string) :
  extract_info_with_llm circular_text circular_id circular_url subject
  = match llm_loop circular_text circular_id
            (seq 0 (Z.to_nat MAX_RETRIES_LLM))
            (XState (get_default_extracted_data (JStr circular_id)
                       (JStr circular_url) (json_of_text subject)
                       (JStr circular_text)) None []) with
    | (Ok _, s) => (Ok (extracted_data s), x_trace s)
    | (Raise e, s) => (Raise e, x_trace s)
    end.
Proof. reflexivity. Qed.

Lemma extract_info_with_llm_shape
    (circular_text circular_id circular_url : string)
    (subject : option string) :
  let d := get_default_extracted_data (JStr circular_id) (JStr circular_url)
             (json_of_text subject) (JStr circular_text) in
  exists r tr,
    extract_info_with_llm circular_text circular_id circular_url subject
    = (Ok r, tr)
    /\ match first_success circular_text circular_id with
       | Some j =>
           exists parsed d0,
             parsed_answer circular_id
               (llm_service circular_text circular_id j) = Some parsed
             /\ with_errors d d0
             /\ (j = 0%nat -> d0 = d)
             /\ ((0 < j)%nat ->
                 exists message,
                   d0 = <["llm_error_message" := JStr message]> d)
             /\ r = <["extraction_successful" := JBool true]>
                      (coerce_bools (merged parsed d0))
             /\ tr = retry_trace circular_id j
       | None =>
           ((MAX_RETRIES_LLM <= 0)%Z -> r = d /\ tr = [])
           /\ ((0 < MAX_RETRIES_LLM)%Z ->
               (exists message,
                  r = <["llm_error_message" := JStr message]> d)
               /\ tr = retry_trace circular_id
                         (Z.to_nat MAX_RETRIES_LLM - 1))
       end.
Proof.
  intros d. rewrite extract_info_with_llm_unfold.
  subst d.
  generalize (get_default_extracted_data (JStr circular_id)
                (JStr circular_url) (json_of_text subject)
                (JStr circular_text)).
  intros d. unfold first_success, range.
  destruct (llm_loop_spec circular_text circular_id
              (Z.to_nat MAX_RETRIES_LLM) 0 (XState d None []) eq_refl)
    as (s' & Hloop & Hspec).
  rewrite Hloop. exists (extracted_data s'), (x_trace s').
  (split; [reflexivity|]).
  destruct (find _ _) as [j|].
  - destruct Hspec as (parsed & d0 & Hp & Hwe & Hfirst & Hpos & Hdata & Htrace).
    exists parsed, d0. cbn [extracted_data x_trace] in *.
    split; [exact Hp|]. split; [exact Hwe|]. split; [exact Hfirst|].
    split; [exact Hpos|]. split; [exact Hdata|]. exact Htrace.
  - destruct Hspec as [Hzero Hpos]. split.
    + intros Hle. rewrite Hzero by lia. cbn [extracted_data x_trace].
      split; reflexivity.
    + intros Hlt. destruct (Hpos ltac:(lia)) as [Hmsg Htrace].
      cbn [extracted_data x_trace] in *. split; [exact Hmsg|].
      rewrite Htrace. reflexivity.
Qed.
(** The record returned is the default record with or without an error
    message, or such a record after the merge of an answer. *)
Lemma extract_info_with_llm_cases
    (circular_text circular_id circular_url : string)
    (subject : option string) :
  exists r tr,
    extract_info_with_llm circular_text circular_id circular_url subject
    = (Ok r, tr)
    /\ exists d0,
         with_errors
           (get_default_extracted_data (JStr circular_id) (JStr circular_url)
              (json_of_text subject) (JStr circular_text)) d0
         /\ (r = d0
             \/ exists parsed,
                  r = <["extraction_successful" := JBool true]>
                        (coerce_bools (merged parsed d0))).
Proof.
  destruct (extract_info_with_llm_shape circular_text circular_id
              circular_url subject) as (r & tr & Hrun & Hshape).
  exists r, tr. split; [exact Hrun|].
  destruct (first_success circular_text circular_id) as [j|].
  - destruct Hshape as (parsed & d0 & _ & Hwe & _ & _ & Hr & _).
    exists d0. split; [exact Hwe|]. right. exists parsed. exact Hr.
  - destruct Hshape as [Hzero Hpos].
    destruct (Z_lt_le_dec 0 MAX_RETRIES_LLM) as [Hlt|Hle].
    + destruct (Hpos Hlt) as [[m Hr] _].
      exists r. split; [right; exists m; exact Hr | left; reflexivity].
    + destruct (Hzero Hle) as [Hr _].
      exists r. split; [left; exact Hr | left; reflexivity].
Qed.

Lemma attempt_body_run (circular_id text : string) (api parsed : json)
    (s : xstate) :
  parse_api_response circular_id api = Ok parsed ->
  mergeable parsed = true ->
  attempt_body circular_id (Responded text (inr api)) s
  = (Ok tt,
     XState (<["extraction_successful" := JBool true]>
               (coerce_bools (merged parsed (extracted_data s))))
            (Some (text, true)) (x_trace s)).
Proof.
  intros Hparse Hm. cbn [attempt_body].
  unfold bind at 1. unfold set_response at 1.
  unfold bind at 1. unfold lift_res at 1. rewrite Hparse.
  unfold bind at 1. rewrite merge_keys_mergeable by exact Hm.
  destruct s as [d r t]. reflexivity.
Qed.

Lemma attempt_body_fails (circular_id : string) (o : http_outcome)
    (s : xstate) :
  parsed_answer circular_id o = None ->
  exists e resp,
    attempt_body circular_id o s
    = (Raise e, XState (extracted_data s) resp (x_trace s)).
Proof.
  unfold parsed_answer. intros Hnone. destruct s as [d r t].
  destruct o as [e|text e|text [e|api]]; try (eexists; eexists; reflexivity).
  destruct (parse_api_response circular_id api) as [p|e] eqn:Hparse.
  - destruct (mergeable p) eqn:Hmg; [discriminate|].
    destruct (merge_keys_not_mergeable p (XState d (Some (text, true)) t) Hmg)
      as [e He].
    exists e, (Some (text, true)). cbn [attempt_body].
    unfold bind at 1. unfold set_response at 1.
    unfold bind at 1. unfold lift_res at 1. rewrite Hparse.
    unfold bind at 1. cbn [extracted_data response x_trace]. rewrite He.
    reflexivity.
  - exists e, (Some (text, true)). cbn [attempt_body].
    unfold bind at 1. unfold set_response at 1.
    unfold bind at 1. unfold lift_res at 1. rewrite Hparse. reflexivity.
Qed.

Lemma parsed_answer_Some (circular_id : string) (o : http_outcome)
    (parsed : json) :
  parsed_answer circular_id o = Some parsed ->
  exists text api,
    o = Responded text (inr api)
    /\ parse_api_response circular_id api = Ok parsed
    /\ mergeable parsed = true.
Proof.
  unfold parsed_answer.
  destruct o as [e|text e|text [e|api]]; try discriminate.
  destruct (parse_api_response circular_id api) as [p|e] eqn:Hparse;
    [|discriminate].
  destruct (mergeable p) eqn:Hm; [|discriminate].
  intros [= <-]. exists text, api.
  split; [reflexivity|]. split; [exact Hparse | exact Hm].
Qed.

Lemma succeeds_true (circular_id : string) (o : http_outcome) :
  succeeds circular_id o = true ->
  exists parsed, parsed_answer circular_id o = Some parsed.
Proof.
  unfold succeeds. intros Hs. apply bool_decide_eq_true in Hs.
  destruct Hs as [p Hp]. eauto.
Qed.

(** Lookups in the record of a successful attempt. *)
Lemma success_record_lookup (parsed : json) (d0 : gmap string json)
    (k : string) :
  k ∈ protected_keys -> k <> "extraction_successful" ->
  (<["extraction_successful" := JBool true]>
     (coerce_bools (merged parsed d0))) !! k = d0 !! k.
Proof.
  intros Hp Hne. rewrite lookup_insert_ne by congruence.
  rewrite coerce_bools_other.
  - apply merged_protected. exact Hp.
  - unfold protected_keys, boolean_keys in *. intros Hb.
    repeat (apply elem_of_cons in Hp as [->|Hp];
            [repeat (apply elem_of_cons in Hb as [Hb|Hb];
                     [discriminate Hb|]);
             apply elem_of_nil in Hb; contradiction|]).
    apply elem_of_nil in Hp. contradiction.
Qed.

Lemma success_record_bool (parsed : json) (d0 : gmap string json)
    (k : string) :
  k ∈ boolean_keys ->
  d0 !! k = Some (JBool false) ->
  (<["extraction_successful" := JBool true]>
     (coerce_bools (merged parsed d0))) !! k
  = Some (JBool (as_bool (answer_field parsed k))).
Proof.
  intros Hb Hd.
  assert (Hne : "extraction_successful" <> k).
  { unfold boolean_keys in Hb. intros <-.
    repeat (apply elem_of_cons in Hb as [Hb|Hb]; [discriminate Hb|]).
    apply elem_of_nil in Hb. contradiction. }
  rewrite lookup_insert_ne by exact Hne.
  rewrite coerce_bools_bool by exact Hb.
  rewrite merged_field.
  - destruct (answer_field parsed k); [reflexivity|]. rewrite Hd. reflexivity.
  - unfold boolean_keys in Hb.
    repeat (apply elem_of_cons in Hb as [->|Hb];
            [in_list|]).
    apply elem_of_nil in Hb. contradiction.
  - unfold boolean_keys, protected_keys in *. intros Hp.
    repeat (apply elem_of_cons in Hb as [->|Hb];
            [repeat (apply elem_of_cons in Hp as [Hp|Hp];
                     [discriminate Hp|]);
             apply elem_of_nil in Hp; contradiction|]).
    apply elem_of_nil in Hb. contradiction.
Qed.

(** C2. When the first successful attempt follows a failed one, the record
    returned has [extraction_successful = true] and still carries the
    error message of the failed attempt: the message is never reset. *)
Theorem success_after_failure_keeps_error
    (circular_text circular_id circular_url : string)
    (subject : option string) (j : nat) :
  (0 < j)%nat ->
  (Z.of_nat j < MAX_RETRIES_LLM)%Z ->
  succeeds circular_id (llm_service circular_text circular_id j) = true ->
  (forall k, (k < j)%nat ->
     succeeds circular_id (llm_service circular_text circular_id k) = false) ->
  exists r tr message,
    extract_info_with_llm circular_text circular_id circular_url subject
    = (Ok r, tr)
    /\ r !! "extraction_successful" = Some (JBool true)
    /\ r !! "llm_error_message" = Some (JStr message).
Proof.
  intros Hpos Hj Hs Hbefore.
  destruct (extract_info_with_llm_shape circular_text circular_id
              circular_url subject) as (r & tr & Hrun & Hshape).
  rewrite (first_success_some _ _ j Hj Hs Hbefore) in Hshape.
  destruct Hshape as (parsed & d0 & _ & _ & _ & Herr & Hr & _).
  destruct (Herr Hpos) as [message Hd0].
  exists r, tr, message. split; [exact Hrun|]. subst r. split.
  - apply lookup_insert_eq.
  - rewrite success_record_lookup; [| |discriminate].
    + rewrite Hd0. apply lookup_insert_eq.
    + in_list.
Qed.

(** C3. [extract_info_with_llm] never raises: it returns one record,
    whatever the service does. When at least one attempt is allowed and
    every attempt fails, the record has [extraction_successful = false] and
    an error message, and the attempts 0 .. MAX_RETRIES_LLM - 1 were made
    with a pause of 5 * (k + 1) seconds after attempt k, except after the
    last. When attempt j is the first to succeed, no attempt follows it. *)
Theorem extract_never_raises
    (circular_text circular_id circular_url : string)
    (subject : option string) :
  exists r tr,
    extract_info_with_llm circular_text circular_id circular_url subject
    = (Ok r, tr)
    /\ ((0 < MAX_RETRIES_LLM)%Z ->
        (forall k, (Z.of_nat k < MAX_RETRIES_LLM)%Z ->
           succeeds circular_id
             (llm_service circular_text circular_id k) = false) ->
        r !! "extraction_successful" = Some (JBool false)
        /\ (exists message, r !! "llm_error_message" = Some (JStr message))
        /\ tr = retry_trace circular_id (Z.to_nat MAX_RETRIES_LLM - 1))
    /\ (forall j,
          (Z.of_nat j < MAX_RETRIES_LLM)%Z ->
          succeeds circular_id
            (llm_service circular_text circular_id j) = true ->
          (forall k, (k < j)%nat ->
             succeeds circular_id
               (llm_service circular_text circular_id k) = false) ->
          r !! "extraction_successful" = Some (JBool true)
          /\ tr = retry_trace circular_id j).
Proof.
  destruct (extract_info_with_llm_shape circular_text circular_id
              circular_url subject) as (r & tr & Hrun & Hshape).
  exists r, tr. split; [exact Hrun|]. split.
  - intros Hmax Hall.
    rewrite (first_success_none _ _ Hall) in Hshape.
    destruct Hshape as [_ Hpos].
    destruct (Hpos Hmax) as [[message Hr] Htr].
    split; [|split; [|exact Htr]].
    + rewrite Hr. rewrite lookup_insert_ne by discriminate.
      pose proof (default_lookup (JStr circular_id) (JStr circular_url)
                    (json_of_text subject) (JStr circular_text)) as Hd.
      cbv zeta in Hd.
      destruct Hd as (_ & _ & _ & _ & Hsucc & _). exact Hsucc.
    + exists message. rewrite Hr. apply lookup_insert_eq.
  - intros j Hj Hs Hbefore.
    rewrite (first_success_some _ _ j Hj Hs Hbefore) in Hshape.
    destruct Hshape as (parsed & d0 & _ & _ & _ & _ & Hr & Htr).
    split; [|exact Htr]. rewrite Hr. apply lookup_insert_eq.
Qed.

(** C5. In every record that [extract_info_with_llm] returns the three
    boolean fields hold [true] or [false]. When an attempt succeeds with
    the parsed answer [parsed], each of them holds the answer's value read
    by [as_bool]: a boolean is kept, a string counts as true exactly when
    its lower-case form is "true", and anything else, or no value at all,
    gives false. *)
Theorem extract_booleans
    (circular_text circular_id circular_url : string)
    (subject : option string) :
  exists r tr,
    extract_info_with_llm circular_text circular_id circular_url subject
    = (Ok r, tr)
    /\ Forall (fun k => exists b : bool, r !! k = Some (JBool b)) boolean_keys
    /\ (forall j parsed,
          first_success circular_text circular_id = Some j ->
          parsed_answer circular_id
            (llm_service circular_text circular_id j) = Some parsed ->
          Forall (fun k => r !! k
                           = Some (JBool (as_bool (answer_field parsed k))))
                 boolean_keys)
    /\ (forall s, as_bool (Some (JStr s)) = true
                  <-> PyStr.lower s = "true")
    /\ (forall b, as_bool (Some (JBool b)) = b)
    /\ (forall v, (forall b, v <> JBool b) -> (forall s, v <> JStr s) ->
                  as_bool (Some v) = false).
Proof.
  destruct (extract_info_with_llm_shape circular_text circular_id
              circular_url subject) as (r & tr & Hrun & Hshape).
  exists r, tr. split; [exact Hrun|].
  pose proof (default_lookup (JStr circular_id) (JStr circular_url)
                (json_of_text subject) (JStr circular_text)) as Hd.
  cbv zeta in Hd.
  destruct Hd as (_ & _ & _ & _ & _ & _ & Hbools & _).
  assert (Hd0 : forall d0,
            with_errors
              (get_default_extracted_data (JStr circular_id)
                 (JStr circular_url) (json_of_text subject)
                 (JStr circular_text)) d0 ->
            Forall (fun k => d0 !! k = Some (JBool false)) boolean_keys).
  { intros d0 Hwe. rewrite Forall_forall in Hbools |- *.
    intros k Hk. rewrite (with_errors_lookup _ _ k Hwe).
    - apply Hbools. exact Hk.
    - intros ->.
      assert (Hn : "llm_error_message" ∉ boolean_keys) by in_list.
      exact (Hn Hk). }
  split; [|split; [|split; [|split]]].
  - destruct (first_success circular_text circular_id) as [j|].
    + destruct Hshape as (parsed & d0 & _ & Hwe & _ & _ & Hr & _).
      specialize (Hd0 d0 Hwe). rewrite Forall_forall in Hd0 |- *.
      intros k Hk. eexists. rewrite Hr.
      apply success_record_bool; [exact Hk | apply Hd0; exact Hk].
    + assert (Hwe : with_errors
                (get_default_extracted_data (JStr circular_id)
                   (JStr circular_url) (json_of_text subject)
                   (JStr circular_text)) r).
      { destruct Hshape as [Hzero Hpos].
        destruct (Z_lt_le_dec 0 MAX_RETRIES_LLM) as [Hlt|Hle].
        - destruct (Hpos Hlt) as [[m Hr] _]. right. eauto.
        - destruct (Hzero Hle) as [Hr _]. left. exact Hr. }
      specialize (Hd0 r Hwe). rewrite Forall_forall in Hd0 |- *.
      intros k Hk. exists false. apply Hd0. exact Hk.
  - intros j parsed Hfirst Hparsed. rewrite Hfirst in Hshape.
    destruct Hshape as (parsed' & d0 & Hp' & Hwe & _ & _ & Hr & _).
    rewrite Hparsed in Hp'. injection Hp' as <-.
    specialize (Hd0 d0 Hwe). rewrite Forall_forall in Hd0 |- *.
    intros k Hk. rewrite Hr.
    apply success_record_bool; [exact Hk | apply Hd0; exact Hk].
  - intros s. cbn [as_bool]. apply String.eqb_eq.
  - reflexivity.
  - intros v Hnb Hns. destruct v; try reflexivity.
    + exfalso. eapply Hnb. reflexivity.
    + exfalso. eapply Hns. reflexivity.
Qed.

Lemma insert_keeps_is_Some (m : gmap string json) (k k' : string) (v : json) :
  is_Some (m !! k) -> is_Some (<[k' := v]> m !! k).
Proof. intros Hm. rewrite lookup_insert. case_decide; eauto. Qed.

(** C9. The record returned has the identifier, the URL, the subject and
    the text that [extract_info_with_llm] was called with, and a null error
    message when the first attempt succeeds. Whatever the service answers,
    the [try] block of an attempt leaves these four fields and the error
    message as they were, and leaves [extraction_successful] as it was or
    sets it to [true]: the values that the answer gives for the six
    protected keys are never merged. *)
Theorem extract_keeps_identity
    (circular_text circular_id circular_url : string)
    (subject : option string) :
  (exists r tr,
     extract_info_with_llm circular_text circular_id circular_url subject
     = (Ok r, tr)
     /\ r !! "circular_id" = Some (JStr circular_id)
     /\ r !! "circular_url" = Some (JStr circular_url)
     /\ r !! "subject" = Some (json_of_text subject)
     /\ r !! "raw_text" = Some (JStr circular_text)
     /\ (first_success circular_text circular_id = Some 0%nat ->
         r !! "llm_error_message" = Some JNull))
  /\ (forall (o : http_outcome) (s : xstate),
        Forall (fun k =>
                  extracted_data (snd (attempt_body circular_id o s)) !! k
                  = extracted_data s !! k)
               [ "circular_id"; "circular_url"; "subject"; "raw_text";
                 "llm_error_message" ]
        /\ (extracted_data (snd (attempt_body circular_id o s))
              !! "extraction_successful"
            = extracted_data s !! "extraction_successful"
            \/ extracted_data (snd (attempt_body circular_id o s))
                 !! "extraction_successful"
               = Some (JBool true)))
  /\ (forall (parsed : json) (d : gmap string json),
        Forall (fun k => merged parsed d !! k = d !! k) protected_keys).
Proof.
  split; [|split].
  - destruct (extract_info_with_llm_shape circular_text circular_id
                circular_url subject) as (r & tr & Hrun & Hshape).
    exists r, tr. split; [exact Hrun|].
    pose proof (default_lookup (JStr circular_id) (JStr circular_url)
                  (json_of_text subject) (JStr circular_text)) as Hd.
    cbv zeta in Hd.
    destruct Hd as (Hid & Hurl & Hsubj & Hraw & _ & Herr & _).
    assert (Hkeep : forall d0 k,
              with_errors
                (get_default_extracted_data (JStr circular_id)
                   (JStr circular_url) (json_of_text subject)
                   (JStr circular_text)) d0 ->
              k ∈ protected_keys -> k <> "extraction_successful" ->
              k <> "llm_error_message" ->
              (r = d0 \/ exists parsed,
                   r = <["extraction_successful" := JBool true]>
                         (coerce_bools (merged parsed d0))) ->
              r !! k
              = get_default_extracted_data (JStr circular_id)
                  (JStr circular_url) (json_of_text subject)
                  (JStr circular_text) !! k).
    { intros d0 k Hwe Hp Hns Hne [->|[parsed ->]].
      - apply with_errors_lookup; assumption.
      - rewrite success_record_lookup by assumption.
        apply with_errors_lookup; assumption. }
    assert (Hr : exists d0,
              with_errors
                (get_default_extracted_data (JStr circular_id)
                   (JStr circular_url) (json_of_text subject)
                   (JStr circular_text)) d0
              /\ (r = d0 \/ exists parsed,
                    r = <["extraction_successful" := JBool true]>
                          (coerce_bools (merged parsed d0)))).
    { destruct (first_success circular_text circular_id) as [j|].
      - destruct Hshape as (parsed & d0 & _ & Hwe & _ & _ & Hr & _).
        exists d0. split; [exact Hwe|]. right. exists parsed. exact Hr.
      - destruct Hshape as [Hzero Hpos].
        destruct (Z_lt_le_dec 0 MAX_RETRIES_LLM) as [Hlt|Hle].
        + destruct (Hpos Hlt) as [[m Hr] _].
          exists r. split; [right; exists m; exact Hr | left; reflexivity].
        + destruct (Hzero Hle) as [Hr _].
          exists r. split; [left; exact Hr | left; reflexivity]. }
    destruct Hr as (d0 & Hwe & Hr).
    split.
    { rewrite (Hkeep d0 "circular_id" Hwe ltac:(in_list) ltac:(discriminate)
                 ltac:(discriminate) Hr). exact Hid. }
    split.
    { rewrite (Hkeep d0 "circular_url" Hwe ltac:(in_list) ltac:(discriminate)
                 ltac:(discriminate) Hr). exact Hurl. }
    split.
    { rewrite (Hkeep d0 "subject" Hwe ltac:(in_list) ltac:(discriminate)
                 ltac:(discriminate) Hr). exact Hsubj. }
    split.
    { rewrite (Hkeep d0 "raw_text" Hwe ltac:(in_list) ltac:(discriminate)
                 ltac:(discriminate) Hr). exact Hraw. }
    intros Hfirst. rewrite Hfirst in Hshape.
    destruct Hshape as (parsed & d1 & _ & _ & Hd1 & _ & Hr1 & _).
    rewrite Hr1. rewrite success_record_lookup;
      [|in_list|discriminate].
    rewrite (Hd1 eq_refl). exact Herr.
  - intros o s.
    destruct (parsed_answer circular_id o) as [parsed|] eqn:Hpa.
    + destruct (parsed_answer_Some _ _ _ Hpa) as (text & api & -> & Hp & Hm).
      rewrite (attempt_body_run _ _ _ _ s Hp Hm). cbn [snd extracted_data].
      split.
      * repeat (constructor;
                [apply success_record_lookup; [in_list | discriminate]|]).
        constructor.
      * right. apply lookup_insert_eq.
    + destruct (attempt_body_fails _ _ s Hpa) as (e & resp & ->).
      cbn [snd extracted_data]. split.
      * repeat (constructor; [reflexivity|]). constructor.
      * left. reflexivity.
  - intros parsed d. rewrite Forall_forall. intros k Hk.
    apply merged_protected. exact Hk.
Qed.

(** C10. The default record has every property of the schema as a key:
    the three boolean fields are [false], the fields that are not supplied
    are null. Every record that [extract_info_with_llm] returns, and the
    record stored when no text could be retrieved, has all these keys. *)
Theorem default_record_has_schema
    (circular_id circular_url subject raw_text : json) :
  Forall (fun k => is_Some (get_default_extracted_data circular_id
                              circular_url subject raw_text !! k))
         schema_keys
  /\ Forall (fun k => get_default_extracted_data circular_id circular_url
                        subject raw_text !! k = Some (JBool false))
            boolean_keys
  /\ Forall (fun k => get_default_extracted_data circular_id circular_url
                        subject raw_text !! k = Some JNull)
            [ "event_time_utc"; "time_since_trigger"; "ra"; "dec";
              "magnitude"; "magnitude_error"; "wavelength_band";
              "telescope"; "observatory"; "llm_error_message" ]
  /\ (forall (text id url : string) (subj : option string),
        exists r tr,
          extract_info_with_llm text id url subj = (Ok r, tr)
          /\ Forall (fun k => is_Some (r !! k)) schema_keys)
  /\ (forall (id url : string) (subj : option string),
        Forall (fun k => is_Some (error_entry id url subj !! k))
               schema_keys).
Proof.
  pose proof (default_lookup circular_id circular_url subject raw_text)
    as Hd.
  cbv zeta in Hd.
  destruct Hd as (_ & _ & _ & _ & _ & Herr & Hbools & Hnulls & Hkeys).
  split; [exact Hkeys|]. split; [exact Hbools|]. split.
  { rewrite Forall_forall in Hnulls |- *. intros k Hk.
    rewrite !elem_of_cons in Hk.
    destruct Hk as [->|[->|[->|[->|[->|[->|[->|[->|[->|[->|Hk]]]]]]]]]];
      try (apply Hnulls; in_list); [exact Herr|].
    apply elem_of_nil in Hk. contradiction. }
  split.
  - intros text id url subj.
    destruct (extract_info_with_llm_cases text id url subj)
      as (r & tr & Hrun & d0 & Hwe & Hr).
    exists r, tr. split; [exact Hrun|].
    pose proof (default_lookup (JStr id) (JStr url) (json_of_text subj)
                  (JStr text)) as Hd.
    cbv zeta in Hd.
    destruct Hd as (_ & _ & _ & _ & _ & _ & _ & _ & Hk0).
    rewrite Forall_forall in Hk0 |- *. intros k Hk.
    specialize (Hk0 k Hk).
    pose proof (with_errors_is_Some _ _ k Hwe Hk0) as Hd0.
    destruct Hr as [->|[parsed ->]]; [exact Hd0|].
    apply insert_keeps_is_Some, coerce_bools_is_Some, merged_is_Some.
    exact Hd0.
  - intros id url subj.
    pose proof (default_lookup (JStr id) (JStr url) (json_of_text subj)
                  (JStr "COULD NOT RETRIEVE TEXT")) as Hd.
    cbv zeta in Hd.
    destruct Hd as (_ & _ & _ & _ & _ & _ & _ & _ & Hk0).
    rewrite Forall_forall in Hk0 |- *. intros k Hk.
    unfold error_entry.
    apply insert_keeps_is_Some, insert_keeps_is_Some, Hk0. exact Hk.
Qed.
End llm_utils_properties.

(** *** main.py *)

Section main_properties.
Context `{Config, PyLib, Outside}.

Lemma extract_record_id
    (circular_text circular_id circular_url : string)
    (subject : option string) :
  exists r tr,
    extract_info_with_llm circular_text circular_id circular_url subject
    = (Ok r, tr)
    /\ r !! "circular_id" = Some (JStr circular_id).
Proof.
  destruct (extract_info_with_llm_cases circular_text circular_id
              circular_url subject) as (r & tr & Hrun & d0 & Hwe & Hr).
  exists r, tr. split; [exact Hrun|].
  pose proof (default_lookup (JStr circular_id) (JStr circular_url)
                (json_of_text subject) (JStr circular_text)) as Hd.
  cbv zeta in Hd. destruct Hd as (Hid & _).
  assert (Hd0 : d0 !! "circular_id" = Some (JStr circular_id)).
  { rewrite (with_errors_lookup _ _ "circular_id" Hwe ltac:(discriminate)).
    exact Hid. }
  destruct Hr as [->|[parsed ->]]; [exact Hd0|].
  rewrite (success_record_lookup parsed d0 "circular_id" ltac:(in_list)
             ltac:(discriminate)).
  exact Hd0.
Qed.

Lemma error_entry_id (circular_id circular_url : string)
    (subject : option string) :
  error_entry circular_id circular_url subject !! "circular_id"
  = Some (JStr circular_id).
Proof. vm_compute. reflexivity. Qed.

(** What the call for one new bulletin does: one record is appended, the
    page is requested first and the notification is sent last; only the
    notification can raise. *)
Lemma process_single_circular_run (c : circ_info) (s : st) :
  exists rec evs,
    process_single_circular c s
    = (match send_slack_notification rec with
       | Ok _ => Ok tt
       | Raise e => Raise e
       end,
       St (st_fs s)
          (st_trace s ++ EvFetchPage (ci_url c) :: evs ++ [EvNotify rec])
          (processed_ids s)
          (all_extracted_data s ++ [JObj rec])
          (new_circulars_processed_this_cycle s)
          (skipped_due_to_id_count s))
    /\ rec !! "circular_id" = Some (JStr (ci_id c))
    /\ processed_as c rec.
Proof.
  unfold processed_as, process_single_circular.
  pose proof (robust_requests (ci_id c) (ci_url c)) as Hreq.
  destruct (get_circular_text_robust (ci_id c) (ci_url c))
    as [raw requests].
  cbn [snd] in Hreq.
  set (rest := if needs_fallback _ then _ else _) in Hreq.
  clearbody rest. subst requests.
  destruct s as [w t ids data new skipped]. cbn [st_fs st_trace
    processed_ids all_extracted_data new_circulars_processed_this_cycle
    skipped_due_to_id_count].
  assert (Hfail :
    exists rec evs,
      bind (emit (EvFetchPage (ci_url c) :: rest))
        (fun _ =>
           bind (append_record
                   (error_entry (ci_id c) (ci_url c) (ci_subject c)))
             (fun _ => notify
                   (error_entry (ci_id c) (ci_url c) (ci_subject c))))
        (St w t ids data new skipped)
      = (match send_slack_notification rec with
         | Ok _ => Ok tt
         | Raise e => Raise e
         end,
         St w (t ++ EvFetchPage (ci_url c) :: evs ++ [EvNotify rec]) ids
            (data ++ [JObj rec]) new skipped)
      /\ rec !! "circular_id" = Some (JStr (ci_id c))
      /\ rec = error_entry (ci_id c) (ci_url c) (ci_subject c)).
  { exists (error_entry (ci_id c) (ci_url c) (ci_subject c)), rest.
    split; [|split; [apply error_entry_id | reflexivity]].
    generalize (error_entry (ci_id c) (ci_url c) (ci_subject c)).
    intros rec. unfold bind, emit, append_record, notify, bind, emit,
      lift_res. cbn [st_fs st_trace processed_ids all_extracted_data
      new_circulars_processed_this_cycle skipped_due_to_id_count].
    rewrite <- app_assoc. cbn [app].
    destruct (send_slack_notification rec); reflexivity. }
  cbn [fst].
  destruct raw as [text|]; [|exact Hfail].
  destruct (PyStr.truthy text); [|exact Hfail].
  destruct (extract_record_id text (ci_id c) (ci_url c) (ci_subject c))
    as (r & tr & Hrun & Hid).
  rewrite Hrun.
  exists r, (rest ++ tr). split; [|split; [exact Hid | reflexivity]].
  unfold bind, emit, append_record, notify, bind, emit, lift_res.
  cbn [st_fs st_trace processed_ids all_extracted_data
    new_circulars_processed_this_cycle skipped_due_to_id_count].
  rewrite <- ?app_assoc. cbn [app]. rewrite <- ?app_assoc.
  destruct (send_slack_notification r); reflexivity.
Qed.

Lemma mark_processed_run (circular_id_str : string) (s : st) :
  exists w1,
    save_processed_id circular_id_str (st_fs s) = (Ok tt, w1)
    /\ mark_processed circular_id_str s
       = (Ok tt,
          St w1 (st_trace s) ({[ circular_id_str ]} ∪ processed_ids s)
             (all_extracted_data s)
             (new_circulars_processed_this_cycle s)
             (skipped_due_to_id_count s)).
Proof.
  destruct (save_processed_id_total (st_fs s) circular_id_str)
    as [w1 Hsave].
  exists w1. split; [exact Hsave|].
  unfold mark_processed, bind, on_fs. rewrite Hsave. reflexivity.
Qed.

(** An identifier that is in the ledger: nothing happens. *)
Lemma loop_body_processed (c : circ_info) (s : st) :
  ci_id c ∈ processed_ids s -> loop_body c s = (Ok tt, s).
Proof.
  intros Hin. unfold loop_body, bind, get.
  rewrite (bool_decide_true _ Hin). cbn [negb when].
  destruct (PyStr.int (ci_id c)) as [n|]; [|reflexivity].
  destruct (below_floor n); reflexivity.
Qed.

(** An identifier that is no number and not in the ledger. *)
Lemma loop_body_malformed (c : circ_info) (s : st) :
  PyStr.int (ci_id c) = None -> ci_id c ∉ processed_ids s ->
  loop_body c s = mark_processed (ci_id c) s.
Proof.
  intros Hint Hnot. unfold loop_body, bind, get. rewrite Hint.
  rewrite (bool_decide_false _ Hnot). reflexivity.
Qed.

(** A number below the floor that is not in the ledger. *)
Lemma loop_body_below (c : circ_info) (s : st) (n : Z) :
  PyStr.int (ci_id c) = Some n -> below_floor n = true ->
  ci_id c ∉ processed_ids s ->
  exists w1,
    save_processed_id (ci_id c) (st_fs s) = (Ok tt, w1)
    /\ loop_body c s
       = (Ok tt,
          St w1 (st_trace s) ({[ ci_id c ]} ∪ processed_ids s)
             (all_extracted_data s)
             (new_circulars_processed_this_cycle s)
             (S (skipped_due_to_id_count s))).
Proof.
  intros Hint Hbelow Hnot.
  destruct (mark_processed_run (ci_id c) s) as (w1 & Hsave & Hmark).
  exists w1. split; [exact Hsave|].
  unfold loop_body. unfold bind at 1. unfold get at 1.
  rewrite Hint, Hbelow. rewrite (bool_decide_false _ Hnot).
  cbn [negb when]. unfold bind. rewrite Hmark. reflexivity.
Qed.

(** A number at or above the floor, or without a floor, that is not in the
    ledger: the bulletin is processed. *)
Lemma loop_body_new (c : circ_info) (s : st) (n : Z) :
  PyStr.int (ci_id c) = Some n -> below_floor n = false ->
  ci_id c ∉ processed_ids s ->
  exists rec evs w1,
    rec !! "circular_id" = Some (JStr (ci_id c))
    /\ processed_as c rec
    /\ save_processed_id (ci_id c) (st_fs s) = (Ok tt, w1)
    /\ loop_body c s
       = match send_slack_notification rec with
         | Ok _ =>
             (Ok tt,
              St w1
                 ((st_trace s ++ EvFetchPage (ci_url c) :: evs
                   ++ [EvNotify rec])
                  ++ [EvSleep (Z.max 1 (CHECK_INTERVAL_SECONDS / 1800))])
                 ({[ ci_id c ]} ∪ processed_ids s)
                 (all_extracted_data s ++ [JObj rec])
                 (S (new_circulars_processed_this_cycle s))
                 (skipped_due_to_id_count s))
         | Raise e =>
             (Raise e,
              St (st_fs s)
                 (st_trace s ++ EvFetchPage (ci_url c) :: evs
                  ++ [EvNotify rec])
                 (processed_ids s)
                 (all_extracted_data s ++ [JObj rec])
                 (S (new_circulars_processed_this_cycle s))
                 (skipped_due_to_id_count s))
         end.
Proof.
  intros Hint Hfloor Hnot.
  destruct s as [w t ids data new skipped].
  cbn [st_fs st_trace processed_ids all_extracted_data
    new_circulars_processed_this_cycle skipped_due_to_id_count] in *.
  destruct (process_single_circular_run c
              (St w t ids data (S new) skipped))
    as (rec & evs & Hrun & Hid & Has).
  cbn [st_fs st_trace processed_ids all_extracted_data
    new_circulars_processed_this_cycle skipped_due_to_id_count] in Hrun.
  destruct (save_processed_id_total w (ci_id c)) as [w1 Hsave].
  exists rec, evs, w1. split; [exact Hid|]. split; [exact Has|].
  split; [exact Hsave|].
  unfold loop_body. unfold bind at 1. unfold get at 1.
  rewrite Hint, Hfloor. cbn [processed_ids].
  rewrite (bool_decide_false _ Hnot).
  unfold bind at 1. unfold count_new at 1.
  cbn [st_fs st_trace processed_ids all_extracted_data
    new_circulars_processed_this_cycle skipped_due_to_id_count].
  unfold bind at 1. rewrite Hrun.
  destruct (send_slack_notification rec) as [b|e]; [|reflexivity].
  unfold bind at 1. unfold mark_processed, bind, on_fs.
  cbn [st_fs]. rewrite Hsave. reflexivity.
Qed.

(** After its body has run to the end, the identifier is in the ledger,
    and the ledger has lost nothing. *)
Lemma loop_body_grows (c : circ_info) (s s' : st) :
  loop_body c s = (Ok tt, s') ->
  processed_ids s ⊆ processed_ids s' /\ ci_id c ∈ processed_ids s'.
Proof.
  intros Hrun.
  destruct (decide (ci_id c ∈ processed_ids s)) as [Hin|Hnot].
  { rewrite (loop_body_processed c s Hin) in Hrun.
    injection Hrun as <-. split; [reflexivity | exact Hin]. }
  destruct (PyStr.int (ci_id c)) as [n|] eqn:Hint.
  - destruct (below_floor n) eqn:Hfloor.
    + destruct (loop_body_below c s n Hint Hfloor Hnot) as (w1 & _ & Hb).
      rewrite Hb in Hrun. injection Hrun as <-. cbn [processed_ids].
      split; [apply union_subseteq_r|].
      apply elem_of_union. left. apply elem_of_singleton. reflexivity.
    + destruct (loop_body_new c s n Hint Hfloor Hnot)
        as (rec & evs & w1 & _ & _ & _ & Hb).
      rewrite Hb in Hrun.
      destruct (send_slack_notification rec); [|discriminate].
      injection Hrun as <-. cbn [processed_ids].
      split; [apply union_subseteq_r|].
      apply elem_of_union. left. apply elem_of_singleton. reflexivity.
  - rewrite (loop_body_malformed c s Hint Hnot) in Hrun.
    destruct (mark_processed_run (ci_id c) s) as (w1 & _ & Hm).
    rewrite Hm in Hrun. injection Hrun as <-. cbn [processed_ids].
    split; [apply union_subseteq_r|].
    apply elem_of_union. left. apply elem_of_singleton. reflexivity.
Qed.

Lemma for_each_grows (l : list circ_info) (s s' : st) :
  for_each l s = (Ok tt, s') ->
  processed_ids s ⊆ processed_ids s'
  /\ Forall (fun c => ci_id c ∈ processed_ids s') l.
Proof.
  revert s. induction l as [|c l IH]; intros s Hrun.
  - injection Hrun as <-. split; [reflexivity | constructor].
  - cbn [for_each] in Hrun. unfold bind in Hrun.
    destruct (loop_body c s) as [[[]|e] s1] eqn:Hbody; [|discriminate].
    destruct (loop_body_grows c s s1 Hbody) as [Hsub Hin].
    destruct (IH s1 Hrun) as [Hsub' Hall].
    split; [etrans; eassumption|].
    constructor; [apply Hsub'; exact Hin | exact Hall].
Qed.

Lemma for_each_processed (l : list circ_info) (s : st) :
  Forall (fun c => ci_id c ∈ processed_ids s) l ->
  for_each l s = (Ok tt, s).
Proof.
  induction 1 as [|c l Hc Hl IH]; [reflexivity|].
  cbn [for_each]. unfold bind. rewrite (loop_body_processed c s Hc).
  exact IH.
Qed.

Lemma below_floor_spec (floor n : Z) :
  skip_before_id_val = Some floor -> below_floor n = (n <? floor)%Z.
Proof. intros Hf. unfold below_floor. rewrite Hf. reflexivity. Qed.

(** C6. With a floor configured, a bulletin whose number is below the
    floor and whose identifier is not in the ledger only enters the ledger,
    in memory and, when the ledger file can be written, on disk: no record
    is added and nothing is requested. A bulletin not in the ledger whose
    number is at or above the floor is processed: the page is requested,
    one record for it is appended (from the extraction engine, or the
    failure record when no text was retrieved), the notification is sent,
    and when the notification returns the identifier enters the ledger. *)
Theorem id_floor (c : circ_info) (s : st) (floor n : Z) :
  skip_before_id_val = Some floor ->
  PyStr.int (ci_id c) = Some n ->
  ci_id c ∉ processed_ids s ->
  ((n < floor)%Z ->
   exists w1,
     loop_body c s
     = (Ok tt,
        St w1 (st_trace s) ({[ ci_id c ]} ∪ processed_ids s)
           (all_extracted_data s)
           (new_circulars_processed_this_cycle s)
           (S (skipped_due_to_id_count s)))
     /\ save_processed_id (ci_id c) (st_fs s) = (Ok tt, w1)
     /\ (store_usable (st_fs s) PROCESSED_CIRCULARS_FILE = true ->
         files w1 !! PROCESSED_CIRCULARS_FILE
         = Some (default EmptyString
                   (files (st_fs s) !! PROCESSED_CIRCULARS_FILE)
                 +:+ ci_id c +:+ nl)))
  /\ ((floor <= n)%Z ->
      exists rec evs w1 r s',
        loop_body c s = (r, s')
        /\ rec !! "circular_id" = Some (JStr (ci_id c))
        /\ processed_as c rec
        /\ all_extracted_data s' = all_extracted_data s ++ [JObj rec]
        /\ (exists after,
              st_trace s'
              = st_trace s ++ EvFetchPage (ci_url c) :: evs
                ++ EvNotify rec :: after)
        /\ save_processed_id (ci_id c) (st_fs s) = (Ok tt, w1)
        /\ ((exists b, send_slack_notification rec = Ok b) ->
            r = Ok tt
            /\ processed_ids s' = {[ ci_id c ]} ∪ processed_ids s
            /\ st_fs s' = w1)).
Proof.
  intros Hfloor Hint Hnot. split.
  - intros Hlt.
    assert (Hb : below_floor n = true).
    { rewrite (below_floor_spec floor n Hfloor). apply Z.ltb_lt. exact Hlt. }
    destruct (loop_body_below c s n Hint Hb Hnot) as (w1 & Hsave & Hrun).
    exists w1. split; [exact Hrun|]. split; [exact Hsave|].
    intros Hu.
    destruct (save_processed_id_run (st_fs s) (ci_id c) Hu)
      as (w1' & Hsave' & Hfiles & _).
    assert (Hw : w1' = w1) by congruence. subst w1'.
    rewrite Hfiles. apply lookup_insert_eq.
  - intros Hge.
    assert (Hb : below_floor n = false).
    { rewrite (below_floor_spec floor n Hfloor). apply Z.ltb_ge. exact Hge. }
    destruct (loop_body_new c s n Hint Hb Hnot)
      as (rec & evs & w1 & Hid & Has & Hsave & Hrun).
    destruct (send_slack_notification rec) as [b|e] eqn:Hslack.
    + eexists rec, evs, w1, _, _. split; [exact Hrun|].
      cbn [all_extracted_data st_trace processed_ids st_fs].
      split; [exact Hid|]. split; [exact Has|]. split; [reflexivity|].
      split.
      { eexists. rewrite <- !app_assoc. cbn [app]. rewrite <- !app_assoc.
        reflexivity. }
      split; [exact Hsave|]. intros _. repeat split.
    + eexists rec, evs, w1, _, _. split; [exact Hrun|].
      cbn [all_extracted_data st_trace processed_ids st_fs].
      split; [exact Hid|]. split; [exact Has|]. split; [reflexivity|].
      split.
      { exists []. reflexivity. }
      split; [exact Hsave|]. intros [b Hb']. congruence.
Qed.

Lemma reset_counts_run (s : st) :
  reset_counts s
  = (Ok tt, St (st_fs s) (st_trace s) (processed_ids s)
               (all_extracted_data s) 0 0).
Proof. reflexivity. Qed.

(** C7. After a pass over a bulletin list has run to its end, a second
    pass over the same list changes nothing but the two counters, which
    are zero: no record is added, nothing is requested or sent, the disk
    is untouched; each bulletin of the list is skipped. *)
Theorem second_pass_adds_nothing (l : list circ_info) (s s1 : st) :
  run_pass l s = (Ok tt, s1) ->
  run_pass l s1
  = (Ok tt, St (st_fs s1) (st_trace s1) (processed_ids s1)
               (all_extracted_data s1) 0 0)
  /\ Forall (fun c => loop_body c s1 = (Ok tt, s1)) l.
Proof.
  intros Hrun. unfold run_pass in Hrun.
  rewrite (bind_ok _ _ _ _ _ (reset_counts_run s)) in Hrun.
  destruct (for_each_grows _ _ _ Hrun) as [_ Hall].
  apply Forall_rev in Hall. rewrite rev_involutive in Hall.
  split.
  - unfold run_pass.
    rewrite (bind_ok _ _ _ _ _ (reset_counts_run s1)).
    apply for_each_processed. cbn [processed_ids].
    apply Forall_rev. exact Hall.
  - rewrite Forall_forall in Hall |- *. intros c Hc.
    apply loop_body_processed. apply Hall. exact Hc.
Qed.
End main_properties.

(** *** Examples *)

(** A corrupt result file: [load_output_data] raises. *)
Lemma load_output_data_corrupt_raises_example :
  @load_output_data (Demo.config 3 None) Demo.lib Demo.corrupt_disk
  = (Raise (PyExn ENameError "name 'time' is not defined"),
     Demo.corrupt_disk).
Proof.
  apply (@load_output_data_corrupt_raises (Demo.config 3 None) Demo.lib
           Demo.corrupt_disk "{not json"
           "Expecting value: line 1 column 1 (char 0)");
    vm_compute; reflexivity.
Defined.

(** A service that times out once and then answers: the record is
    successful and carries an error message. *)
Lemma success_after_failure_keeps_error_example :
  exists r tr message,
    @extract_info_with_llm (Demo.config 3 None) Demo.lib
      (Demo.outside Demo.long_page Demo.no_page Demo.timeout_then_answer
         Demo.listing)
      "Swift detection of GRB 250101A" "150"
      "https://gcn.nasa.gov/circulars/150" (Some "GRB 250101A")
    = (Ok r, tr)
    /\ r !! "extraction_successful" = Some (JBool true)
    /\ r !! "llm_error_message" = Some (JStr message).
Proof.
  apply (@success_after_failure_keeps_error (Demo.config 3 None) Demo.lib
           (Demo.outside Demo.long_page Demo.no_page
              Demo.timeout_then_answer Demo.listing)
           "Swift detection of GRB 250101A" "150"
           "https://gcn.nasa.gov/circulars/150" (Some "GRB 250101A") 1%nat).
  - lia.
  - vm_compute. reflexivity.
  - vm_compute. reflexivity.
  - intros k Hk. assert (k = 0%nat) as -> by lia. vm_compute. reflexivity.
Defined.

(** The record of that run, computed. *)
Lemma success_after_timeout_record :
  let run :=
    @extract_info_with_llm (Demo.config 3 None) Demo.lib
      (Demo.outside Demo.long_page Demo.no_page Demo.timeout_then_answer
         Demo.listing)
      "Swift detection of GRB 250101A" "150"
      "https://gcn.nasa.gov/circulars/150" (Some "GRB 250101A") in
  match fst run with
  | Ok r =>
      r !! "extraction_successful" = Some (JBool true)
      /\ r !! "llm_error_message"
         = Some (JStr "API Request Timeout (attempt 1)")
  | Raise _ => False
  end
  /\ snd run = [EvPost "150" 0; EvSleep 5; EvPost "150" 1].
Proof. vm_compute. split; [split|]; reflexivity. Qed.

(** A service that always times out, with three attempts allowed. *)
Lemma extract_never_raises_example :
  exists r tr,
    @extract_info_with_llm (Demo.config 3 None) Demo.lib
      (Demo.outside Demo.long_page Demo.no_page Demo.always_timeout
         Demo.listing)
      "Swift detection of GRB 250101A" "150"
      "https://gcn.nasa.gov/circulars/150" (Some "GRB 250101A")
    = (Ok r, tr)
    /\ r !! "extraction_successful" = Some (JBool false)
    /\ (exists message, r !! "llm_error_message" = Some (JStr message))
    /\ tr = [EvPost "150" 0; EvSleep 5; EvPost "150" 1; EvSleep 10;
             EvPost "150" 2].
Proof.
  destruct (@extract_never_raises (Demo.config 3 None) Demo.lib
              (Demo.outside Demo.long_page Demo.no_page Demo.always_timeout
                 Demo.listing)
              "Swift detection of GRB 250101A" "150"
              "https://gcn.nasa.gov/circulars/150" (Some "GRB 250101A"))
    as (r & tr & Hrun & Hfail & _).
  exists r, tr. split; [exact Hrun|].
  apply Hfail.
  - reflexivity.
  - intros k _. reflexivity.
Defined.



(** An answer that spells a boolean as the string TRUE. *)
Lemma extract_booleans_example :
  exists r tr,
    @extract_info_with_llm (Demo.config 3 None) Demo.lib
      (Demo.outside Demo.long_page Demo.no_page Demo.answers_in_strings
         Demo.listing)
      "Swift detection of GRB 250101A" "150"
      "https://gcn.nasa.gov/circulars/150" (Some "GRB 250101A")
    = (Ok r, tr)
    /\ r !! "is_upper_limit" = Some (JBool true)
    /\ r !! "is_trigger_event" = Some (JBool false).
Proof.
  destruct (@extract_booleans (Demo.config 3 None) Demo.lib
              (Demo.outside Demo.long_page Demo.no_page
                 Demo.answers_in_strings Demo.listing)
              "Swift detection of GRB 250101A" "150"
              "https://gcn.nasa.gov/circulars/150" (Some "GRB 250101A"))
    as (r & tr & Hrun & _ & Hread & _).
  exists r, tr. split; [exact Hrun|].
  specialize (Hread 0%nat
                (JObj (<["is_upper_limit" := JStr "TRUE"]>
                         (<["circular_id" := JStr "0"]> ∅)))
                eq_refl eq_refl).
  rewrite Forall_forall in Hread. split.
  - rewrite (Hread "is_upper_limit" ltac:(in_list)). reflexivity.
  - rewrite (Hread "is_trigger_event" ltac:(in_list)). reflexivity.
Defined.

(** An answer that names the protected key circular_id. *)
Lemma extract_keeps_identity_example :
  exists r tr,
    @extract_info_with_llm (Demo.config 3 None) Demo.lib
      (Demo.outside Demo.long_page Demo.no_page Demo.answers_in_strings
         Demo.listing)
      "Swift detection of GRB 250101A" "150"
      "https://gcn.nasa.gov/circulars/150" (Some "GRB 250101A")
    = (Ok r, tr)
    /\ r !! "circular_id" = Some (JStr "150")
    /\ r !! "llm_error_message" = Some JNull.
Proof.
  destruct (@extract_keeps_identity (Demo.config 3 None) Demo.lib
              (Demo.outside Demo.long_page Demo.no_page
                 Demo.answers_in_strings Demo.listing)
              "Swift detection of GRB 250101A" "150"
              "https://gcn.nasa.gov/circulars/150" (Some "GRB 250101A"))
    as ((r & tr & Hrun & Hid & _ & _ & _ & Herr) & _).
  exists r, tr. split; [exact Hrun|]. split; [exact Hid|].
  apply Herr. reflexivity.
Defined.

(** The floor at 100: bulletin 42 only enters the ledger, bulletin 150 is
    processed. *)
Lemma id_floor_example :
  let cfg := Demo.config 3 (Some "100") in
  let out := Demo.outside Demo.long_page Demo.no_page Demo.always_timeout
               Demo.listing in
  let s := Demo.start Demo.empty_disk in
  (exists w1,
     @loop_body cfg Demo.lib out Demo.bulletin_42 s
     = (Ok tt, St w1 [] ({[ "42" ]} ∪ ∅) [] 0 1)
     /\ files w1 !! "data/processed_circulars.txt" = Some ("42" +:+ nl))
  /\ (exists rec evs w1 r s',
        @loop_body cfg Demo.lib out Demo.bulletin_150 s = (r, s')
        /\ rec !! "circular_id" = Some (JStr "150")
        /\ all_extracted_data s' = [JObj rec]
        /\ (exists after,
              st_trace s'
              = EvFetchPage "https://gcn.nasa.gov/circulars/150" :: evs
                ++ EvNotify rec :: after)
        /\ r = Ok tt
        /\ processed_ids s' = {[ "150" ]} ∪ ∅
        /\ st_fs s' = w1).
Proof.
  intros cfg out s. split.
  - destruct (@id_floor cfg Demo.lib out Demo.bulletin_42 s 100 42
                eq_refl eq_refl (not_elem_of_empty _)) as [Hbelow _].
    destruct (Hbelow ltac:(lia)) as (w1 & Hrun & _ & Hdisk).
    exists w1. split; [exact Hrun|]. apply Hdisk. reflexivity.
  - destruct (@id_floor cfg Demo.lib out Demo.bulletin_150 s 100 150
                eq_refl eq_refl (not_elem_of_empty _)) as [_ Habove].
    destruct (Habove ltac:(lia))
      as (rec & evs & w1 & r & s' & Hrun & Hid & _ & Hdata & Htrace & _
          & Hdone).
    exists rec, evs, w1, r, s'.
    split; [exact Hrun|]. split; [exact Hid|]. split; [exact Hdata|].
    split; [exact Htrace|]. apply Hdone. exists false. reflexivity.
Defined.

(** Two passes over the bulletin list of the examples. *)
Lemma second_pass_adds_nothing_example :
  let cfg := Demo.config 3 (Some "100") in
  let out := Demo.outside Demo.long_page Demo.no_page Demo.always_timeout
               Demo.listing in
  let s1 := snd (@run_pass cfg Demo.lib out Demo.listing
                   (Demo.start Demo.empty_disk)) in
  length (all_extracted_data s1) = 1%nat
  /\ @run_pass cfg Demo.lib out Demo.listing s1
     = (Ok tt, St (st_fs s1) (st_trace s1) (processed_ids s1)
                  (all_extracted_data s1) 0 0).
Proof.
  intros cfg out s1. split; [vm_compute; reflexivity|].
  apply (@second_pass_adds_nothing cfg Demo.lib out Demo.listing
           (Demo.start Demo.empty_disk) s1).
  vm_compute. reflexivity.
Defined.


(* ================================================================== *)
(** ** Further properties of the sources *)
(* ================================================================== *)

(** *** Strings *)

Lemma string_app_assoc (a b c : string) : (a +:+ b) +:+ c = a +:+ (b +:+ c).
Proof.
  induction a as [|x a IH]; [reflexivity|].
  change (String x a +:+ b) with (String x (a +:+ b)).
  change (String x (a +:+ b) +:+ c) with (String x ((a +:+ b) +:+ c)).
  rewrite IH. reflexivity.
Qed.

Lemma string_app_nil_r (a : string) : a +:+ EmptyString = a.
Proof.
  induction a as [|x a IH]; [reflexivity|].
  change (String x a +:+ EmptyString) with (String x (a +:+ EmptyString)).
  rewrite IH. reflexivity.
Qed.

Lemma rev_app_rev_app (s a b : string) :
  String.rev_app (String.rev_app s a) b = String.rev_app a (s +:+ b).
Proof.
  revert a b. induction s as [|c s IH]; intros a b; [reflexivity|].
  cbn [String.rev_app]. rewrite IH. reflexivity.
Qed.

Lemma string_rev_involutive (s : string) : String.rev (String.rev s) = s.
Proof.
  unfold String.rev. rewrite rev_app_rev_app. cbn [String.rev_app].
  apply string_app_nil_r.
Qed.

(** A line feed ends the current line. *)
Lemma lines_go_app_nl (cur s1 s2 : string) :
  PyStr.lines_go cur (s1 +:+ nl +:+ s2)
  = PyStr.lines_go cur s1 ++ PyStr.lines_go EmptyString s2.
Proof.
  revert cur. induction s1 as [|c s1 IH]; intros cur.
  - reflexivity.
  - change (String c s1 +:+ nl +:+ s2) with (String c (s1 +:+ nl +:+ s2)).
    cbn [PyStr.lines_go].
    destruct (Ascii.eqb c "010" || Ascii.eqb c "013").
    + rewrite IH. reflexivity.
    + apply IH.
Qed.

Lemma lines_go_no_break (cur s : string) :
  PyText.has_line_break s = false ->
  PyStr.lines_go cur s = [String.rev (String.rev_app s cur)].
Proof.
  revert cur. induction s as [|c s IH]; intros cur Hs; [reflexivity|].
  cbn [PyText.has_line_break] in Hs. apply orb_false_iff in Hs as [Hc Hs].
  cbn [PyStr.lines_go String.rev_app]. rewrite Hc. apply IH. exact Hs.
Qed.

Lemma lines_no_break (s : string) :
  PyText.has_line_break s = false -> PyStr.lines s = [s].
Proof.
  intros Hs. unfold PyStr.lines. rewrite (lines_go_no_break _ _ Hs).
  f_equal. apply string_rev_involutive.
Qed.


Lemma ids_of_lines_app (a b : list string) :
  ids_of_lines (a ++ b) = ids_of_lines a ∪ ids_of_lines b.
Proof.
  unfold ids_of_lines. rewrite fmap_app, filter_app.
  apply list_to_set_app_L.
Qed.

Lemma ids_of_lines_one (s : string) :
  ids_of_lines [s]
  = if PyStr.truthy (PyStr.strip s) then {[ PyStr.strip s ]} else ∅.
Proof.
  unfold ids_of_lines. cbn [fmap list_fmap].
  rewrite filter_cons, filter_nil.
  destruct (PyStr.truthy (PyStr.strip s)) eqn:E.
  - rewrite decide_True by exact I.
    cbn [list_to_set]. apply (right_id_L ∅ (∪)).
  - rewrite decide_False by exact id.
    reflexivity.
Qed.

(** The identifiers of a text to which one more line is added. *)
Lemma ledger_ids_append (content i : string) :
  lines_ended content -> PyText.has_line_break i = false ->
  ledger_ids (content +:+ i +:+ nl)
  = ledger_ids content
    ∪ (if PyStr.truthy (PyStr.strip i) then {[ PyStr.strip i ]} else ∅).
Proof.
  intros Hended Hi.
  assert (Hone : PyStr.lines_go EmptyString (i +:+ nl)
                 = [i] ++ [EmptyString]).
  { rewrite <- (string_app_nil_r (i +:+ nl)), string_app_assoc.
    rewrite lines_go_app_nl. fold (PyStr.lines i).
    rewrite (lines_no_break _ Hi). reflexivity. }
  change (ledger_ids ?c) with (ids_of_lines (PyStr.lines c)).
  destruct Hended as [->|[c ->]].
  - change (EmptyString +:+ i +:+ nl) with (i +:+ nl).
    unfold PyStr.lines. rewrite Hone, ids_of_lines_app, ids_of_lines_one.
    change (ids_of_lines (PyStr.lines_go EmptyString EmptyString)) with
      (ids_of_lines [EmptyString]).
    set (x := if PyStr.truthy (PyStr.strip i) then _ else _).
    assert (He : ids_of_lines [EmptyString] = ∅) by reflexivity.
    rewrite He. rewrite (left_id_L ∅ (∪)), (right_id_L ∅ (∪)). reflexivity.
  - rewrite string_app_assoc. unfold PyStr.lines.
    rewrite lines_go_app_nl, Hone.
    rewrite <- (string_app_nil_r (c +:+ nl)), string_app_assoc.
    rewrite lines_go_app_nl.
    rewrite !ids_of_lines_app, ids_of_lines_one.
    change (ids_of_lines (PyStr.lines_go EmptyString EmptyString)) with
      (ids_of_lines [EmptyString]).
    assert (He : ids_of_lines [EmptyString] = ∅) by reflexivity.
    rewrite He. rewrite !(right_id_L ∅ (∪)). reflexivity.
Qed.

(** *** data_manager.py: the ledger file and the result file *)

Section data_manager_more.
Context `{Config, PyLib}.

Lemma ledger_ids_empty : ledger_ids EmptyString = ∅.
Proof. reflexivity. Qed.

(** [load_processed_ids] on any disk: it returns the identifiers of the
    ledger file, none when there is no such file, and leaves the disk. *)
Lemma load_processed_ids_run (w : fs) :
  load_processed_ids w
  = (Ok (ledger_ids (text_at w PROCESSED_CIRCULARS_FILE)), w).
Proof.
  unfold load_processed_ids, Os.exists_, text_at.
  destruct (files w !! PROCESSED_CIRCULARS_FILE) as [content|] eqn:Hfile.
  - rewrite bool_decide_true by eauto. cbn [orb negb].
    apply try_except_ok. unfold bind, Os.read_text. rewrite Hfile.
    reflexivity.
  - rewrite (bool_decide_false (is_Some None))
      by (intros [? ?]; discriminate).
    cbn [orb default]. rewrite ledger_ids_empty.
    destruct (bool_decide (PROCESSED_CIRCULARS_FILE ∈ dirs w));
      cbn [negb]; [|reflexivity].
    erewrite try_except_raise.
    2: { unfold bind, Os.read_text. rewrite Hfile. reflexivity. }
    reflexivity.
Qed.

Lemma save_processed_id_text (w : fs) (i : string) :
  store_usable w PROCESSED_CIRCULARS_FILE = true ->
  exists w1,
    save_processed_id i w = (Ok tt, w1)
    /\ text_at w1 PROCESSED_CIRCULARS_FILE
       = text_at w PROCESSED_CIRCULARS_FILE +:+ i +:+ nl
    /\ (forall p, p <> PROCESSED_CIRCULARS_FILE ->
        files w1 !! p = files w !! p)
    /\ store_usable w1 PROCESSED_CIRCULARS_FILE = true.
Proof.
  intros Hu.
  destruct (save_processed_id_run w i Hu) as (w1 & Hsave & Hfiles & Hu1).
  exists w1. split; [exact Hsave|]. split.
  { unfold text_at. rewrite Hfiles, lookup_insert_eq. reflexivity. }
  split; [|exact Hu1].
  intros p Hp. rewrite Hfiles. apply lookup_insert_ne. congruence.
Qed.

Lemma lines_ended_append (content i : string) :
  lines_ended (content +:+ i +:+ nl).
Proof.
  right. exists (content +:+ i). symmetry. apply string_app_assoc.
Qed.

(** X1. On a usable ledger file whose lines are ended, [save_processed_id]
    followed by [load_processed_ids] gives the identifiers loaded before
    and the one appended, stripped of surrounding blanks when it is not
    blank: nothing is lost and an identifier without line break is read
    back. *)
Theorem ledger_append_then_load (w : fs) (i : string) :
  store_usable w PROCESSED_CIRCULARS_FILE = true ->
  lines_ended (text_at w PROCESSED_CIRCULARS_FILE) ->
  PyText.has_line_break i = false ->
  exists w1 before,
    load_processed_ids w = (Ok before, w)
    /\ save_processed_id i w = (Ok tt, w1)
    /\ load_processed_ids w1
       = (Ok (before ∪ (if PyStr.truthy (PyStr.strip i)
                        then {[ PyStr.strip i ]} else ∅)), w1).
Proof.
  intros Hu Hended Hi.
  destruct (save_processed_id_text w i Hu) as (w1 & Hsave & Htext & _ & _).
  exists w1, (ledger_ids (text_at w PROCESSED_CIRCULARS_FILE)).
  split; [apply load_processed_ids_run|]. split; [exact Hsave|].
  rewrite load_processed_ids_run, Htext.
  rewrite (ledger_ids_append _ _ Hended Hi). reflexivity.
Qed.

(** X2. When the last line of the ledger file is not ended, the identifier
    that [save_processed_id] appends is glued to it: [load_processed_ids]
    then reads the earlier lines and one identifier made of the last line
    followed by the new identifier. *)
Theorem ledger_unended_line_glued (w : fs) (c last i : string) :
  store_usable w PROCESSED_CIRCULARS_FILE = true ->
  files w !! PROCESSED_CIRCULARS_FILE = Some (c +:+ last) ->
  lines_ended c ->
  PyText.has_line_break last = false ->
  PyText.has_line_break i = false ->
  exists w1,
    save_processed_id i w = (Ok tt, w1)
    /\ load_processed_ids w1
       = (Ok (ledger_ids c
              ∪ (if PyStr.truthy (PyStr.strip (last +:+ i))
                 then {[ PyStr.strip (last +:+ i) ]} else ∅)), w1).
Proof.
  intros Hu Hfile Hended Hlast Hi.
  destruct (save_processed_id_text w i Hu) as (w1 & Hsave & Htext & _ & _).
  exists w1. split; [exact Hsave|].
  rewrite load_processed_ids_run, Htext. unfold text_at at 1.
  rewrite Hfile.
  change (default EmptyString (Some (c +:+ last))) with (c +:+ last).
  rewrite string_app_assoc.
  rewrite <- (string_app_assoc last i nl).
  rewrite (ledger_ids_append c (last +:+ i) Hended); [reflexivity|].
  clear -Hlast Hi. induction last as [|x last IH]; [exact Hi|].
  change (String x last +:+ i) with (String x (last +:+ i)).
  cbn [PyText.has_line_break] in *. apply orb_false_iff in Hlast as [Hx Hlast].
  rewrite Hx, (IH Hlast). reflexivity.
Qed.

(** X3. When the records cannot be written as a text, [save_output_data]
    does not raise, the result file is as it was, and no temporary file
    stays, even one that was there before. *)
Theorem save_output_data_failure (w : fs) (data : json) (e : pyexn) :
  store_usable w OUTPUT_JSON_FILE = true ->
  store_usable w (OUTPUT_JSON_FILE +:+ ".tmp") = true ->
  json_dumps data = Raise e ->
  exists w1,
    save_output_data data w = (Ok tt, w1)
    /\ files w1 = delete (OUTPUT_JSON_FILE +:+ ".tmp") (files w)
    /\ files w1 !! OUTPUT_JSON_FILE = files w !! OUTPUT_JSON_FILE
    /\ files w1 !! (OUTPUT_JSON_FILE +:+ ".tmp") = None.
Proof.
  intros Hu Hut Hdump.
  destruct (store_usable_inv _ _ Hu) as (Ht & Hd & Hf & Hne).
  destruct (store_usable_inv _ _ Hut) as (Htt & Hdt & Hft & Hnet).
  rewrite (dirname_app _ _ tmp_no_slash) in Hft, Hnet.
  destruct (ensure_dir w OUTPUT_JSON_FILE Hu)
    as (w1 & Hmk & Hfiles & Hdir & Hfresh & Hsame).
  set (temp := OUTPUT_JSON_FILE +:+ ".tmp") in *.
  assert (Hdt1 : temp ∉ dirs w1)
    by (apply Hfresh; [congruence | exact Hdt]).
  assert (Hcwt : forall fl, Os.can_write (Fs fl (dirs w1)) temp = true).
  { intros fl. unfold Os.can_write. rewrite Htt. cbn [dirs andb].
    rewrite (bool_decide_false _ Hdt1). cbn [negb andb].
    unfold temp. rewrite (dirname_app _ _ tmp_no_slash).
    destruct w1 as [f1 d1]. exact Hdir. }
  assert (Htne : temp <> OUTPUT_JSON_FILE)
    by (apply string_app_ne; reflexivity).
  destruct w1 as [f1 d1]. cbn [files dirs] in *.
  exists (Fs (delete temp (files w)) d1).
  split.
  { unfold save_output_data.
    erewrite bind_ok.
    2: { apply try_except_ok. unfold save_output_data_mkdir.
         unfold bind, get. exact Hmk. }
    fold temp.
    erewrite try_except_raise.
    2: { unfold save_output_data_write.
         unfold bind at 1. unfold Os.open_w at 1.
         rewrite (Hcwt f1).
         unfold bind at 1. unfold lift_res at 1. rewrite Hdump.
         reflexivity. }
    cbn [dispatch is_Exception].
    unfold bind at 1. unfold get at 1.
    unfold Os.exists_. cbn [files dirs].
    rewrite lookup_insert_eq. rewrite bool_decide_true by eauto.
    cbn [orb when].
    apply try_except_ok. unfold Os.remove. cbn [files dirs].
    rewrite lookup_insert_eq. rewrite delete_insert_eq.
    rewrite Hfiles. reflexivity. }
  cbn [files]. split; [reflexivity|]. split.
  - apply lookup_delete_ne. exact Htne.
  - apply lookup_delete_eq.
Qed.

(** [load_output_data] leaves the disk as it is, whatever it returns or
    raises. *)
Lemma load_output_data_disk (w w' : fs) (r : res json) :
  load_output_data w = (r, w') -> w' = w.
Proof.
  unfold load_output_data, Os.exists_.
  destruct (files w !! OUTPUT_JSON_FILE) as [content|] eqn:Hfile.
  - rewrite bool_decide_true by eauto. cbn [orb].
    unfold try_except, bind, Os.read_text. rewrite Hfile.
    destruct (PyStr.truthy (PyStr.strip content)); cbn [negb].
    + destruct (json_loads content) as [msg|v].
      * cbn -[load_output_data_decode_error].
        change (load_output_data_decode_error w) with
          (Raise (A:=json)
             (PyExn ENameError "name 'time' is not defined"), w).
        congruence.
      * cbn. unfold ret. congruence.
    + cbn. unfold ret. congruence.
  - rewrite (bool_decide_false (is_Some None))
      by (intros [? ?]; discriminate).
    cbn [orb].
    destruct (bool_decide (OUTPUT_JSON_FILE ∈ dirs w)); cbn [orb];
      [|congruence].
    unfold try_except, bind, Os.read_text. rewrite Hfile. cbn.
    unfold ret. congruence.
Qed.

(** X4. [load_output_data] never changes the disk, whatever it returns or
    raises; and it returns the empty list when there is no result file or
    when the file holds only blanks. *)
Theorem load_output_data_read_only (w : fs) :
  (forall r w', load_output_data w = (r, w') -> w' = w)
  /\ (match files w !! OUTPUT_JSON_FILE with
      | Some content => PyStr.truthy (PyStr.strip content) = false
      | None => True
      end ->
      load_output_data w = (Ok (JArr []), w)).
Proof.
  split; [intros r w'; apply load_output_data_disk|].
  unfold load_output_data, Os.exists_.
  destruct (files w !! OUTPUT_JSON_FILE) as [content|] eqn:Hfile.
  - intros Hblank. rewrite bool_decide_true by eauto. cbn [orb].
    apply try_except_ok. unfold bind, Os.read_text.
    rewrite Hfile, Hblank. reflexivity.
  - intros _. rewrite (bool_decide_false (is_Some None))
      by (intros [? ?]; discriminate).
    cbn [orb].
    destruct (bool_decide (OUTPUT_JSON_FILE ∈ dirs w)); cbn [orb];
      [|reflexivity].
    erewrite try_except_raise.
    2: { unfold bind, Os.read_text. rewrite Hfile. reflexivity. }
    reflexivity.
Qed.

End data_manager_more.

(** *** gcn_utils.py: the text returned *)

Section gcn_utils_more.
Context `{Config, PyLib, Outside}.

Lemma final_choice_sound (kept fallback : option string) (t : string) :
  final_choice kept fallback = Some t ->
  PyStr.truthy t = true /\ (fallback = Some t \/ kept = Some t).
Proof.
  unfold final_choice, needs_fallback.
  destruct kept as [k|], fallback as [g|];
    cbn [text_truthy len_or_empty negb orb andb].
  all: try destruct (PyStr.truthy k) eqn:Ek.
  all: try destruct (PyStr.truthy g) eqn:Eg.
  all: cbn [negb orb andb].
  all: repeat match goal with
       | |- context [(?a <? ?b)%nat] => destruct (a <? b)%nat
       end; cbn [negb orb andb].
  all: intros E; try discriminate; injection E as <-; auto.
Qed.

Lemma discard_placeholder_Some (page : option string) (t : string) :
  discard_placeholder page = Some t ->
  page = Some t
  /\ ((String.length t <= 50)%nat \/ is_placeholder t = false).
Proof.
  destruct page as [p|]; [|discriminate]. cbn [discard_placeholder].
  destruct (PyStr.truthy p) eqn:Ep; cbn [andb].
  - destruct (50 <? String.length p)%nat eqn:Hlen.
    + destruct (is_placeholder p) eqn:Hp; [discriminate|].
      intros E; injection E as <-. auto.
    + apply Nat.ltb_ge in Hlen. intros E; injection E as <-. auto.
  - apply truthy_false_length in Ep. intros E; injection E as <-.
    split; [reflexivity|]. left. lia.
Qed.

(** X5. The text that [get_circular_text_robust] returns is never empty;
    it is the text of the raw file, or the text of the page, which then
    has at most 50 characters or is no placeholder. The page is requested
    first and the raw file at most once after it; when the raw file is not
    requested, the result is the text of the page and has at least 50
    characters. *)
Theorem text_robust_result_sound (circular_id circular_page_url : string) :
  let page := get_circular_raw_text_from_page circular_page_url in
  let fallback :=
    get_circular_raw_text_from_gcn3_file (gcn3_file_url circular_id) in
  let result := fst (get_circular_text_robust circular_id circular_page_url) in
  let requests :=
    snd (get_circular_text_robust circular_id circular_page_url) in
  (forall t, result = Some t ->
     PyStr.truthy t = true
     /\ (fallback = Some t
         \/ (page = Some t
             /\ ((String.length t <= 50)%nat \/ is_placeholder t = false))))
  /\ (requests = [EvFetchPage circular_page_url]
      \/ requests = [EvFetchPage circular_page_url;
                     EvFetchGcn3 (gcn3_file_url circular_id)])
  /\ (requests = [EvFetchPage circular_page_url] ->
      exists t, page = Some t /\ result = Some t
                /\ (50 <= String.length t)%nat).
Proof.
  intros page fallback result requests.
  assert (Hresult : result
                    = final_choice (discard_placeholder page) fallback)
    by apply robust_result.
  assert (Hreq : requests
                 = EvFetchPage circular_page_url ::
                   if needs_fallback (discard_placeholder page)
                   then [EvFetchGcn3 (gcn3_file_url circular_id)] else [])
    by apply robust_requests.
  split; [|split].
  - intros t Ht. rewrite Hresult in Ht.
    destruct (final_choice_sound _ _ _ Ht) as [Htrue [Hf|Hk]].
    + split; [exact Htrue|]. left. exact Hf.
    + split; [exact Htrue|]. right.
      apply discard_placeholder_Some. exact Hk.
  - rewrite Hreq. destruct (needs_fallback _); auto.
  - rewrite Hreq, Hresult. unfold final_choice.
    destruct (needs_fallback (discard_placeholder page)) eqn:Hn;
      [discriminate|].
    intros _. unfold needs_fallback in Hn.
    apply orb_false_iff in Hn as [Ht Hlen].
    apply negb_false_iff in Ht. apply Nat.ltb_ge in Hlen.
    destruct (discard_placeholder page) as [t|] eqn:Hd; [|discriminate].
    exists t. split; [|split; [reflexivity | exact Hlen]].
    apply (discard_placeholder_Some _ _ Hd).
Qed.

End gcn_utils_more.

(** *** llm_utils.py: the keys of the record *)

Section llm_utils_more.
Context `{Config, PyLib, Outside}.

Lemma default_step_other (data : gmap string json)
    (item : string * type_spec) (k : string) :
  k <> fst item -> default_step data item !! k = data !! k.
Proof.
  intros Hne. destruct item as [prop details]. cbn [default_step fst] in *.
  destruct (data !! prop); [reflexivity|].
  destruct (_ && _); [reflexivity|].
  apply lookup_insert_ne. congruence.
Qed.

Lemma default_steps_other (items : list (string * type_spec))
    (data : gmap string json) (k : string) :
  k ∉ (fst <$> items) ->
  fold_left default_step items data !! k = data !! k.
Proof.
  revert data. induction items as [|item items IH]; intros data Hk;
    [reflexivity|].
  cbn [fold_left]. rewrite IH.
  - apply default_step_other. intros ->. apply Hk.
    cbn [fmap list_fmap]. apply elem_of_cons. left. reflexivity.
  - intros Hin. apply Hk. cbn [fmap list_fmap]. apply elem_of_cons.
    right. exact Hin.
Qed.

(** The default record has no key outside the schema. *)
Lemma default_no_foreign_key (circular_id circular_url subject raw_text : json)
    (k : string) :
  k ∉ schema_keys ->
  get_default_extracted_data circular_id circular_url subject raw_text !! k
  = None.
Proof.
  intros Hk. unfold get_default_extracted_data.
  rewrite default_steps_other by exact Hk.
  rewrite !lookup_insert_ne; [apply lookup_empty|..];
    intros <-; apply Hk; in_list.
Qed.

Lemma boolean_keys_in_schema (k : string) :
  k ∈ boolean_keys -> k ∈ schema_keys.
Proof.
  unfold boolean_keys. rewrite !elem_of_cons, elem_of_nil.
  intros [->|[->|[->|[]]]]; in_list.
Qed.

Lemma success_record_foreign (parsed : json) (d0 : gmap string json)
    (k : string) :
  k ∉ schema_keys ->
  (<["extraction_successful" := JBool true]>
     (coerce_bools (merged parsed d0))) !! k = d0 !! k.
Proof.
  intros Hk.
  rewrite lookup_insert_ne by (intros <-; apply Hk; in_list).
  rewrite coerce_bools_other
    by (intros Hb; apply Hk, boolean_keys_in_schema, Hb).
  destruct parsed; try reflexivity. cbn [merged].
  rewrite merge_dict_lookup.
  rewrite (bool_decide_false (k ∈ schema_keys)) by exact Hk.
  cbn [andb]. destruct (m !! k); reflexivity.
Qed.

(** X6. The record that [extract_info_with_llm] returns has exactly the
    keys of the schema: a key of the answer that the schema does not name
    never enters the record. *)
Theorem extract_record_keys
    (circular_text circular_id circular_url : string)
    (subject : option string) :
  exists r tr,
    extract_info_with_llm circular_text circular_id circular_url subject
    = (Ok r, tr)
    /\ forall k, is_Some (r !! k) <-> k ∈ schema_keys.
Proof.
  destruct (extract_info_with_llm_cases circular_text circular_id
              circular_url subject) as (r & tr & Hrun & d0 & Hwe & Hr).
  exists r, tr. split; [exact Hrun|].
  set (d := get_default_extracted_data _ _ _ _) in Hwe.
  assert (Hd : forall k, is_Some (d !! k) <-> k ∈ schema_keys).
  { intros k. split.
    - intros Hsome. destruct (decide (k ∈ schema_keys)) as [Hin|Hout];
        [exact Hin|].
      unfold d in Hsome. rewrite default_no_foreign_key in Hsome
        by exact Hout.
      destruct Hsome as [? ?]. discriminate.
    - intros Hin.
      pose proof (default_lookup (JStr circular_id) (JStr circular_url)
                    (json_of_text subject) (JStr circular_text)) as Hl.
      cbv zeta in Hl. destruct Hl as (_ & _ & _ & _ & _ & _ & _ & _ & Hall).
      rewrite Forall_forall in Hall. apply Hall. exact Hin. }
  assert (Hd0 : forall k, is_Some (d0 !! k) <-> k ∈ schema_keys).
  { intros k. rewrite <- Hd. destruct Hwe as [->|[m ->]]; [reflexivity|].
    destruct (decide (k = "llm_error_message")) as [->|Hne].
    - rewrite lookup_insert_eq. split; intros _; [|eauto].
      apply Hd. in_list.
    - rewrite lookup_insert_ne by congruence. reflexivity. }
  intros k. destruct Hr as [->|[parsed ->]]; [apply Hd0|].
  destruct (decide (k ∈ schema_keys)) as [Hin|Hout].
  - split; [intros _; exact Hin|]. intros _.
    apply insert_keeps_is_Some, coerce_bools_is_Some, merged_is_Some.
    apply Hd0. exact Hin.
  - rewrite success_record_foreign by exact Hout. apply Hd0.
Qed.

(** The fields that the prompt asks for, in a successful record. *)
Lemma success_record_prompt_fields (parsed : json) (d d0 : gmap string json) :
  with_errors d d0 ->
  Forall (fun k => d !! k = Some (JBool false)) boolean_keys ->
  Forall (fun k => d !! k = Some JNull)
    [ "event_time_utc"; "time_since_trigger"; "ra"; "dec"; "magnitude";
      "magnitude_error"; "wavelength_band"; "telescope"; "observatory" ] ->
  Forall (fun k =>
            (<["extraction_successful" := JBool true]>
               (coerce_bools (merged parsed d0))) !! k
            = Some (if bool_decide (k ∈ boolean_keys)
                    then JBool (as_bool (answer_field parsed k))
                    else default JNull (answer_field parsed k)))
         ordered_keys_for_prompt.
Proof.
  intros Hwe Hbools Hnulls.
  rewrite Forall_forall in Hbools, Hnulls.
  assert (Hbool : forall k, k ∈ boolean_keys ->
            (<["extraction_successful" := JBool true]>
               (coerce_bools (merged parsed d0))) !! k
            = Some (if bool_decide (k ∈ boolean_keys)
                    then JBool (as_bool (answer_field parsed k))
                    else default JNull (answer_field parsed k))).
  { intros k Hk. rewrite (bool_decide_true _ Hk).
    apply success_record_bool; [exact Hk|].
    rewrite (with_errors_lookup d d0 k Hwe).
    - apply Hbools. exact Hk.
    - intros ->. revert Hk. apply (bool_decide_unpack _). vm_compute.
      exact I. }
  assert (Hother : forall k,
            k ∈ [ "event_time_utc"; "time_since_trigger"; "ra"; "dec";
                  "magnitude"; "magnitude_error"; "wavelength_band";
                  "telescope"; "observatory" ] ->
            k ∈ schema_keys -> k ∉ protected_keys -> k ∉ boolean_keys ->
            k <> "extraction_successful" -> k <> "llm_error_message" ->
            (<["extraction_successful" := JBool true]>
               (coerce_bools (merged parsed d0))) !! k
            = Some (if bool_decide (k ∈ boolean_keys)
                    then JBool (as_bool (answer_field parsed k))
                    else default JNull (answer_field parsed k))).
  { intros k Hk Hs Hnp Hnb Hne1 Hne2. rewrite (bool_decide_false _ Hnb).
    rewrite lookup_insert_ne by congruence.
    rewrite coerce_bools_other by exact Hnb.
    rewrite merged_field by assumption.
    destruct (answer_field parsed k) as [v|]; [reflexivity|].
    rewrite (with_errors_lookup d d0 k Hwe Hne2).
    apply Hnulls. exact Hk. }
  unfold ordered_keys_for_prompt.
  repeat (constructor;
          [first [ apply Hbool; in_list
                 | apply Hother;
                   [in_list | in_list | in_list | in_list
                   | discriminate | discriminate] ] |]).
  constructor.
Qed.

(** X7. After a successful attempt, each key that the prompt asks for
    holds, for a boolean key, the answer's value read as a boolean, and for
    any other key the answer's value as it is, whatever its type, or null
    when the answer does not have the key. *)
Theorem extract_prompt_fields
    (circular_text circular_id circular_url : string)
    (subject : option string) (j : nat) (parsed : json) :
  first_success circular_text circular_id = Some j ->
  parsed_answer circular_id (llm_service circular_text circular_id j)
  = Some parsed ->
  exists r tr,
    extract_info_with_llm circular_text circular_id circular_url subject
    = (Ok r, tr)
    /\ Forall (fun k =>
                 r !! k
                 = Some (if bool_decide (k ∈ boolean_keys)
                         then JBool (as_bool (answer_field parsed k))
                         else default JNull (answer_field parsed k)))
              ordered_keys_for_prompt.
Proof.
  intros Hfirst Hparsed.
  pose proof (extract_info_with_llm_shape circular_text circular_id
                circular_url subject) as Hshape.
  cbv zeta in Hshape. destruct Hshape as (r & tr & Hrun & Hcase).
  exists r, tr. split; [exact Hrun|].
  rewrite Hfirst in Hcase.
  destruct Hcase as (parsed' & d0 & Hp' & Hwe & _ & _ & -> & _).
  assert (parsed' = parsed) as -> by congruence.
  pose proof (default_lookup (JStr circular_id) (JStr circular_url)
                (json_of_text subject) (JStr circular_text)) as Hl.
  cbv zeta in Hl.
  destruct Hl as (_ & _ & _ & _ & _ & _ & Hbools & Hnulls & _).
  exact (success_record_prompt_fields parsed _ d0 Hwe Hbools Hnulls).
Qed.

End llm_utils_more.

(** *** Strings: prefixes, suffixes, slices *)

Lemma prefix_app (p x : string) : String.prefix p (p +:+ x) = true.
Proof.
  induction p as [|c p IH]; [destruct x; reflexivity|].
  change (String c p +:+ x) with (String c (p +:+ x)).
  cbn [String.prefix]. destruct (ascii_dec c c); [exact IH | congruence].
Qed.

Lemma substring_all (s : string) : String.substring 0 (String.length s) s = s.
Proof.
  induction s as [|c s IH]; [reflexivity|].
  cbn [String.length String.substring]. rewrite IH. reflexivity.
Qed.

Lemma substring_app_l (a b : string) :
  String.substring 0 (String.length a) (a +:+ b) = a.
Proof.
  induction a as [|c a IH]; [destruct b; reflexivity|].
  change (String c a +:+ b) with (String c (a +:+ b)).
  cbn [String.length String.substring]. rewrite IH. reflexivity.
Qed.

Lemma substring_app_r (a b : string) (n : nat) :
  String.substring (String.length a) n (a +:+ b) = String.substring 0 n b.
Proof.
  induction a as [|c a IH]; [reflexivity|].
  change (String c a +:+ b) with (String c (a +:+ b)).
  cbn [String.length String.substring]. exact IH.
Qed.

Lemma rev_app_app (a b acc : string) :
  String.rev_app (a +:+ b) acc = String.rev_app b (String.rev_app a acc).
Proof.
  revert acc. induction a as [|c a IH]; intros acc; [reflexivity|].
  change (String c a +:+ b) with (String c (a +:+ b)).
  cbn [String.rev_app]. apply IH.
Qed.

Lemma rev_app_acc (s acc : string) :
  String.rev_app s acc = String.rev s +:+ acc.
Proof.
  unfold String.rev. revert acc. induction s as [|c s IH]; intros acc;
    [reflexivity|].
  cbn [String.rev_app]. rewrite (IH (String c acc)), (IH (String c EmptyString)).
  rewrite string_app_assoc. reflexivity.
Qed.

Lemma string_rev_app (a b : string) :
  String.rev (a +:+ b) = String.rev b +:+ String.rev a.
Proof.
  unfold String.rev at 1. rewrite rev_app_app. apply rev_app_acc.
Qed.

Lemma slice_from_app (p x : string) (n : nat) :
  n = String.length p -> PyStr.slice_from n (p +:+ x) = x.
Proof.
  intros ->. unfold PyStr.slice_from. rewrite string_app_length.
  replace (String.length p + String.length x - String.length p)%nat
    with (String.length x) by lia.
  rewrite substring_app_r. apply substring_all.
Qed.

Lemma drop_last_app (x q : string) (n : nat) :
  n = String.length q -> PyStr.drop_last n (x +:+ q) = x.
Proof.
  intros ->. unfold PyStr.drop_last. rewrite string_app_length.
  replace (String.length x + String.length q - String.length q)%nat
    with (String.length x) by lia.
  apply substring_app_l.
Qed.

Lemma startswith_app (p x : string) : PyStr.startswith (p +:+ x) p = true.
Proof. apply prefix_app. Qed.

Lemma endswith_app (x q : string) : PyStr.endswith (x +:+ q) q = true.
Proof. unfold PyStr.endswith. rewrite string_rev_app. apply prefix_app. Qed.

(** *** llm_utils.py: the bodies accepted *)

Section llm_shapes.
Context `{Config, PyLib, Outside}.

(** X8. An answer wrapped in a markdown fence: when the stripped text is
    the opening fence with the word json, a body and the closing fence,
    the text handed to the second [json.loads] is the body stripped, and
    the answer is what this body parses to. *)
Theorem fenced_answer_is_read (llm_output_str body : string) (v : json)
    (msg : string) :
  PyStr.strip llm_output_str = "```json" +:+ body +:+ "```" ->
  json_loads (PyStr.strip llm_output_str) = inl msg ->
  json_loads (PyStr.strip body) = inr v ->
  strip_fence llm_output_str = PyStr.strip body
  /\ parse_wrapped llm_output_str = Ok v.
Proof.
  intros Hfenced Hfirst Hsecond.
  assert (Hstrip : strip_fence llm_output_str = PyStr.strip body).
  { unfold strip_fence. rewrite Hfenced.
    rewrite startswith_app.
    rewrite (slice_from_app "```json" (body +:+ "```") 7 eq_refl).
    rewrite endswith_app.
    rewrite (drop_last_app body "```" 3 eq_refl). reflexivity. }
  split; [exact Hstrip|].
  unfold parse_wrapped. rewrite Hfirst. unfold loads.
  rewrite Hstrip, Hsecond. reflexivity.
Qed.

Lemma has_item_where_dict (test : json -> bool) (m : gmap string json)
    (key : string) :
  has_item_where test (JObj m) key
  = Ok (match m !! key with Some x => test x | None => false end).
Proof.
  unfold has_item_where. cbn [py_in res_bind py_getitem].
  destruct (m !! key) as [x|] eqn:E.
  - rewrite bool_decide_true by eauto. reflexivity.
  - rewrite bool_decide_false by (intros [? ?]; discriminate). reflexivity.
Qed.

Lemma bare_answer_lookup (m : gmap string json) (k : string) :
  bare_answer m !! k = if bool_decide (k ∈ envelope_keys) then None else m !! k.
Proof.
  unfold bare_answer. rewrite map_lookup_filter.
  destruct (m !! k) as [x|]; cbn.
  - case_bool_decide as Hin.
    + rewrite option_guard_False; [reflexivity|]. cbn. tauto.
    + rewrite option_guard_True; [reflexivity|]. exact Hin.
  - destruct (bool_decide _); reflexivity.
Qed.

(** X9. The bodies that an attempt accepts, for a body that is an object.
    A text under the key response is parsed as the answer, with or without
    the key model. Without such a text and without the key model, the body
    is refused with a ValueError, whatever else it holds. With the key
    model, an object or a list under the key response is the answer;
    otherwise the answer is the body without the keys of the envelope,
    refused with a ValueError when nothing is left. *)
Theorem parse_api_response_shapes (circular_id : string)
    (m : gmap string json) :
  (forall s, m !! "response" = Some (JStr s) ->
     parse_api_response circular_id (JObj m) = parse_wrapped s)
  /\ ((forall s, m !! "response" <> Some (JStr s)) ->
      m !! "model" = None ->
      exists message,
        parse_api_response circular_id (JObj m)
        = Raise (PyExn EValueError message))
  /\ (forall v, is_Some (m !! "model") -> m !! "response" = Some v ->
      is_dict_or_list v = true ->
      parse_api_response circular_id (JObj m) = Ok v)
  /\ (is_Some (m !! "model") ->
      match m !! "response" with
      | Some v => is_str v = false /\ is_dict_or_list v = false
      | None => True
      end ->
      (bare_answer m <> ∅ ->
       parse_api_response circular_id (JObj m) = Ok (JObj (bare_answer m)))
      /\ (bare_answer m = ∅ ->
          exists message,
            parse_api_response circular_id (JObj m)
            = Raise (PyExn EValueError message))).
Proof.
  unfold parse_api_response. rewrite !has_item_where_dict.
  cbn [is_dict py_in py_getitem res_bind].
  split; [|split; [|split]].
  - intros s Hs. rewrite Hs. reflexivity.
  - intros Hns Hmodel. rewrite Hmodel.
    rewrite (bool_decide_false (is_Some None))
      by (intros [? ?]; discriminate).
    destruct (m !! "response") as [[]|] eqn:Hr; cbn [is_str]; eauto.
    exfalso. eapply Hns. reflexivity.
  - intros v Hmodel Hr Hv. rewrite Hr. rewrite (bool_decide_true _ Hmodel).
    rewrite Hv. destruct v; try discriminate; reflexivity.
  - intros Hmodel Hr. rewrite (bool_decide_true _ Hmodel).
    destruct (m !! "response") as [v|];
      [destruct Hr as [Hs Hd]; rewrite Hs, Hd|].
    all: split;
      [ intros Hne; rewrite bool_decide_false; [reflexivity|];
        rewrite map_size_empty_iff; exact Hne
      | intros He; rewrite bool_decide_true; [eauto|];
        rewrite map_size_empty_iff; exact He ].
Qed.

(** X10. A body that is not an object is never accepted: the attempt
    raises a TypeError or a ValueError, and it fails. *)
Theorem body_not_object_fails (circular_id text : string) (api : json) :
  is_dict api = false ->
  (exists e, parse_api_response circular_id api = Raise e
             /\ (exn_cls e = ETypeError \/ exn_cls e = EValueError))
  /\ succeeds circular_id (Responded text (inr api)) = false.
Proof.
  intros Hnd.
  assert (Hraise : exists e, parse_api_response circular_id api = Raise e
             /\ (exn_cls e = ETypeError \/ exn_cls e = EValueError)).
  { unfold parse_api_response, has_item_where.
    destruct api as [| | | |s|l|m]; try discriminate;
      cbn [py_in res_bind py_getitem is_dict]; eauto.
    - destruct (PyStr.contains "response" s); cbn [res_bind]; eauto.
    - destruct (existsb _ l); cbn [res_bind]; eauto. }
  split; [exact Hraise|].
  destruct Hraise as (e & He & _).
  unfold succeeds, parsed_answer. rewrite He.
  apply bool_decide_eq_false. intros [? ?]. discriminate.
Qed.

End llm_shapes.

(** *** llm_utils.py: requests and pauses *)

Section llm_retries.
Context `{Config, PyLib, Outside}.

Lemma post_count_app (a b : list event) :
  post_count (a ++ b) = (post_count a + post_count b)%nat.
Proof.
  induction a as [|[] a IH]; cbn [app post_count]; rewrite ?IH; reflexivity.
Qed.

Lemma total_sleep_app (a b : list event) :
  total_sleep (a ++ b) = (total_sleep a + total_sleep b)%Z.
Proof.
  induction a as [|[] a IH]; cbn [app total_sleep]; rewrite ?IH; lia.
Qed.

(** Attempts a..j: j - a + 1 requests, and 5 * (k + 1) seconds of pause
    after each attempt k before the last. *)
Lemma retry_trace_from_counts (circular_id : string) (n a : nat) :
  post_count (retry_trace_from circular_id a (a + n)) = S n
  /\ (2 * total_sleep (retry_trace_from circular_id a (a + n))
      = 5 * (Z.of_nat (a + n) * (Z.of_nat (a + n) + 1)
             - Z.of_nat a * (Z.of_nat a + 1)))%Z.
Proof.
  revert a. induction n as [|n IH]; intros a.
  - rewrite Nat.add_0_r, retry_trace_from_same. cbn. split; [reflexivity|lia].
  - rewrite (retry_trace_from_step circular_id a (a + S n)) by lia.
    replace (a + S n)%nat with (S a + n)%nat by lia.
    destruct (IH (S a)) as [Hp Hs].
    cbn [post_count total_sleep]. rewrite Hp. split; [reflexivity|].
    rewrite Z.mul_add_distr_l, Hs. lia.
Qed.

Lemma retry_trace_counts (circular_id : string) (j : nat) :
  post_count (retry_trace circular_id j) = S j
  /\ (2 * total_sleep (retry_trace circular_id j)
      = 5 * (Z.of_nat j * (Z.of_nat j + 1)))%Z.
Proof.
  destruct (retry_trace_from_counts circular_id j 0) as [Hp Hs].
  cbn [Nat.add] in Hp, Hs. unfold retry_trace. split; [exact Hp|].
  rewrite Hs. cbn. lia.
Qed.

(** X11. [extract_info_with_llm] makes at most [MAX_RETRIES_LLM] requests,
    and pauses 5 * j * (j + 1) / 2 seconds in all when attempt j is the
    first to succeed, which is at most 5 * n * (n - 1) / 2 for n attempts
    allowed; when no attempt succeeds it makes exactly n requests and
    pauses exactly that long. *)
Theorem extract_request_bounds
    (circular_text circular_id circular_url : string)
    (subject : option string) :
  let n := Z.of_nat (Z.to_nat MAX_RETRIES_LLM) in
  exists r tr,
    extract_info_with_llm circular_text circular_id circular_url subject
    = (Ok r, tr)
    /\ (Z.of_nat (post_count tr) <= n)%Z
    /\ (0 <= 2 * total_sleep tr <= 5 * (n * (n - 1)))%Z
    /\ (forall j, first_success circular_text circular_id = Some j ->
          post_count tr = S j
          /\ (2 * total_sleep tr = 5 * (Z.of_nat j * (Z.of_nat j + 1)))%Z)
    /\ (first_success circular_text circular_id = None ->
          Z.of_nat (post_count tr) = n
          /\ (2 * total_sleep tr = 5 * (n * (n - 1)))%Z).
Proof.
  intros n.
  pose proof (extract_info_with_llm_shape circular_text circular_id
                circular_url subject) as Hshape.
  cbv zeta in Hshape. destruct Hshape as (r & tr & Hrun & Hcase).
  exists r, tr. split; [exact Hrun|].
  destruct (first_success circular_text circular_id) as [j|] eqn:Hfirst.
  - destruct Hcase as (parsed & d0 & _ & _ & _ & _ & _ & ->).
    destruct (retry_trace_counts circular_id j) as [Hp Hs].
    assert (Hj : (Z.of_nat j < n)%Z).
    { unfold first_success, range in Hfirst.
      apply find_seq_first in Hfirst as [Hj _]. subst n. lia. }
    rewrite Hp, Hs.
    split; [lia|]. split; [nia|]. split; [|discriminate].
    intros j' E. injection E as <-. split; [reflexivity | lia].
  - destruct Hcase as [Hzero Hpos].
    assert (Hn : (MAX_RETRIES_LLM <= 0)%Z \/ (0 < MAX_RETRIES_LLM)%Z) by lia.
    destruct Hn as [Hn|Hn].
    + destruct (Hzero Hn) as [_ ->]. cbn [post_count total_sleep].
      assert (n = 0%Z) as -> by (subst n; lia).
      split; [lia|]. split; [lia|]. split; [discriminate|].
      intros _. split; reflexivity.
    + destruct (Hpos Hn) as [_ ->].
      destruct (retry_trace_counts circular_id
                  (Z.to_nat MAX_RETRIES_LLM - 1)) as [Hp Hs].
      rewrite Hp, Hs.
      assert (Hm : Z.of_nat (Z.to_nat MAX_RETRIES_LLM - 1) = (n - 1)%Z)
        by (subst n; lia).
      rewrite Hm.
      assert (Hn1 : (1 <= n)%Z) by (subst n; lia).
      split; [lia|]. split; [nia|]. split; [discriminate|].
      intros _. split; [lia | f_equal; lia].
Qed.

(** X12. When no attempt succeeds, the record returned is the default
    record but for the error message: no field carries data of an answer.
    With no attempt allowed, nothing is requested and the default record is
    returned as it is; otherwise it holds an error message. *)
Theorem extract_failure_record
    (circular_text circular_id circular_url : string)
    (subject : option string) :
  first_success circular_text circular_id = None ->
  exists r tr,
    extract_info_with_llm circular_text circular_id circular_url subject
    = (Ok r, tr)
    /\ (forall k, k <> "llm_error_message" ->
          r !! k
          = get_default_extracted_data (JStr circular_id) (JStr circular_url)
              (json_of_text subject) (JStr circular_text) !! k)
    /\ ((MAX_RETRIES_LLM <= 0)%Z ->
        tr = []
        /\ r = get_default_extracted_data (JStr circular_id)
                 (JStr circular_url) (json_of_text subject)
                 (JStr circular_text))
    /\ ((0 < MAX_RETRIES_LLM)%Z ->
        exists message, r !! "llm_error_message" = Some (JStr message)).
Proof.
  intros Hfirst.
  pose proof (extract_info_with_llm_shape circular_text circular_id
                circular_url subject) as Hshape.
  cbv zeta in Hshape. destruct Hshape as (r & tr & Hrun & Hcase).
  exists r, tr. split; [exact Hrun|].
  rewrite Hfirst in Hcase. destruct Hcase as [Hzero Hpos].
  revert Hzero Hpos.
  generalize (get_default_extracted_data (JStr circular_id)
                (JStr circular_url) (json_of_text subject)
                (JStr circular_text)).
  intros d Hzero Hpos.
  split; [|split].
  - intros k Hk.
    assert (Hn : (MAX_RETRIES_LLM <= 0)%Z \/ (0 < MAX_RETRIES_LLM)%Z) by lia.
    destruct Hn as [Hn|Hn].
    + destruct (Hzero Hn) as [-> _]. reflexivity.
    + destruct (Hpos Hn) as [[message ->] _].
      apply lookup_insert_ne. congruence.
  - intros Hn. destruct (Hzero Hn) as [-> ->]. split; reflexivity.
  - intros Hn. destruct (Hpos Hn) as [[message ->] _].
    exists message. apply lookup_insert_eq.
Qed.

(** X13. A body with the key model whose response is null, a number or a
    boolean makes the first attempt succeed: the record is marked
    successful after one request, without error message, and each key
    that the prompt asks for and that the body does not hold at its top
    level keeps its default. *)
Theorem enveloped_scalar_response_succeeds
    (circular_text circular_id circular_url : string)
    (subject : option string) (text : string) (m : gmap string json)
    (v : json) :
  (0 < MAX_RETRIES_LLM)%Z ->
  llm_service circular_text circular_id 0 = Responded text (inr (JObj m)) ->
  is_Some (m !! "model") ->
  m !! "response" = Some v ->
  is_str v = false -> is_dict_or_list v = false ->
  exists r tr,
    extract_info_with_llm circular_text circular_id circular_url subject
    = (Ok r, tr)
    /\ tr = [EvPost circular_id 0]
    /\ r !! "extraction_successful" = Some (JBool true)
    /\ r !! "llm_error_message" = Some JNull
    /\ Forall (fun k =>
                 m !! k = None ->
                 r !! k
                 = get_default_extracted_data (JStr circular_id)
                     (JStr circular_url) (json_of_text subject)
                     (JStr circular_text) !! k)
              ordered_keys_for_prompt.
Proof.
  intros Hmax Hservice Hmodel Hresp Hns Hnd.
  assert (Hparse : parse_api_response circular_id (JObj m)
                   = Ok (JObj (bare_answer m))).
  { unfold parse_api_response. rewrite !has_item_where_dict.
    cbn [is_dict py_in py_getitem res_bind].
    rewrite Hresp, Hns, Hnd. rewrite (bool_decide_true _ Hmodel).
    rewrite bool_decide_false; [reflexivity|].
    rewrite map_size_empty_iff. intros He.
    assert (Hl : bare_answer m !! "response" = Some v).
    { rewrite bare_answer_lookup.
      rewrite (bool_decide_false ("response" ∈ envelope_keys))
        by in_list.
      exact Hresp. }
    rewrite He, lookup_empty in Hl. discriminate. }
  assert (Hanswer : parsed_answer circular_id
                      (llm_service circular_text circular_id 0)
                    = Some (JObj (bare_answer m))).
  { rewrite Hservice. unfold parsed_answer. rewrite Hparse.
    rewrite mergeable_dict. reflexivity. }
  assert (Hfirst : first_success circular_text circular_id = Some 0%nat).
  { apply first_success_some; [lia | | intros k Hk; lia].
    apply (succeeds_Some _ _ _ Hanswer). }
  pose proof (extract_info_with_llm_shape circular_text circular_id
                circular_url subject) as Hshape.
  cbv zeta in Hshape. destruct Hshape as (r & tr & Hrun & Hcase).
  exists r, tr. split; [exact Hrun|].
  rewrite Hfirst in Hcase.
  destruct Hcase as (parsed & d0 & Hp & Hwe & Hd0 & _ & -> & ->).
  assert (parsed = JObj (bare_answer m)) as -> by congruence.
  specialize (Hd0 eq_refl). subst d0.
  pose proof (default_lookup (JStr circular_id) (JStr circular_url)
                (json_of_text subject) (JStr circular_text)) as Hl.
  cbv zeta in Hl.
  destruct Hl as (_ & _ & _ & _ & _ & Hmsg & Hbools & Hnulls & _).
  revert Hwe Hmsg Hbools Hnulls.
  generalize (get_default_extracted_data (JStr circular_id)
                (JStr circular_url) (json_of_text subject)
                (JStr circular_text)).
  intros d Hwe Hmsg Hbools Hnulls.
  split; [reflexivity|]. split; [apply lookup_insert_eq|]. split.
  { rewrite (success_record_lookup _ d "llm_error_message" ltac:(in_list)
               ltac:(discriminate)).
    exact Hmsg. }
  pose proof (success_record_prompt_fields (JObj (bare_answer m)) d d Hwe
                Hbools Hnulls) as Hfields.
  rewrite Forall_forall in Hfields |- *. intros k Hk Hnone.
  rewrite (Hfields k Hk). cbn [answer_field].
  rewrite bare_answer_lookup, Hnone.
  rewrite Forall_forall in Hbools, Hnulls.
  destruct (bool_decide (k ∈ envelope_keys)); cbn [as_bool default].
  all: destruct (decide (k ∈ boolean_keys)) as [Hb|Hb];
    [rewrite (bool_decide_true _ Hb) | rewrite (bool_decide_false _ Hb)].
  all: try (symmetry; apply Hbools; exact Hb).
  all: symmetry; apply Hnulls;
    revert Hk Hb; unfold ordered_keys_for_prompt, boolean_keys;
    rewrite !elem_of_cons, !elem_of_nil; intros Hk Hb; tauto.
Qed.

End llm_retries.

(** *** main.py: one turn of the loop over the bulletins *)

Section main_more.
Context `{Config, PyLib, Outside}.

(** [save_processed_id] on any disk: it never raises, touches no file but
    the ledger, to which it can only add, and creates no directory but the
    ledger's. *)
Lemma save_processed_id_any (w w1 : fs) (i : string) (r : res unit) :
  save_processed_id i w = (r, w1) ->
  r = Ok tt
  /\ (forall p, p <> PROCESSED_CIRCULARS_FILE -> files w1 !! p = files w !! p)
  /\ (text_at w1 PROCESSED_CIRCULARS_FILE
      = text_at w PROCESSED_CIRCULARS_FILE
      \/ text_at w1 PROCESSED_CIRCULARS_FILE
         = text_at w PROCESSED_CIRCULARS_FILE +:+ i +:+ nl)
  /\ (dirs w1 = dirs w
      \/ dirs w1 = {[ Os.dirname PROCESSED_CIRCULARS_FILE ]} ∪ dirs w).
Proof.
  unfold save_processed_id, try_except.
  unfold bind at 1. unfold get at 1.
  set (guard := PyStr.truthy _ && negb _).
  assert (Hmk : exists w2 r2,
            when guard (Os.makedirs (Os.dirname PROCESSED_CIRCULARS_FILE)) w
            = (r2, w2)
            /\ files w2 = files w
            /\ (r2 <> Ok tt -> w2 = w)
            /\ (dirs w2 = dirs w
                \/ dirs w2
                   = {[ Os.dirname PROCESSED_CIRCULARS_FILE ]} ∪ dirs w)).
  { destruct guard; cbn [when].
    - unfold Os.makedirs.
      destruct (bool_decide (is_Some (files w !! _))).
      + exists w. eexists. split; [reflexivity|]. auto.
      + eexists. eexists. split; [reflexivity|]. cbn [files dirs].
        split; [reflexivity|]. split; [congruence|]. right. reflexivity.
    - exists w. eexists. split; [reflexivity|]. auto. }
  destruct Hmk as (w2 & r2 & Hmk & Hfiles & Hfail & Hdirs).
  unfold bind at 1. rewrite Hmk.
  destruct r2 as [[]|e2].
  2: { cbn [dispatch is_Exception ret]. intros E. injection E as <- <-.
       rewrite (Hfail ltac:(discriminate)). auto. }
  unfold bind at 1. unfold Os.open_a.
  destruct (Os.can_write w2 PROCESSED_CIRCULARS_FILE).
  - unfold Os.write. cbn [files dirs]. intros E. injection E as <- <-.
    cbn [files dirs]. split; [reflexivity|]. split.
    { intros p Hp. rewrite !lookup_insert_ne by congruence.
      rewrite Hfiles. reflexivity. }
    split; [|exact Hdirs].
    right. unfold text_at. cbn [files].
    rewrite Hfiles, !lookup_insert_eq. reflexivity.
  - cbn [dispatch is_Exception ret]. intros E. injection E as <- <-.
    split; [reflexivity|]. split.
    { intros p _. rewrite Hfiles. reflexivity. }
    split; [|exact Hdirs].
    left. unfold text_at. rewrite Hfiles. reflexivity.
Qed.

(** What one turn of the loop over the bulletins does, case by case. *)
Lemma loop_body_step (c : circ_info) (s s1 : st) (r : res unit) :
  loop_body c s = (r, s1) ->
  ((ci_id c ∈ processed_ids s) /\ r = Ok tt /\ s1 = s)
  \/ ((ci_id c ∉ processed_ids s) /\ r = Ok tt
      /\ (PyStr.int (ci_id c) = None
          \/ exists n, PyStr.int (ci_id c) = Some n /\ below_floor n = true)
      /\ save_processed_id (ci_id c) (st_fs s) = (Ok tt, st_fs s1)
      /\ processed_ids s1 = {[ ci_id c ]} ∪ processed_ids s
      /\ all_extracted_data s1 = all_extracted_data s
      /\ new_circulars_processed_this_cycle s1
         = new_circulars_processed_this_cycle s
      /\ st_trace s1 = st_trace s)
  \/ ((ci_id c ∉ processed_ids s)
      /\ (exists n, PyStr.int (ci_id c) = Some n /\ below_floor n = false)
      /\ exists rec evs,
           rec !! "circular_id" = Some (JStr (ci_id c))
           /\ processed_as c rec
           /\ all_extracted_data s1 = all_extracted_data s ++ [JObj rec]
           /\ new_circulars_processed_this_cycle s1
              = S (new_circulars_processed_this_cycle s)
           /\ st_trace s1 = st_trace s ++ evs
           /\ (((exists b, send_slack_notification rec = Ok b)
                /\ r = Ok tt
                /\ save_processed_id (ci_id c) (st_fs s) = (Ok tt, st_fs s1)
                /\ processed_ids s1 = {[ ci_id c ]} ∪ processed_ids s)
               \/ ((exists e, send_slack_notification rec = Raise e
                               /\ r = Raise e)
                   /\ st_fs s1 = st_fs s
                   /\ processed_ids s1 = processed_ids s))).
Proof.
  intros Hrun.
  destruct (decide (ci_id c ∈ processed_ids s)) as [Hin|Hnot].
  { left. rewrite (loop_body_processed c s Hin) in Hrun.
    injection Hrun as <- <-. auto. }
  right.
  destruct (PyStr.int (ci_id c)) as [n|] eqn:Hint.
  - destruct (below_floor n) eqn:Hfloor.
    + left. destruct (loop_body_below c s n Hint Hfloor Hnot)
        as (w1 & Hsave & Hb).
      rewrite Hb in Hrun. injection Hrun as <- <-.
      cbn [st_fs processed_ids all_extracted_data st_trace
           new_circulars_processed_this_cycle].
      split; [exact Hnot|]. split; [reflexivity|].
      split; [right; eauto|]. auto.
    + right. destruct (loop_body_new c s n Hint Hfloor Hnot)
        as (rec & evs & w1 & Hid & Has & Hsave & Hb).
      rewrite Hb in Hrun.
      split; [exact Hnot|]. split; [eauto|].
      destruct (send_slack_notification rec) as [b|e] eqn:Hslack.
      * injection Hrun as <- <-.
        cbn [st_fs processed_ids all_extracted_data st_trace
             new_circulars_processed_this_cycle].
        eexists rec, _. split; [exact Hid|]. split; [exact Has|].
        split; [reflexivity|]. split; [reflexivity|].
        split; [rewrite <- app_assoc; reflexivity|].
        left. eauto.
      * injection Hrun as <- <-.
        cbn [st_fs processed_ids all_extracted_data st_trace
             new_circulars_processed_this_cycle].
        eexists rec, _. split; [exact Hid|]. split; [exact Has|].
        split; [reflexivity|]. split; [reflexivity|].
        split; [reflexivity|].
        right. eauto.
  - left. rewrite (loop_body_malformed c s Hint Hnot) in Hrun.
    destruct (mark_processed_run (ci_id c) s) as (w1 & Hsave & Hm).
    rewrite Hm in Hrun. injection Hrun as <- <-.
    cbn [st_fs processed_ids all_extracted_data st_trace
         new_circulars_processed_this_cycle].
    split; [exact Hnot|]. split; [reflexivity|]. split; [left; reflexivity|].
    auto.
Qed.

End main_more.

Lemma elem_of_rev {A} (x : A) (l : list A) : x ∈ rev l <-> x ∈ l.
Proof. rewrite !list_elem_of_In. symmetry. apply in_rev. Qed.


(** *** main.py: a pass over the bulletin list *)

Section pass_properties.
Context `{Config, PyLib, Outside}.


Lemma extends_refl (s : st) : extends s s.
Proof.
  split; [reflexivity|].
  split; [exists []; symmetry; apply app_nil_r|].
  split; [exists []; symmetry; apply app_nil_r|].
  split; [reflexivity|].
  split; [exists EmptyString; symmetry; apply string_app_nil_r|].
  left. reflexivity.
Qed.

Lemma extends_trans (s s1 s2 : st) :
  extends s s1 -> extends s1 s2 -> extends s s2.
Proof.
  intros (Hp & [recs Hr] & [evs He] & Hf & [added Ha] & Hd)
         (Hp' & [recs' Hr'] & [evs' He'] & Hf' & [added' Ha'] & Hd').
  split; [etrans; eassumption|].
  split; [exists (recs ++ recs'); rewrite Hr', Hr, app_assoc; reflexivity|].
  split; [exists (evs ++ evs'); rewrite He', He, app_assoc; reflexivity|].
  split; [intros p Hp0; rewrite Hf', Hf by exact Hp0; reflexivity|].
  split.
  { exists (added +:+ added'). rewrite Ha', Ha. apply string_app_assoc. }
  destruct Hd as [Hd|Hd], Hd' as [Hd'|Hd']; rewrite Hd', Hd; auto.
  right. rewrite (assoc_L (∪)), (idemp_L (∪)). reflexivity.
Qed.

Lemma save_processed_id_extends (s : st) (i : string) (w1 : fs)
    (ids : gset string) (recs : list json) (evs : list event) (n k : nat) :
  save_processed_id i (st_fs s) = (Ok tt, w1) ->
  processed_ids s ⊆ ids ->
  extends s (St w1 (st_trace s ++ evs) ids (all_extracted_data s ++ recs) n k).
Proof.
  intros Hsave Hsub.
  destruct (save_processed_id_any _ _ _ _ Hsave) as (_ & Hf & Ht & Hd).
  split; [exact Hsub|]. cbn [all_extracted_data st_trace st_fs].
  split; [eauto|]. split; [eauto|]. split; [exact Hf|].
  split; [|exact Hd].
  unfold ledger_text. cbn [st_fs]. destruct Ht as [->| ->].
  - exists EmptyString. symmetry. apply string_app_nil_r.
  - eauto.
Qed.

Lemma loop_body_extends (c : circ_info) (s s1 : st) (r : res unit) :
  loop_body c s = (r, s1) -> extends s s1.
Proof.
  intros Hrun.
  destruct (loop_body_step c s s1 r Hrun)
    as [(_ & _ & ->)
       |[(_ & _ & _ & Hsave & Hids & Hdata & _ & Htr)
        |(_ & _ & rec & evs & _ & _ & Hdata & _ & Htr & Hend)]].
  - apply extends_refl.
  - destruct s1 as [w1 t1 ids1 data1 n1 k1].
    cbn [st_fs processed_ids all_extracted_data st_trace] in *. subst.
    rewrite <- (app_nil_r (st_trace s)), <- (app_nil_r (all_extracted_data s)).
    eapply save_processed_id_extends; [exact Hsave|].
    apply union_subseteq_r.
  - destruct s1 as [w1 t1 ids1 data1 n1 k1].
    cbn [st_fs processed_ids all_extracted_data st_trace] in *. subst.
    destruct Hend as [(_ & _ & Hsave & ->)|(_ & -> & ->)].
    + eapply save_processed_id_extends; [exact Hsave|].
      apply union_subseteq_r.
    + split; [reflexivity|].
      cbn [all_extracted_data st_trace st_fs].
      split; [eauto|]. split; [eauto|]. split; [reflexivity|].
      split; [exists EmptyString; symmetry; apply string_app_nil_r|].
      left. reflexivity.
Qed.

Lemma for_each_extends (l : list circ_info) (s s' : st) (r : res unit) :
  for_each l s = (r, s') -> extends s s'.
Proof.
  revert s. induction l as [|c l IH]; intros s Hrun.
  - injection Hrun as <- <-. apply extends_refl.
  - cbn [for_each] in Hrun. unfold bind in Hrun.
    destruct (loop_body c s) as [[[]|e] s1] eqn:Hbody.
    + apply (extends_trans s s1 s');
        [exact (loop_body_extends _ _ _ _ Hbody) | exact (IH _ Hrun)].
    + injection Hrun as <- <-. exact (loop_body_extends _ _ _ _ Hbody).
Qed.

(** X14. A pass over the bulletin list, whether it runs to its end or
    raises, only adds: no identifier leaves the ledger, the records and
    the trace are extended, the ledger file gets text appended, and no
    other file is changed. *)
Theorem pass_only_appends (l : list circ_info) (s s' : st) (r : res unit) :
  run_pass l s = (r, s') ->
  processed_ids s ⊆ processed_ids s'
  /\ (exists recs, all_extracted_data s' = all_extracted_data s ++ recs)
  /\ (exists evs, st_trace s' = st_trace s ++ evs)
  /\ (forall p, p <> PROCESSED_CIRCULARS_FILE ->
        files (st_fs s') !! p = files (st_fs s) !! p)
  /\ (exists added, ledger_text s' = ledger_text s +:+ added).
Proof.
  intros Hrun. unfold run_pass in Hrun.
  rewrite (bind_ok _ _ _ _ _ (reset_counts_run s)) in Hrun.
  destruct (for_each_extends _ _ _ _ Hrun) as (Hp & Hr & He & Hf & Ha & _).
  auto.
Qed.

(** The bulletins of a pass that got a record, with their records. *)
Lemma for_each_records (l : list circ_info) (s s' : st) :
  for_each l s = (Ok tt, s') ->
  exists (done : list circ_info) (recs : list (gmap string json)),
    all_extracted_data s' = all_extracted_data s ++ (JObj <$> recs)
    /\ new_circulars_processed_this_cycle s'
       = (new_circulars_processed_this_cycle s + length recs)%nat
    /\ processed_ids s' = processed_ids s ∪ list_to_set (ci_id <$> l)
    /\ sublist done l
    /\ Forall2 (fun c rec => rec !! "circular_id" = Some (JStr (ci_id c))
                             /\ processed_as c rec) done recs
    /\ NoDup (ci_id <$> done)
    /\ Forall (fun c => (ci_id c ∉ processed_ids s)
                        /\ exists n, PyStr.int (ci_id c) = Some n
                                     /\ below_floor n = false) done.
Proof.
  revert s. induction l as [|c l IH]; intros s Hrun.
  - injection Hrun as <-. exists [], [].
    cbn [fmap list_fmap length list_to_set].
    rewrite app_nil_r, Nat.add_0_r, (right_id_L ∅ (∪)).
    repeat split; constructor.
  - cbn [for_each] in Hrun. unfold bind in Hrun.
    destruct (loop_body c s) as [[[]|e] s1] eqn:Hbody; [|discriminate].
    destruct (IH s1 Hrun)
      as (done & recs & Hdata & Hnew & Hids & Hsub & Hrec & Hnd & Hfresh).
    cbn [fmap list_fmap list_to_set].
    destruct (loop_body_step c s s1 _ Hbody)
      as [(Hin & _ & ->)
         |[(Hnot & _ & _ & _ & Hids1 & Hdata1 & Hnew1 & _)
          |(Hnot & Hnum & rec & evs & Hid & Has & Hdata1 & Hnew1 & _
            & Hend)]].
    + exists done, recs. split; [exact Hdata|]. split; [exact Hnew|].
      split.
      { rewrite Hids. apply set_eq. intros x.
        rewrite !elem_of_union, elem_of_singleton.
        split; [tauto|]. intros [Hx|[->|Hx]]; auto. }
      split; [apply sublist_cons; exact Hsub|].
      auto.
    + exists done, recs. rewrite Hdata, Hdata1, Hnew, Hnew1, Hids, Hids1.
      split; [reflexivity|]. split; [reflexivity|].
      split.
      { apply set_eq. intros x.
        rewrite !elem_of_union, elem_of_singleton. tauto. }
      split; [apply sublist_cons; exact Hsub|].
      split; [exact Hrec|]. split; [exact Hnd|].
      eapply Forall_impl; [exact Hfresh|]. cbn beta.
      intros c' [Hc' Hn']. split; [|exact Hn'].
      intros Hx. apply Hc'. rewrite Hids1. apply elem_of_union. right.
      exact Hx.
    + destruct Hend as [(_ & _ & _ & Hids1)|([e [_ He]] & _)];
        [|discriminate].
      exists (c :: done), (rec :: recs).
      rewrite Hdata, Hdata1, Hnew, Hnew1, Hids, Hids1.
      cbn [fmap list_fmap length].
      split; [rewrite <- app_assoc; reflexivity|].
      split; [lia|].
      split.
      { apply set_eq. intros x.
        rewrite !elem_of_union, elem_of_singleton. tauto. }
      split; [apply sublist_skip; exact Hsub|].
      split; [constructor; [split; assumption | exact Hrec]|].
      split.
      { constructor; [|exact Hnd].
        intros Hx. apply list_elem_of_fmap in Hx as (c' & Hc' & Hx).
        rewrite Forall_forall in Hfresh.
        destruct (Hfresh c' Hx) as [Hout _]. apply Hout.
        rewrite Hids1, <- Hc'. apply elem_of_union. left.
        apply elem_of_singleton. reflexivity. }
      constructor; [split; assumption|].
      eapply Forall_impl; [exact Hfresh|]. cbn beta.
      intros c' [Hc' Hn']. split; [|exact Hn'].
      intros Hx. apply Hc'. rewrite Hids1. apply elem_of_union. right.
      exact Hx.
Qed.

(** X15. After a pass that runs to its end, the ledger holds what it held
    and every identifier of the list. The records appended are those of
    the bulletins [done], in the order of the pass, one for each: these
    are bulletins of the list with distinct identifiers, none of which was
    in the ledger, each with a number not below the floor; and the counter
    of new bulletins is their number. *)
Theorem pass_records (l : list circ_info) (s s' : st) :
  run_pass l s = (Ok tt, s') ->
  exists (done : list circ_info) (recs : list (gmap string json)),
    all_extracted_data s' = all_extracted_data s ++ (JObj <$> recs)
    /\ new_circulars_processed_this_cycle s' = length recs
    /\ processed_ids s' = processed_ids s ∪ list_to_set (ci_id <$> l)
    /\ sublist done (rev l)
    /\ Forall2 (fun c rec => rec !! "circular_id" = Some (JStr (ci_id c))
                             /\ processed_as c rec) done recs
    /\ NoDup (ci_id <$> done)
    /\ Forall (fun c => (ci_id c ∉ processed_ids s)
                        /\ exists n, PyStr.int (ci_id c) = Some n
                                     /\ below_floor n = false) done.
Proof.
  intros Hrun. unfold run_pass in Hrun.
  rewrite (bind_ok _ _ _ _ _ (reset_counts_run s)) in Hrun.
  destruct (for_each_records _ _ _ Hrun)
    as (done & recs & Hdata & Hnew & Hids & Hsub & Hrec & Hnd & Hfresh).
  exists done, recs.
  cbn [all_extracted_data new_circulars_processed_this_cycle processed_ids]
    in Hdata, Hnew, Hids, Hfresh.
  split; [exact Hdata|]. split; [exact Hnew|].
  split.
  { rewrite Hids. f_equal. apply set_eq. intros x.
    rewrite !elem_of_list_to_set, !list_elem_of_fmap.
    split; intros (c & -> & Hc); exists c; (split; [reflexivity|]).
    - exact (proj1 (elem_of_rev _ _) Hc).
    - exact (proj2 (elem_of_rev _ _) Hc). }
  auto.
Qed.





End pass_properties.

(** *** main.py: the ledger in memory and on disk *)

Section ledger_on_disk.
Context `{Config, PyLib, Outside}.

Lemma clean_id_inv (i : string) :
  clean_id i = true ->
  PyText.has_line_break i = false /\ PyStr.strip i = i /\ PyStr.truthy i = true.
Proof.
  unfold clean_id. rewrite !andb_true_iff, negb_true_iff.
  intros [[Hb Hs] Ht]. apply String.eqb_eq in Hs. auto.
Qed.

(** On a usable ledger file whose lines are ended, marking a clean
    identifier adds it to what the file holds. *)
Lemma save_clean_id (w w1 : fs) (i : string) :
  store_usable w PROCESSED_CIRCULARS_FILE = true ->
  lines_ended (text_at w PROCESSED_CIRCULARS_FILE) ->
  clean_id i = true ->
  save_processed_id i w = (Ok tt, w1) ->
  store_usable w1 PROCESSED_CIRCULARS_FILE = true
  /\ lines_ended (text_at w1 PROCESSED_CIRCULARS_FILE)
  /\ ledger_ids (text_at w1 PROCESSED_CIRCULARS_FILE)
     = ledger_ids (text_at w PROCESSED_CIRCULARS_FILE) ∪ {[ i ]}.
Proof.
  intros Hu Hended Hclean Hsave.
  destruct (clean_id_inv i Hclean) as (Hb & Hs & Ht).
  destruct (save_processed_id_text w i Hu) as (w1' & Hsave' & Htext & _ & Hu1).
  assert (w1' = w1) as -> by congruence.
  split; [exact Hu1|]. rewrite Htext.
  split; [apply lines_ended_append|].
  rewrite (ledger_ids_append _ _ Hended Hb), Hs, Ht. reflexivity.
Qed.

Lemma loop_body_ledger_on_disk (c : circ_info) (s s1 : st) (r : res unit) :
  store_usable (st_fs s) PROCESSED_CIRCULARS_FILE = true ->
  lines_ended (ledger_text s) ->
  clean_id (ci_id c) = true ->
  loop_body c s = (r, s1) ->
  store_usable (st_fs s1) PROCESSED_CIRCULARS_FILE = true
  /\ lines_ended (ledger_text s1)
  /\ processed_ids s1 ⊆ processed_ids s ∪ ledger_ids (ledger_text s1)
  /\ ledger_ids (ledger_text s) ⊆ ledger_ids (ledger_text s1).
Proof.
  intros Hu Hended Hclean Hrun.
  assert (Hsame : st_fs s1 = st_fs s -> processed_ids s1 = processed_ids s ->
            store_usable (st_fs s1) PROCESSED_CIRCULARS_FILE = true
            /\ lines_ended (ledger_text s1)
            /\ processed_ids s1 ⊆ processed_ids s ∪ ledger_ids (ledger_text s1)
            /\ ledger_ids (ledger_text s) ⊆ ledger_ids (ledger_text s1)).
  { intros Hfs Hids. unfold ledger_text. rewrite Hfs, Hids.
    split; [exact Hu|]. split; [exact Hended|].
    split; [apply union_subseteq_l | reflexivity]. }
  assert (Hmark : save_processed_id (ci_id c) (st_fs s) = (Ok tt, st_fs s1) ->
            processed_ids s1 = {[ ci_id c ]} ∪ processed_ids s ->
            store_usable (st_fs s1) PROCESSED_CIRCULARS_FILE = true
            /\ lines_ended (ledger_text s1)
            /\ processed_ids s1 ⊆ processed_ids s ∪ ledger_ids (ledger_text s1)
            /\ ledger_ids (ledger_text s) ⊆ ledger_ids (ledger_text s1)).
  { intros Hsave Hids.
    destruct (save_clean_id _ _ _ Hu Hended Hclean Hsave)
      as (Hu1 & Hended1 & Hl).
    split; [exact Hu1|]. split; [exact Hended1|].
    unfold ledger_text. rewrite Hl, Hids. split.
    - intros x. rewrite !elem_of_union. tauto.
    - apply union_subseteq_l. }
  destruct (loop_body_step c s s1 r Hrun)
    as [(_ & _ & ->)
       |[(_ & _ & _ & Hsave & Hids & _)
        |(_ & _ & rec & evs & _ & _ & _ & _ & _ & Hend)]].
  - apply Hsame; reflexivity.
  - apply Hmark; assumption.
  - destruct Hend as [(_ & _ & Hsave & Hids)|(_ & Hfs & Hids)].
    + apply Hmark; assumption.
    + apply Hsame; assumption.
Qed.

Lemma for_each_ledger_on_disk (l : list circ_info) (s s' : st)
    (r : res unit) :
  store_usable (st_fs s) PROCESSED_CIRCULARS_FILE = true ->
  lines_ended (ledger_text s) ->
  Forall (fun c => clean_id (ci_id c) = true) l ->
  for_each l s = (r, s') ->
  store_usable (st_fs s') PROCESSED_CIRCULARS_FILE = true
  /\ lines_ended (ledger_text s')
  /\ processed_ids s' ⊆ processed_ids s ∪ ledger_ids (ledger_text s')
  /\ ledger_ids (ledger_text s) ⊆ ledger_ids (ledger_text s').
Proof.
  revert s. induction l as [|c l IH]; intros s Hu Hended Hclean Hrun.
  - injection Hrun as <- <-. split; [exact Hu|]. split; [exact Hended|].
    split; [apply union_subseteq_l | reflexivity].
  - apply Forall_cons in Hclean as [Hc Hclean].
    cbn [for_each] in Hrun. unfold bind in Hrun.
    destruct (loop_body c s) as [r1 s1] eqn:Hbody.
    destruct (loop_body_ledger_on_disk c s s1 r1 Hu Hended Hc Hbody)
      as (Hu1 & Hended1 & Hids1 & Hl1).
    destruct r1 as [[]|e].
    + destruct (IH s1 Hu1 Hended1 Hclean Hrun)
        as (Hu' & Hended' & Hids' & Hl').
      split; [exact Hu'|]. split; [exact Hended'|]. split.
      * intros x Hx. apply Hids' in Hx.
        apply elem_of_union in Hx as [Hx|Hx];
          [|apply elem_of_union; right; exact Hx].
        apply Hids1 in Hx.
        apply elem_of_union in Hx as [Hx|Hx]; apply elem_of_union;
          [left; exact Hx | right; apply Hl'; exact Hx].
      * etrans; eassumption.
    + injection Hrun as <- <-. auto.
Qed.

(** X19. On a usable ledger file whose lines are ended, and for a list of
    identifiers without blanks around them or line breaks: when every
    identifier of the ledger in memory can be loaded from the ledger file
    before a pass, this holds after the pass too, whether it ran to its end
    or raised. *)
Theorem pass_keeps_ledger_on_disk (l : list circ_info) (s s' : st)
    (r : res unit) :
  store_usable (st_fs s) PROCESSED_CIRCULARS_FILE = true ->
  lines_ended (ledger_text s) ->
  Forall (fun c => clean_id (ci_id c) = true) l ->
  processed_ids s ⊆ ledger_ids (ledger_text s) ->
  run_pass l s = (r, s') ->
  exists on_disk,
    load_processed_ids (st_fs s') = (Ok on_disk, st_fs s')
    /\ processed_ids s' ⊆ on_disk
    /\ store_usable (st_fs s') PROCESSED_CIRCULARS_FILE = true
    /\ lines_ended (ledger_text s').
Proof.
  intros Hu Hended Hclean Hsync Hrun. unfold run_pass in Hrun.
  rewrite (bind_ok _ _ _ _ _ (reset_counts_run s)) in Hrun.
  destruct (for_each_ledger_on_disk (rev l)
              (St (st_fs s) (st_trace s) (processed_ids s)
                  (all_extracted_data s) 0 0) s' r Hu Hended
              ltac:(apply Forall_rev; exact Hclean) Hrun)
    as (Hu' & Hended' & Hids' & Hl').
  exists (ledger_ids (ledger_text s')).
  split; [apply load_processed_ids_run|].
  split; [|auto].
  cbn [processed_ids] in Hids'. intros x Hx. apply Hids' in Hx.
  apply elem_of_union in Hx as [Hx|Hx]; [|exact Hx].
  apply Hl'. apply Hsync. exact Hx.
Qed.

End ledger_on_disk.

(** *** main.py: the start of main_loop *)

Section startup_properties.
Context `{Config, PyLib, Outside}.

Lemma startup_item_dict (ids : gset string) (m : gmap string json) :
  startup_item ids (JObj m)
  = Ok (match m !! "circular_id" with
        | Some JNull | None => ids
        | Some v => {[ str_of v ]} ∪ ids
        end).
Proof.
  unfold startup_item. cbn [py_in res_bind py_getitem].
  destruct (m !! "circular_id") as [v|] eqn:E.
  - rewrite bool_decide_true by eauto. cbn [res_bind].
    destruct v; reflexivity.
  - rewrite bool_decide_false by (intros [? ?]; discriminate). reflexivity.
Qed.

(** What one item adds to the ledger, when the loop goes on. *)
Lemma startup_item_Ok (ids ids' : gset string) (item : json) :
  startup_item ids item = Ok ids' ->
  ids' = ids
  \/ exists v, py_getitem item "circular_id" = Ok v /\ v <> JNull
               /\ ids' = {[ str_of v ]} ∪ ids.
Proof.
  unfold startup_item.
  destruct (py_in "circular_id" item) as [[]|e]; cbn [res_bind];
    [| intros E; injection E as <-; auto | discriminate].
  destruct (py_getitem item "circular_id") as [v|e]; cbn [res_bind];
    [|discriminate].
  destruct v; intros E; injection E as <-; auto;
    right; eexists; (split; [reflexivity|]); (split; [discriminate|]);
    reflexivity.
Qed.

Lemma startup_item_raises (ids : gset string) (item : json) (e : pyexn) :
  startup_item ids item = Raise e -> exn_cls e = ETypeError.
Proof.
  unfold startup_item.
  destruct item as [| | | |s|l|m]; cbn [py_in res_bind py_getitem];
    try (intros E; injection E as <-; reflexivity).
  - destruct (PyStr.contains _ _); cbn [res_bind];
      intros E; [injection E as <-; reflexivity | discriminate].
  - destruct (existsb _ _); cbn [res_bind];
      intros E; [injection E as <-; reflexivity | discriminate].
  - destruct (m !! "circular_id") as [v|].
    + rewrite bool_decide_true by eauto. cbn [res_bind].
      destruct v; discriminate.
    + rewrite bool_decide_false by (intros [? ?]; discriminate).
      discriminate.
Qed.

Lemma startup_scan_Ok (items : list json) (ids0 ids : gset string) :
  startup_scan items ids0 = Ok ids ->
  ids0 ⊆ ids
  /\ (forall m v, JObj m ∈ items -> m !! "circular_id" = Some v ->
        v <> JNull -> str_of v ∈ ids)
  /\ (forall i, i ∈ ids ->
        i ∈ ids0
        \/ exists item v, item ∈ items
                          /\ py_getitem item "circular_id" = Ok v
                          /\ v <> JNull /\ i = str_of v).
Proof.
  revert ids0. induction items as [|item items IH]; intros ids0 Hscan.
  - injection Hscan as <-. split; [reflexivity|]. split.
    + intros m v Hin. apply elem_of_nil in Hin. contradiction.
    + auto.
  - cbn [startup_scan] in Hscan.
    destruct (startup_item ids0 item) as [ids1|e] eqn:Hitem;
      cbn [res_bind] in Hscan; [|discriminate].
    destruct (IH ids1 Hscan) as (Hsub & Hrec & Hfrom).
    assert (Hsub1 : ids0 ⊆ ids1).
    { destruct (startup_item_Ok _ _ _ Hitem) as [->|(v & _ & _ & ->)];
        [reflexivity | apply union_subseteq_r]. }
    split; [etrans; eassumption|]. split.
    + intros m v Hin Hv Hnn. apply elem_of_cons in Hin as [<-|Hin];
        [|exact (Hrec m v Hin Hv Hnn)].
      rewrite startup_item_dict, Hv in Hitem.
      apply Hsub.
      destruct v; try contradiction; injection Hitem as <-;
        apply elem_of_union; left; apply elem_of_singleton; reflexivity.
    + intros i Hi. destruct (Hfrom i Hi) as [Hi1|(it & v & Hin & Hv & Hnn & ->)].
      * destruct (startup_item_Ok _ _ _ Hitem) as [->|(v & Hv & Hnn & ->)];
          [left; exact Hi1|].
        apply elem_of_union in Hi1 as [Hi1|Hi1]; [|left; exact Hi1].
        apply elem_of_singleton in Hi1. right. exists item, v.
        split; [apply elem_of_cons; left; reflexivity|]. auto.
      * right. exists it, v. split; [apply elem_of_cons; right; exact Hin|].
        auto.
Qed.

Lemma startup_scan_raises (items : list json) (ids : gset string)
    (e : pyexn) :
  startup_scan items ids = Raise e -> exn_cls e = ETypeError.
Proof.
  revert ids. induction items as [|item items IH]; intros ids; [discriminate|].
  cbn [startup_scan].
  destruct (startup_item ids item) as [ids1|e1] eqn:Hitem; cbn [res_bind].
  - apply IH.
  - intros E. injection E as <-. exact (startup_item_raises _ _ _ Hitem).
Qed.

Lemma startup_scan_scalar (items : list json) (ids : gset string)
    (item : json) :
  item ∈ items -> is_scalar item = true ->
  exists e, startup_scan items ids = Raise e.
Proof.
  intros Hin Hsc. revert ids.
  induction items as [|x items IH]; intros ids;
    [apply elem_of_nil in Hin; contradiction|].
  cbn [startup_scan].
  destruct (startup_item ids x) as [ids1|e1] eqn:Hitem; cbn [res_bind];
    [|eauto].
  apply elem_of_cons in Hin as [->|Hin]; [|apply IH; exact Hin].
  destruct x; try discriminate; cbn in Hitem; discriminate.
Qed.

(** [main_loop_startup] in terms of what the two stores hold. *)
Lemma main_loop_startup_run (w : fs) (all : json) :
  load_output_data w = (Ok all, w) ->
  main_loop_startup w
  = (res_bind (py_iter all) (fun items =>
       res_bind (startup_scan items
                   (ledger_ids (text_at w PROCESSED_CIRCULARS_FILE)))
         (fun ids => Ok (ids, all))), w).
Proof.
  intros Hload. unfold main_loop_startup.
  rewrite (bind_ok _ _ _ _ _ (load_processed_ids_run w)).
  rewrite (bind_ok _ _ _ _ _ Hload).
  unfold bind, lift_res, ret.
  destruct (py_iter all) as [items|e]; cbn [res_bind]; [|reflexivity].
  destruct (startup_scan items _) as [ids|e]; reflexivity.
Qed.

Lemma main_loop_startup_inv (w w' : fs) (ids : gset string) (all : json) :
  main_loop_startup w = (Ok (ids, all), w') ->
  w' = w
  /\ load_output_data w = (Ok all, w)
  /\ exists items,
       py_iter all = Ok items
       /\ startup_scan items
            (ledger_ids (text_at w PROCESSED_CIRCULARS_FILE)) = Ok ids.
Proof.
  intros Hrun.
  destruct (load_output_data w) as [r w1] eqn:Hload.
  assert (w1 = w) as -> by exact (load_output_data_disk _ _ _ Hload).
  destruct r as [all0|e].
  - rewrite (main_loop_startup_run w all0 Hload) in Hrun.
    destruct (py_iter all0) as [items|e] eqn:Hiter; cbn [res_bind] in Hrun;
      [|discriminate].
    destruct (startup_scan items _) as [ids0|e] eqn:Hscan;
      cbn [res_bind] in Hrun; [|discriminate].
    injection Hrun as <- <- <-. split; [reflexivity|].
    split; [reflexivity|]. exists items. rewrite Hiter. auto.
  - unfold main_loop_startup in Hrun.
    rewrite (bind_ok _ _ _ _ _ (load_processed_ids_run w)) in Hrun.
    rewrite (bind_raise _ _ _ _ _ Hload) in Hrun. discriminate.
Qed.

(** X20. When the start of [main_loop] returns, the disk is as it was,
    and the ledger in memory holds every identifier loaded from the ledger
    file; when the records loaded are a list, it also holds the identifier
    of every record that has one, and nothing else. *)
Theorem startup_ledger (w w' : fs) (ids : gset string) (all : json) :
  main_loop_startup w = (Ok (ids, all), w') ->
  w' = w
  /\ load_output_data w = (Ok all, w)
  /\ (exists on_disk, load_processed_ids w = (Ok on_disk, w)
                      /\ on_disk ⊆ ids)
  /\ (forall l, all = JArr l ->
        (forall m v, JObj m ∈ l -> m !! "circular_id" = Some v ->
           v <> JNull -> str_of v ∈ ids)
        /\ (forall i, i ∈ ids ->
              i ∈ ledger_ids (text_at w PROCESSED_CIRCULARS_FILE)
              \/ exists item v, item ∈ l
                                /\ py_getitem item "circular_id" = Ok v
                                /\ v <> JNull /\ i = str_of v)).
Proof.
  intros Hrun.
  destruct (main_loop_startup_inv _ _ _ _ Hrun)
    as (-> & Hload & items & Hiter & Hscan).
  destruct (startup_scan_Ok _ _ _ Hscan) as (Hsub & Hrec & Hfrom).
  split; [reflexivity|]. split; [exact Hload|]. split.
  { eexists. split; [apply load_processed_ids_run | exact Hsub]. }
  intros l ->. cbn [py_iter] in Hiter. injection Hiter as <-. auto.
Qed.

(** X21. When the result file holds a value that is neither a text nor a
    container, or a list with such an item, the start of [main_loop]
    raises a TypeError. *)
Theorem startup_rejects_scalars (w : fs) (all : json) :
  load_output_data w = (Ok all, w) ->
  is_scalar all = true
  \/ (exists l item, all = JArr l /\ item ∈ l /\ is_scalar item = true) ->
  exists e, main_loop_startup w = (Raise e, w) /\ exn_cls e = ETypeError.
Proof.
  intros Hload Hbad. rewrite (main_loop_startup_run w all Hload).
  destruct Hbad as [Hsc|(l & item & -> & Hin & Hsc)].
  - destruct all; try discriminate; cbn [py_iter res_bind]; eauto.
  - cbn [py_iter res_bind].
    destruct (startup_scan_scalar l
                (ledger_ids (text_at w PROCESSED_CIRCULARS_FILE)) item
                Hin Hsc) as [e He].
    rewrite He. cbn [res_bind]. exists e. split; [reflexivity|].
    exact (startup_scan_raises _ _ _ He).
Qed.

(** X22. Restart. After a pass that ran to its end from a state whose
    ledger could be loaded from a usable ledger file, over a list of
    clean identifiers: when the service starts again on the disk left, the
    ledger it starts with holds the ledger it stopped with, and a pass
    over the same list changes nothing. *)
Theorem restart_adds_nothing (l : list circ_info) (s s1 : st)
    (ids : gset string) (data : list json) (w2 : fs) :
  store_usable (st_fs s) PROCESSED_CIRCULARS_FILE = true ->
  lines_ended (ledger_text s) ->
  Forall (fun c => clean_id (ci_id c) = true) l ->
  processed_ids s ⊆ ledger_ids (ledger_text s) ->
  run_pass l s = (Ok tt, s1) ->
  main_loop_startup (st_fs s1) = (Ok (ids, JArr data), w2) ->
  w2 = st_fs s1
  /\ processed_ids s1 ⊆ ids
  /\ run_pass l (polling_start w2 ids data)
     = (Ok tt, polling_start w2 ids data).
Proof.
  intros Hu Hended Hclean Hsync Hrun Hstart.
  assert (Hrun' := Hrun). unfold run_pass in Hrun'.
  rewrite (bind_ok _ _ _ _ _ (reset_counts_run s)) in Hrun'.
  destruct (for_each_ledger_on_disk (rev l)
              (St (st_fs s) (st_trace s) (processed_ids s)
                  (all_extracted_data s) 0 0) s1 _ Hu Hended
              ltac:(apply Forall_rev; exact Hclean) Hrun')
    as (_ & _ & Hids' & Hl').
  destruct (for_each_grows _ _ _ Hrun') as [_ Hall].
  destruct (main_loop_startup_inv _ _ _ _ Hstart)
    as (-> & _ & items & _ & Hscan).
  destruct (startup_scan_Ok _ _ _ Hscan) as (Hsub & _ & _).
  assert (Hin : processed_ids s1 ⊆ ids).
  { intros x Hx. apply Hsub. apply Hids' in Hx. cbn [processed_ids] in Hx.
    apply elem_of_union in Hx as [Hx|Hx]; [|exact Hx].
    apply Hl'. apply Hsync. exact Hx. }
  split; [reflexivity|]. split; [exact Hin|].
  unfold run_pass.
  rewrite (bind_ok _ _ _ _ _ (reset_counts_run _)).
  apply for_each_processed. cbn [processed_ids polling_start].
  eapply Forall_impl; [exact Hall|]. cbn beta. intros c Hc.
  apply Hin. exact Hc.
Qed.

End startup_properties.

(** *** main.py: one turn of the polling loop *)

Section cycle_properties.
Context `{Config, PyLib, Outside}.

Lemma store_usable_extends (s s1 : st) (p : string) :
  extends s s1 ->
  p <> Os.dirname PROCESSED_CIRCULARS_FILE ->
  Os.dirname p <> PROCESSED_CIRCULARS_FILE ->
  store_usable (st_fs s) p = true -> store_usable (st_fs s1) p = true.
Proof.
  intros (_ & _ & _ & Hf & _ & Hd) Hp Hdp Hu.
  destruct (store_usable_inv _ _ Hu) as (Ht & Hnd & Hnf & Hne).
  unfold store_usable. rewrite Ht. cbn [andb].
  rewrite (proj2 (String.eqb_neq _ _) Hne). cbn [negb].
  rewrite andb_true_r. apply andb_true_iff. split.
  - apply negb_true_iff, bool_decide_eq_false.
    destruct Hd as [-> | ->]; [exact Hnd|].
    intros Hx. apply elem_of_union in Hx as [Hx|Hx]; [|contradiction].
    apply elem_of_singleton in Hx. contradiction.
  - apply negb_true_iff, bool_decide_eq_false.
    rewrite (Hf _ Hdp), Hnf. intros [? ?]. discriminate.
Qed.

Lemma stores_apart_inv :
  stores_apart = true ->
  PROCESSED_CIRCULARS_FILE <> OUTPUT_JSON_FILE
  /\ PROCESSED_CIRCULARS_FILE <> OUTPUT_JSON_FILE +:+ ".tmp"
  /\ PROCESSED_CIRCULARS_FILE <> Os.dirname OUTPUT_JSON_FILE
  /\ Os.dirname PROCESSED_CIRCULARS_FILE <> OUTPUT_JSON_FILE
  /\ Os.dirname PROCESSED_CIRCULARS_FILE <> OUTPUT_JSON_FILE +:+ ".tmp".
Proof.
  unfold stores_apart. rewrite !andb_true_iff, !negb_true_iff.
  rewrite !String.eqb_neq. tauto.
Qed.

(** X23. After one turn of the polling loop that runs to its end, on
    usable stores that are apart: when records were appended, the result
    file holds the text of all the records in memory; when none was, the
    result file is as it was. The turn ends with the pause of the check
    interval. *)
Theorem cycle_saves_records (s s' : st) :
  store_usable (st_fs s) OUTPUT_JSON_FILE = true ->
  store_usable (st_fs s) (OUTPUT_JSON_FILE +:+ ".tmp") = true ->
  stores_apart = true ->
  poll_cycle s = (Ok tt, s') ->
  exists recs,
    all_extracted_data s' = all_extracted_data s ++ recs
    /\ (recs = [] ->
        files (st_fs s') !! OUTPUT_JSON_FILE
        = files (st_fs s) !! OUTPUT_JSON_FILE)
    /\ (recs <> [] ->
        forall text,
          json_dumps (JArr (all_extracted_data s')) = Ok text ->
          files (st_fs s') !! OUTPUT_JSON_FILE = Some text)
    /\ (exists evs,
          st_trace s'
          = st_trace s ++ evs ++ [EvSleep CHECK_INTERVAL_SECONDS]).
Proof.
  intros Hu Hut Hapart Hrun.
  destruct (stores_apart_inv Hapart) as (Hne1 & Hne2 & Hne3 & Hne4 & Hne5).
  assert (Hidle : emit [EvSleep CHECK_INTERVAL_SECONDS] s = (Ok tt, s') ->
            exists recs,
              all_extracted_data s' = all_extracted_data s ++ recs
              /\ (recs = [] ->
                  files (st_fs s') !! OUTPUT_JSON_FILE
                  = files (st_fs s) !! OUTPUT_JSON_FILE)
              /\ (recs <> [] ->
                  forall text,
                    json_dumps (JArr (all_extracted_data s')) = Ok text ->
                    files (st_fs s') !! OUTPUT_JSON_FILE = Some text)
              /\ (exists evs,
                    st_trace s'
                    = st_trace s ++ evs ++ [EvSleep CHECK_INTERVAL_SECONDS])).
  { unfold emit. intros E. injection E as <-.
    exists []. cbn [all_extracted_data st_fs st_trace].
    split; [symmetry; apply app_nil_r|]. split; [reflexivity|].
    split; [congruence|]. exists []. reflexivity. }
  unfold poll_cycle in Hrun.
  destruct (get_page_content GCN_CIRCULARS_INDEX_URL) as [index_html|];
    [|exact (Hidle Hrun)].
  destruct (PyStr.truthy index_html); cbn [negb] in Hrun;
    [|exact (Hidle Hrun)].
  destruct (parse_gcn_circular_list index_html) as [|c0 l0] eqn:Hlist;
    [exact (Hidle Hrun)|].
  clear Hidle. revert Hrun. generalize (c0 :: l0). intros l Hrun.
  unfold bind at 1 in Hrun.
  destruct (run_pass l s) as [[[]|e] s1] eqn:Hpass; [|discriminate].
  unfold run_pass in Hpass.
  rewrite (bind_ok _ _ _ _ _ (reset_counts_run s)) in Hpass.
  pose proof (for_each_extends _ _ _ _ Hpass) as Hext.
  destruct (for_each_records _ _ _ Hpass)
    as (done & recs & Hdata & Hnew & _).
  cbn [all_extracted_data new_circulars_processed_this_cycle] in Hdata, Hnew.
  assert (Hu1 : store_usable (st_fs s1) OUTPUT_JSON_FILE = true).
  { apply (store_usable_extends _ s1 _ Hext); [congruence|congruence|].
    exact Hu. }
  assert (Hut1 : store_usable (st_fs s1) (OUTPUT_JSON_FILE +:+ ".tmp") = true).
  { apply (store_usable_extends _ s1 _ Hext); [congruence| |exact Hut].
    rewrite (dirname_app _ _ tmp_no_slash). congruence. }
  destruct Hext as (_ & _ & [evs Htr] & Hfiles & _ & _).
  cbn [st_fs st_trace] in Hfiles, Htr.
  unfold bind at 1 in Hrun. unfold get at 1 in Hrun.
  rewrite Hnew in Hrun. cbn [Nat.add] in Hrun.
  exists (JObj <$> recs). split.
  { destruct recs as [|rec recs]; cbn [length Nat.ltb Nat.leb when] in Hrun.
    - unfold bind, ret, emit in Hrun. injection Hrun as <-.
      cbn [all_extracted_data]. exact Hdata.
    - unfold bind, on_fs in Hrun.
      destruct (save_output_data _ (st_fs s1)) as [[[]|e] w2];
        [|discriminate].
      unfold emit in Hrun. injection Hrun as <-.
      cbn [all_extracted_data]. exact Hdata. }
  destruct recs as [|rec recs]; cbn [length Nat.ltb Nat.leb when] in Hrun.
  - unfold bind, ret, emit in Hrun. injection Hrun as <-.
    cbn [all_extracted_data st_fs st_trace fmap list_fmap].
    split; [intros _; apply Hfiles; congruence|].
    split; [congruence|].
    exists evs. rewrite Htr, app_assoc. reflexivity.
  - split; [discriminate|].
    unfold bind, on_fs in Hrun.
    destruct (save_output_data _ (st_fs s1)) as [[[]|e] w2] eqn:Hsave;
      [|discriminate].
    unfold emit in Hrun. injection Hrun as <-.
    cbn [all_extracted_data st_fs st_trace].
    split.
    + intros _ text Hdump.
      destruct (save_output_data_run (st_fs s1)
                  (JArr (all_extracted_data s1)) text Hu1 Hut1 Hdump)
        as (w2' & Hsave' & Hfiles2 & _).
      assert (w2' = w2) as -> by congruence.
      rewrite Hfiles2. apply lookup_insert_eq.
    + exists evs. rewrite Htr, app_assoc. reflexivity.
Qed.

End cycle_properties.

(** *** Splitting *)

Lemma split_not_nil (sep : ascii) (s : string) : PyText.split sep s <> [].
Proof.
  destruct s as [|c s]; cbn [PyText.split]; [discriminate|].
  destruct (Ascii.eqb c sep); [discriminate|].
  destruct (PyText.split sep s); discriminate.
Qed.

Lemma split_no_sep (sep : ascii) (s : string) :
  PyText.has_char sep s = false -> PyText.split sep s = [s].
Proof.
  induction s as [|c s IH]; [reflexivity|].
  cbn [PyText.has_char PyText.split]. intros Hs.
  apply orb_false_iff in Hs as [Hc Hs]. rewrite Hc, (IH Hs). reflexivity.
Qed.

Lemma split_app_sep (sep : ascii) (a b : string) :
  PyText.split sep (a +:+ String sep b)
  = PyText.split sep a ++ PyText.split sep b.
Proof.
  induction a as [|c a IH].
  - change (EmptyString +:+ String sep b) with (String sep b).
    cbn [PyText.split]. rewrite Ascii.eqb_refl. reflexivity.
  - change (String c a +:+ String sep b) with (String c (a +:+ String sep b)).
    cbn [PyText.split]. destruct (Ascii.eqb c sep).
    + rewrite IH. reflexivity.
    + rewrite IH. destruct (PyText.split sep a) as [|p ps] eqn:E;
        [exfalso; exact (split_not_nil _ _ E) | reflexivity].
Qed.

Lemma from_end_app_1 {A} (l : list A) (x : A) :
  PyText.from_end (l ++ [x]) 1 = Some x.
Proof. unfold PyText.from_end. rewrite rev_app_distr. reflexivity. Qed.

Lemma from_end_app_2 {A} (l : list A) (x y : A) :
  PyText.from_end (l ++ [x; y]) 2 = Some x.
Proof. unfold PyText.from_end. rewrite rev_app_distr. reflexivity. Qed.

Lemma all_digits_no_char (c : ascii) (s : string) :
  PyText.isdigit_char c = false ->
  PyText.all_digits s = true -> PyText.has_char c s = false.
Proof.
  intros Hc. induction s as [|x s IH]; [reflexivity|].
  cbn [PyText.all_digits PyText.has_char]. intros Hs.
  apply andb_true_iff in Hs as [Hx Hs]. rewrite (IH Hs), orb_false_r.
  destruct (Ascii.eqb_spec x c) as [->|]; [congruence | reflexivity].
Qed.

Lemma isdigit_inv (s : string) :
  PyText.isdigit s = true ->
  PyStr.truthy s = true /\ PyText.all_digits s = true.
Proof. unfold PyText.isdigit. apply andb_true_iff. Qed.

Lemma has_char_isdigit (c : ascii) (s : string) :
  PyText.isdigit_char c = false -> PyText.has_char c s = true ->
  PyText.isdigit s = false.
Proof.
  intros Hc Hs. destruct (PyText.isdigit s) eqn:E; [|reflexivity].
  apply isdigit_inv in E as [_ E].
  rewrite (all_digits_no_char c s Hc E) in Hs. discriminate.
Qed.

Lemma has_char_app (c : ascii) (a b : string) :
  PyText.has_char c (a +:+ b) = PyText.has_char c a || PyText.has_char c b.
Proof.
  induction a as [|x a IH]; [reflexivity|].
  change (String x a +:+ b) with (String x (a +:+ b)).
  cbn [PyText.has_char]. rewrite IH. apply orb_assoc.
Qed.

Lemma has_char_mid (c : ascii) (a b : string) :
  PyText.has_char c (a +:+ String c b) = true.
Proof.
  rewrite has_char_app. cbn [PyText.has_char]. rewrite Ascii.eqb_refl.
  apply orb_true_r.
Qed.

Lemma prefix_app_l (p a b : string) :
  String.prefix p a = true -> String.prefix p (a +:+ b) = true.
Proof.
  revert a. induction p as [|c p IH]; intros a.
  - intros _. destruct (a +:+ b); reflexivity.
  - destruct a as [|x a]; [discriminate|].
    change (String x a +:+ b) with (String x (a +:+ b)).
    cbn [String.prefix]. destruct (ascii_dec c x); [apply IH | discriminate].
Qed.

Lemma isdigit_not_unknown (s : string) :
  PyText.isdigit s = true -> String.eqb s "unknown_from_url" = false.
Proof.
  intros Hs. apply String.eqb_neq. intros ->. discriminate.
Qed.

(** *** debug_circular_parser.py *)

Section debug_properties.
Context `{Config, PyLib, Outside}.

Lemma debug_target_url (url d : string) :
  PyText.isdigit url = false ->
  PyStr.startswith url "http" = true ->
  circular_id_from_url url = d ->
  PyText.isdigit d = true ->
  debug_target url = Some (d, url).
Proof.
  intros Hnd Hhttp Hid Hd. unfold debug_target.
  rewrite Hnd, Hhttp. cbv zeta. rewrite Hid.
  destruct (isdigit_inv d Hd) as [Ht _].
  rewrite Ht, (isdigit_not_unknown d Hd). reflexivity.
Qed.

(** X24. [debug_parse_url] on a text of digits [d] works on the
    identifier [d] and on the URL of its page; on a URL that starts with
    http and ends with a slash and [d], or with a slash, [d] and a slash,
    it works on the identifier [d] and on that URL. *)
Theorem debug_target_forms (base d : string) :
  PyText.isdigit d = true ->
  debug_target d
  = Some (d, urljoin BASE_GCN_URL ("/circulars/" +:+ d))
  /\ (PyStr.startswith base "http" = true ->
      debug_target (base +:+ "/" +:+ d) = Some (d, base +:+ "/" +:+ d)
      /\ debug_target (base +:+ "/" +:+ d +:+ "/")
         = Some (d, base +:+ "/" +:+ d +:+ "/")).
Proof.
  intros Hd. destruct (isdigit_inv d Hd) as [Ht Hall].
  assert (Hslash : PyText.has_char "/" d = false)
    by (apply all_digits_no_char; [reflexivity | exact Hall]).
  split.
  { unfold debug_target. rewrite Hd. cbv zeta.
    rewrite Ht, (isdigit_not_unknown d Hd). reflexivity. }
  intros Hhttp. split.
  - apply debug_target_url.
    + apply (has_char_isdigit "/"); [reflexivity|].
      apply (has_char_mid "/" base d).
    + apply prefix_app_l. exact Hhttp.
    + unfold circular_id_from_url. cbv zeta.
      change (base +:+ "/" +:+ d) with (base +:+ String "/" d).
      rewrite split_app_sep, (split_no_sep _ _ Hslash).
      rewrite from_end_app_1, Hd. reflexivity.
    + exact Hd.
  - apply debug_target_url.
    + apply (has_char_isdigit "/"); [reflexivity|].
      apply (has_char_mid "/" base (d +:+ "/")).
    + apply prefix_app_l. exact Hhttp.
    + unfold circular_id_from_url. cbv zeta.
      change (base +:+ "/" +:+ d +:+ "/")
        with (base +:+ String "/" (d +:+ String "/" EmptyString)).
      rewrite !split_app_sep, (split_no_sep _ _ Hslash).
      cbn [PyText.split app].
      rewrite from_end_app_2.
      replace (PyText.split "/" base ++ [d; EmptyString])
        with ((PyText.split "/" base ++ [d]) ++ [EmptyString])
        by (rewrite <- app_assoc; reflexivity).
      rewrite from_end_app_1. rewrite Hd. reflexivity.
    + exact Hd.
Qed.





End debug_properties.

(** *** Further examples *)

(** Bulletin 150 marked on an empty disk and read back. *)
Lemma ledger_append_then_load_example :
  let cfg := Demo.config 3 None in
  exists w1 before,
    @load_processed_ids cfg Demo.empty_disk = (Ok before, Demo.empty_disk)
    /\ @save_processed_id cfg "150" Demo.empty_disk = (Ok tt, w1)
    /\ @load_processed_ids cfg w1 = (Ok (before ∪ {[ "150" ]}), w1).
Proof.
  intros cfg.
  exact (@ledger_append_then_load cfg Demo.empty_disk "150"
           ltac:(vm_compute; reflexivity)
           ltac:(left; vm_compute; reflexivity)
           ltac:(vm_compute; reflexivity)).
Defined.

(** A ledger file that holds 12 without a line feed: marking 34 leaves
    the single identifier 1234. *)
Lemma ledger_unended_line_glued_example :
  let cfg := Demo.config 3 None in
  exists w1,
    @save_processed_id cfg "34" DemoMore.unended_disk = (Ok tt, w1)
    /\ @load_processed_ids cfg w1 = (Ok (∅ ∪ {[ "1234" ]}), w1).
Proof.
  intros cfg.
  exact (@ledger_unended_line_glued cfg DemoMore.unended_disk
           EmptyString "12" "34"
           ltac:(vm_compute; reflexivity)
           ltac:(vm_compute; reflexivity)
           ltac:(left; reflexivity)
           ltac:(vm_compute; reflexivity)
           ltac:(vm_compute; reflexivity)).
Defined.

(** Records that cannot be written: the stored record stays. *)
Lemma save_output_data_failure_example :
  let cfg := Demo.config 3 None in
  let w := DemoMore.stored_disk in
  exists w1,
    @save_output_data cfg DemoMore.lib_no_dumps (JArr [JObj Demo.record]) w
    = (Ok tt, w1)
    /\ files w1 = delete (@OUTPUT_JSON_FILE cfg +:+ ".tmp") (files w)
    /\ files w1 !! @OUTPUT_JSON_FILE cfg = files w !! @OUTPUT_JSON_FILE cfg
    /\ files w1 !! (@OUTPUT_JSON_FILE cfg +:+ ".tmp") = None.
Proof.
  intros cfg w.
  exact (@save_output_data_failure cfg DemoMore.lib_no_dumps w
           (JArr [JObj Demo.record])
           (PyExn ETypeError "Object of type set is not JSON serializable")
           ltac:(vm_compute; reflexivity)
           ltac:(vm_compute; reflexivity)
           ltac:(reflexivity)).
Defined.

(** An answer that spells a boolean as the string TRUE, field by field. *)
Lemma extract_prompt_fields_example :
  let cfg := Demo.config 3 None in
  let out := Demo.outside Demo.long_page Demo.no_page Demo.answers_in_strings
               Demo.listing in
  let parsed := JObj (<["is_upper_limit" := JStr "TRUE"]>
                        (<["circular_id" := JStr "0"]> ∅)) in
  exists r tr,
    @extract_info_with_llm cfg Demo.lib out
      "Swift detection of GRB 250101A" "150"
      "https://gcn.nasa.gov/circulars/150" (Some "GRB 250101A")
    = (Ok r, tr)
    /\ Forall (fun k =>
                 r !! k
                 = Some (if bool_decide (k ∈ boolean_keys)
                         then JBool (as_bool (answer_field parsed k))
                         else default JNull (answer_field parsed k)))
              ordered_keys_for_prompt.
Proof.
  intros cfg out parsed.
  exact (@extract_prompt_fields cfg Demo.lib out
           "Swift detection of GRB 250101A" "150"
           "https://gcn.nasa.gov/circulars/150" (Some "GRB 250101A")
           0%nat parsed
           ltac:(vm_compute; reflexivity)
           ltac:(vm_compute; reflexivity)).
Defined.

(** A service that always times out: the record is the default record
    with an error message. *)
Lemma extract_failure_record_example :
  let cfg := Demo.config 3 None in
  let out := Demo.outside Demo.long_page Demo.no_page Demo.always_timeout
               Demo.listing in
  exists r tr,
    @extract_info_with_llm cfg Demo.lib out
      "Swift detection of GRB 250101A" "150"
      "https://gcn.nasa.gov/circulars/150" (Some "GRB 250101A")
    = (Ok r, tr)
    /\ (forall k, k <> "llm_error_message" ->
          r !! k
          = get_default_extracted_data (JStr "150")
              (JStr "https://gcn.nasa.gov/circulars/150")
              (json_of_text (Some "GRB 250101A"))
              (JStr "Swift detection of GRB 250101A") !! k)
    /\ (exists message, r !! "llm_error_message" = Some (JStr message)).
Proof.
  intros cfg out.
  destruct (@extract_failure_record cfg Demo.lib out
              "Swift detection of GRB 250101A" "150"
              "https://gcn.nasa.gov/circulars/150" (Some "GRB 250101A")
              ltac:(vm_compute; reflexivity))
    as (r & tr & Hrun & Hkeys & _ & Hmessage).
  exists r, tr. split; [exact Hrun|]. split; [exact Hkeys|].
  apply Hmessage. reflexivity.
Defined.

(** A body that is an empty list. *)
Lemma body_not_object_fails_example :
  (exists e, @parse_api_response Demo.lib "150" (JArr []) = Raise e
             /\ (exn_cls e = ETypeError \/ exn_cls e = EValueError))
  /\ @succeeds Demo.lib "150" (Responded "[]" (inr (JArr []))) = false.
Proof.
  exact (@body_not_object_fails Demo.lib "150" "[]" (JArr [])
           ltac:(reflexivity)).
Defined.

(** An envelope around a null answer: a successful record without data. *)
Lemma enveloped_scalar_response_succeeds_example :
  let cfg := Demo.config 3 None in
  let out := Demo.outside Demo.long_page Demo.no_page DemoMore.answers_null
               Demo.listing in
  exists r tr,
    @extract_info_with_llm cfg Demo.lib out
      "Swift detection of GRB 250101A" "150"
      "https://gcn.nasa.gov/circulars/150" (Some "GRB 250101A")
    = (Ok r, tr)
    /\ tr = [EvPost "150" 0]
    /\ r !! "extraction_successful" = Some (JBool true)
    /\ r !! "llm_error_message" = Some JNull
    /\ Forall (fun k =>
                 DemoMore.null_envelope !! k = None ->
                 r !! k
                 = get_default_extracted_data (JStr "150")
                     (JStr "https://gcn.nasa.gov/circulars/150")
                     (json_of_text (Some "GRB 250101A"))
                     (JStr "Swift detection of GRB 250101A") !! k)
              ordered_keys_for_prompt.
Proof.
  intros cfg out.
  exact (@enveloped_scalar_response_succeeds cfg Demo.lib out
           "Swift detection of GRB 250101A" "150"
           "https://gcn.nasa.gov/circulars/150" (Some "GRB 250101A")
           "..." DemoMore.null_envelope JNull
           ltac:(reflexivity)
           ltac:(reflexivity)
           ltac:(exists (JStr "llama3"); vm_compute; reflexivity)
           ltac:(vm_compute; reflexivity)
           ltac:(reflexivity)
           ltac:(reflexivity)).
Defined.

(** An empty object inside a fence, with blanks around. *)
Lemma fenced_answer_is_read_example :
  strip_fence " ```json {} ``` " = "{}"
  /\ @parse_wrapped Demo.lib " ```json {} ``` " = Ok (JObj ∅).
Proof.
  exact (@fenced_answer_is_read Demo.lib " ```json {} ``` " " {} " (JObj ∅)
           "Expecting value: line 1 column 1 (char 0)"
           ltac:(vm_compute; reflexivity)
           ltac:(vm_compute; reflexivity)
           ltac:(vm_compute; reflexivity)).
Defined.

(** The pass of the examples, with the floor at 100. *)
Lemma pass_only_appends_example :
  let cfg := Demo.config 3 (Some "100") in
  let out := Demo.outside Demo.long_page Demo.no_page Demo.always_timeout
               Demo.listing in
  let s := Demo.start Demo.empty_disk in
  let s' := snd (@run_pass cfg Demo.lib out Demo.listing s) in
  processed_ids s ⊆ processed_ids s'
  /\ (exists recs, all_extracted_data s' = all_extracted_data s ++ recs)
  /\ (exists evs, st_trace s' = st_trace s ++ evs)
  /\ (forall p, p <> @PROCESSED_CIRCULARS_FILE cfg ->
        files (st_fs s') !! p = files (st_fs s) !! p)
  /\ (exists added, @ledger_text cfg s' = @ledger_text cfg s +:+ added).
Proof.
  intros cfg out s s'.
  exact (@pass_only_appends cfg Demo.lib out Demo.listing s s' (Ok tt)
           ltac:(vm_compute; reflexivity)).
Defined.

Lemma pass_records_example :
  let cfg := Demo.config 3 (Some "100") in
  let out := Demo.outside Demo.long_page Demo.no_page Demo.always_timeout
               Demo.listing in
  let s := Demo.start Demo.empty_disk in
  let s' := snd (@run_pass cfg Demo.lib out Demo.listing s) in
  exists (done : list circ_info) (recs : list (gmap string json)),
    all_extracted_data s' = all_extracted_data s ++ (JObj <$> recs)
    /\ new_circulars_processed_this_cycle s' = length recs
    /\ processed_ids s'
       = processed_ids s ∪ list_to_set (ci_id <$> Demo.listing)
    /\ sublist done (rev Demo.listing)
    /\ Forall2 (fun c rec =>
                  rec !! "circular_id" = Some (JStr (ci_id c))
                  /\ @processed_as cfg Demo.lib out c rec) done recs
    /\ NoDup (ci_id <$> done)
    /\ Forall (fun c => (ci_id c ∉ processed_ids s)
                        /\ exists n, PyStr.int (ci_id c) = Some n
                                     /\ @below_floor cfg n = false) done.
Proof.
  intros cfg out s s'.
  exact (@pass_records cfg Demo.lib out Demo.listing s s'
           ltac:(vm_compute; reflexivity)).
Defined.




(** After the pass of the examples the ledger file gives the ledger. *)
Lemma pass_keeps_ledger_on_disk_example :
  let cfg := Demo.config 3 (Some "100") in
  let out := Demo.outside Demo.long_page Demo.no_page Demo.always_timeout
               Demo.listing in
  let s := Demo.start Demo.empty_disk in
  let s' := snd (@run_pass cfg Demo.lib out Demo.listing s) in
  exists on_disk,
    @load_processed_ids cfg (st_fs s') = (Ok on_disk, st_fs s')
    /\ processed_ids s' ⊆ on_disk
    /\ store_usable (st_fs s') (@PROCESSED_CIRCULARS_FILE cfg) = true
    /\ lines_ended (@ledger_text cfg s').
Proof.
  intros cfg out s s'.
  apply (@pass_keeps_ledger_on_disk cfg Demo.lib out Demo.listing s s'
           (Ok tt)).
  - vm_compute. reflexivity.
  - left. vm_compute. reflexivity.
  - repeat constructor.
  - intros x Hx. exfalso. exact (not_elem_of_empty x Hx).
  - vm_compute. reflexivity.
Defined.

(** One turn of the polling loop on an empty disk. *)
Lemma cycle_saves_records_example :
  let cfg := Demo.config 3 (Some "100") in
  let out := Demo.outside Demo.long_page Demo.no_page Demo.always_timeout
               Demo.listing in
  let s := Demo.start Demo.empty_disk in
  let s' := snd (@poll_cycle cfg Demo.lib out s) in
  exists recs,
    all_extracted_data s' = all_extracted_data s ++ recs
    /\ (recs = [] ->
        files (st_fs s') !! @OUTPUT_JSON_FILE cfg
        = files (st_fs s) !! @OUTPUT_JSON_FILE cfg)
    /\ (recs <> [] ->
        forall text,
          @json_dumps Demo.lib (JArr (all_extracted_data s')) = Ok text ->
          files (st_fs s') !! @OUTPUT_JSON_FILE cfg = Some text)
    /\ (exists evs,
          st_trace s'
          = st_trace s ++ evs ++ [EvSleep (@CHECK_INTERVAL_SECONDS cfg)]).
Proof.
  intros cfg out s s'.
  exact (@cycle_saves_records cfg Demo.lib out s s'
           ltac:(vm_compute; reflexivity)
           ltac:(vm_compute; reflexivity)
           ltac:(vm_compute; reflexivity)
           ltac:(vm_compute; reflexivity)).
Defined.

(** A start on a disk with one identifier in the ledger file and the
    stored record of bulletin 150. *)
Lemma startup_ledger_example :
  let cfg := Demo.config 3 None in
  let w := DemoMore.stored_disk in
  let ids : gset string := {[ "150" ]} ∪ {[ "42" ]} in
  let all := JArr [JObj Demo.record] in
  w = w
  /\ @load_output_data cfg Demo.lib w = (Ok all, w)
  /\ (exists on_disk, @load_processed_ids cfg w = (Ok on_disk, w)
                      /\ on_disk ⊆ ids)
  /\ (forall l, all = JArr l ->
        (forall m v, JObj m ∈ l -> m !! "circular_id" = Some v ->
           v <> JNull -> @str_of Demo.lib v ∈ ids)
        /\ (forall i, i ∈ ids ->
              i ∈ ledger_ids (text_at w (@PROCESSED_CIRCULARS_FILE cfg))
              \/ exists item v, item ∈ l
                                /\ py_getitem item "circular_id" = Ok v
                                /\ v <> JNull /\ i = @str_of Demo.lib v)).
Proof.
  intros cfg w ids all.
  exact (@startup_ledger cfg Demo.lib w w ids all
           ltac:(vm_compute; reflexivity)).
Defined.

(** A result file that holds a list with a number. *)
Lemma startup_rejects_scalars_example :
  let cfg := Demo.config 3 None in
  exists e,
    @main_loop_startup cfg DemoMore.lib_numbers DemoMore.numbers_disk
    = (Raise e, DemoMore.numbers_disk)
    /\ exn_cls e = ETypeError.
Proof.
  intros cfg.
  apply (@startup_rejects_scalars cfg DemoMore.lib_numbers
           DemoMore.numbers_disk (JArr [JInt 1])).
  - vm_compute. reflexivity.
  - right. exists [JInt 1], (JInt 1).
    split; [reflexivity|]. split; [constructor | reflexivity].
Defined.

(** The pass of the examples, a restart, and the same pass again. *)
Lemma restart_adds_nothing_example :
  let cfg := Demo.config 3 None in
  let out := Demo.outside Demo.long_page Demo.no_page Demo.always_timeout
               Demo.listing in
  let s := Demo.start Demo.empty_disk in
  let s1 := snd (@run_pass cfg Demo.lib out Demo.listing s) in
  let ids := ledger_ids DemoMore.ledger_after in
  st_fs s1 = st_fs s1
  /\ processed_ids s1 ⊆ ids
  /\ @run_pass cfg Demo.lib out Demo.listing (polling_start (st_fs s1) ids [])
     = (Ok tt, polling_start (st_fs s1) ids []).
Proof.
  intros cfg out s s1 ids.
  apply (@restart_adds_nothing cfg Demo.lib out Demo.listing s s1 ids []
           (st_fs s1)).
  - vm_compute. reflexivity.
  - left. vm_compute. reflexivity.
  - repeat constructor.
  - intros x Hx. exfalso. exact (not_elem_of_empty x Hx).
  - vm_compute. reflexivity.
  - vm_compute. reflexivity.
Defined.

(** The identifier 150, given as such and in the URL of its page. *)
Lemma debug_target_forms_example :
  let cfg := Demo.config 3 None in
  @debug_target cfg Demo.lib "150"
  = Some ("150", "https://gcn.nasa.gov/circulars/150")
  /\ @debug_target cfg Demo.lib "https://gcn.nasa.gov/circulars/150"
     = Some ("150", "https://gcn.nasa.gov/circulars/150")
  /\ @debug_target cfg Demo.lib "https://gcn.nasa.gov/circulars/150/"
     = Some ("150", "https://gcn.nasa.gov/circulars/150/").
Proof.
  intros cfg.
  destruct (@debug_target_forms cfg Demo.lib
              "https://gcn.nasa.gov/circulars" "150" ltac:(reflexivity))
    as [Hid Hurl].
  split; [exact Hid|]. exact (Hurl ltac:(reflexivity)).
Defined.

